(** * cc-wrapped: the usage aggregation and merge engine

    A shallow embedding of [src/collector.ts] (usage reducer, source
    locator, cache reader) and [src/stats.ts] (stats merger, streaks,
    distributions), followed by the properties stated about them.

    Conventions of the embedding:
    - token counts and event counts are JavaScript numbers holding
      integers; they are modelled as [Z] (exact below 2^53);
    - costs, shares and percentages are modelled as exact rationals [Q];
      the apportionment ratio and its products, whose rounding decides
      the integers the code keeps, are binary64 values ([Double]);
    - a JavaScript [Map] or [Set] keeps insertion order, which the code
      observes (first-wins ties, stable sorts): both are association
      lists / lists without duplicates, updated in place;
    - a [Date] is its time value in milliseconds since the epoch, or
      [None] for an invalid date;
    - the collaborators that live outside the two files (pricing table,
      model directory, file system, JSON parser, host time zone, clock)
      are the fields of one context record [Env]. *)

From Stdlib Require Import ZArith QArith Qround List String Ascii Bool Lia.
From Stdlib Require Import DecimalString Permutation Sorted.
From Stdlib Require SpecFloat.
Import ListNotations.

Local Open Scope Z_scope.

(** ** JavaScript built-ins used by the code *)

Module JS.

(** [x ?? d] on an optional field. *)
Definition nullish {A : Type} (x : option A) (d : A) : A :=
match x with
| Some v => v
| None => d
end.

(** [Math.round]: the nearest integer, halves towards +infinity. *)
Definition Math_round (q : Q) : Z := Qfloor (q + (1 # 2))%Q.

Definition Math_max (a b : Z) : Z := Z.max a b.

(** [String(n)] for an integer. *)
Definition String_of_Z (n : Z) : string := NilZero.string_of_int (Z.to_int n).

(** [String(n).padStart(2, "0")]. *)
Definition padStart2 (s : string) : string :=
match String.length s with
| O => "00"%string
| S O => String "0"%char s
| _ => s
end.

(** [s.startsWith(p)]. *)
Definition startsWith (s p : string) : bool := String.prefix p s.

(** White space removed by [trim], within the ASCII range. *)
Definition isWhiteSpace (c : ascii) : bool :=
let n := N_of_ascii c in
(((9 <=? n) && (n <=? 13)) || (n =? 32))%N.

Fixpoint trimStart (s : string) : string :=
match s with
| EmptyString => EmptyString
| String c rest => if isWhiteSpace c then trimStart rest else s
end.

Fixpoint allWhiteSpace (s : string) : bool :=
match s with
| EmptyString => true
| String c rest => isWhiteSpace c && allWhiteSpace rest
end.

Fixpoint trimEnd (s : string) : string :=
match s with
| EmptyString => EmptyString
| String c rest => if allWhiteSpace s then EmptyString else String c (trimEnd rest)
end.

Definition trim (s : string) : string := trimEnd (trimStart s).

(** Truthiness of a string. *)
Definition truthy (s : string) : bool := negb (String.eqb s EmptyString).

(** [s.split(sep)] for a one-character separator. *)
Fixpoint splitAux (sep : ascii) (cur : string) (s : string) : list string :=
match s with
| EmptyString => [cur]
| String c rest =>
    if Ascii.eqb c sep then cur :: splitAux sep EmptyString rest
    else splitAux sep (cur ++ String c EmptyString)%string rest
end.

Definition split (sep : ascii) (s : string) : list string := splitAux sep EmptyString s.

(** [Array.prototype.sort()] with the default comparison on strings
    (code-unit order); the sort is stable. *)
Fixpoint insertSorted (x : string) (l : list string) : list string :=
match l with
| [] => [x]
| y :: rest => if String.leb x y then x :: l else y :: insertSorted x rest
end.

Fixpoint sortStrings (l : list string) : list string :=
match l with
| [] => []
| x :: rest => insertSorted x (sortStrings rest)
end.

(** [Array.prototype.sort((a, b) => b.count - a.count)]: stable, by
    descending key. *)
Section SortDesc.
Context {A : Type} (key : A -> Z).

Fixpoint insertDesc (x : A) (l : list A) : list A :=
match l with
| [] => [x]
| y :: rest => if key y <? key x then x :: l else y :: insertDesc x rest
end.

Definition sortDesc (l : list A) : list A :=
fold_left (fun acc x => insertDesc x acc) l [].

End SortDesc.

(** *** [Map<string, V>] in insertion order *)

Definition Map (V : Type) : Type := list (string * V).

Fixpoint Map_get {V : Type} (m : Map V) (k : string) : option V :=
match m with
| [] => None
| (k', v) :: rest => if String.eqb k k' then Some v else Map_get rest k
end.

Definition Map_has {V : Type} (m : Map V) (k : string) : bool :=
match Map_get m k with
| Some _ => true
| None => false
end.

(** [m.set(k, v)]: an existing key keeps its position. *)
Fixpoint Map_set {V : Type} (m : Map V) (k : string) (v : V) : Map V :=
match m with
| [] => [(k, v)]
| (k', v') :: rest =>
    if String.eqb k k' then (k', v) :: rest else (k', v') :: Map_set rest k v
end.

Definition Map_keys {V : Type} (m : Map V) : list string := map fst m.

Definition Map_size {V : Type} (m : Map V) : Z := Z.of_nat (List.length m).

(** [(m.get(k) || 0) + n] followed by [m.set]. *)
Definition Map_add (m : Map Z) (k : string) (n : Z) : Map Z :=
Map_set m k (nullish (Map_get m k) 0 + n).

(** *** [Set<string>] in insertion order *)

Definition StrSet : Type := list string.

Definition Set_has (s : StrSet) (x : string) : bool :=
existsb (String.eqb x) s.

Definition Set_add (s : StrSet) (x : string) : StrSet :=
if Set_has s x then s else s ++ [x].

Definition Set_size (s : StrSet) : Z := Z.of_nat (List.length s).

End JS.

(** ** Binary64 arithmetic

    A JavaScript number is an IEEE 754 binary64 value. Where the code
    divides and multiplies before it rounds to an integer, the integer
    depends on the roundings of the two operations: they are carried
    out on [spec_float], the Standard Library's specification of binary
    floating-point arithmetic (round to nearest, ties to even). *)

Module Double.

Definition prec : Z := 53.
Definition emax : Z := 1024.

(** The number that holds the integer [n] (exactly, below 2^53). *)
Definition ofZ (n : Z) : SpecFloat.spec_float :=
SpecFloat.binary_normalize prec emax n 0 false.

(** [x / y] and [x * y]. *)
Definition div (x y : SpecFloat.spec_float) : SpecFloat.spec_float :=
SpecFloat.SFdiv prec emax x y.

Definition mul (x y : SpecFloat.spec_float) : SpecFloat.spec_float :=
SpecFloat.SFmul prec emax x y.

(** The real number a finite value stands for. *)
Definition valueOf (x : SpecFloat.spec_float) : option Q :=
match x with
| SpecFloat.S754_zero _ => Some 0%Q
| SpecFloat.S754_finite s m e =>
    Some (inject_Z (SpecFloat.cond_Zopp s (Zpos m)) * Qpower 2 e)%Q
| _ => None
end.

(** [Math.round(x)] as an integer: the integer nearest to the value,
    the larger one at a tie. [Math.round] gives NaN and the infinities
    back unchanged; they are no counts, and the model answers 0. *)
Definition Math_round (x : SpecFloat.spec_float) : Z :=
match valueOf x with
| Some q => JS.Math_round q
| None => 0
end.

End Double.

(** ** Dates

    Time values are milliseconds since 1970-01-01T00:00:00Z. The civil
    calendar conversions are those of ECMAScript's [MakeDay] and
    [YearFromTime] / [MonthFromTime] / [DateFromTime] / [WeekDay]. *)

Module Dates.

Definition msPerDay : Z := 86400000.

(** Days since the epoch of the civil date [y]-[m]-[d] ([m] in 1..12). *)
Definition daysFromCivil (y m d : Z) : Z :=
let y' := if m <=? 2 then y - 1 else y in
let era := y' / 400 in
let yoe := y' - era * 400 in
let mp := if 2 <? m then m - 3 else m + 9 in
let doy := (153 * mp + 2) / 5 + d - 1 in
let doe := yoe * 365 + yoe / 4 - yoe / 100 + doy in
era * 146097 + doe - 719468.

(** The civil date (year, month 1..12, day) of a day number. *)
Definition civilFromDays (z : Z) : Z * Z * Z :=
let z' := z + 719468 in
let era := z' / 146097 in
let doe := z' - era * 146097 in
let yoe := (doe - doe / 1460 + doe / 36524 - doe / 146096) / 365 in
let doy := doe - (365 * yoe + yoe / 4 - yoe / 100) in
let mp := (5 * doy + 2) / 153 in
let d := doy - (153 * mp + 2) / 5 + 1 in
let m := if mp <? 10 then mp + 3 else mp - 9 in
let y := yoe + era * 400 in
((if m <=? 2 then y + 1 else y), m, d).

(** Day of the week of a day number, 0 = Sunday. *)
Definition weekDay (z : Z) : Z := (z + 4) mod 7.

Definition isLeapYear (y : Z) : bool :=
((y mod 4 =? 0) && negb (y mod 100 =? 0)) || (y mod 400 =? 0).

Definition daysInMonth (y m : Z) : Z :=
if m =? 2 then (if isLeapYear y then 29 else 28)
else if (m =? 4) || (m =? 6) || (m =? 9) || (m =? 11) then 30
else 31.

Definition digit (c : ascii) : option Z :=
let n := Z.of_N (N_of_ascii c) in
if (48 <=? n) && (n <=? 57) then Some (n - 48) else None.

Definition isDash (c : ascii) : bool := Ascii.eqb c "-"%char.

(** The fields of a string of the exact shape [YYYY-MM-DD]. *)
Definition dateKeyFields (s : string) : option (Z * Z * Z) :=
match list_ascii_of_string s with
| [y1; y2; y3; y4; s1; m1; m2; s2; d1; d2] =>
    match digit y1, digit y2, digit y3, digit y4,
          digit m1, digit m2, digit d1, digit d2 with
    | Some a, Some b, Some c, Some d, Some e, Some f, Some g, Some h =>
        if isDash s1 && isDash s2
        then Some (1000 * a + 100 * b + 10 * c + d, 10 * e + f, 10 * g + h)
        else None
    | _, _, _, _, _, _, _, _ => None
    end
| _ => None
end.

(** The day number of a key [YYYY-MM-DD] that names a calendar date. *)
Definition dateKeyDay (s : string) : option Z :=
match dateKeyFields s with
| Some (y, m, d) =>
    if (1 <=? m) && (m <=? 12) && (1 <=? d) && (d <=? daysInMonth y m)
    then Some (daysFromCivil y m d)
    else None
| None => None
end.

(** [Date.parse] on the ISO date-only form, which ECMAScript reads as
    midnight UTC of that calendar date. *)
Definition parseDateOnly (s : string) : option Z :=
match dateKeyDay s with
| Some day => Some (day * msPerDay)
| None => None
end.

End Dates.

(** ** The raw event record

    One parsed line of a log file, reduced to what the reducer reads of
    it. An optional field is [None] when the property is absent or has
    another type than the one the code tests for. *)

Module Raw.

(** [entry.timestamp]: the reducer accepts a number or a string. *)
Inductive JsTimestamp : Type :=
| TsOther
| TsNumber (ms : Z)
| TsString (s : string).

(** [message.usage]; a field is [None] when it is not a finite number. *)
Record Usage : Type := {
  input_tokens : option Z;
  output_tokens : option Z;
  cache_creation_input_tokens : option Z;
  cache_read_input_tokens : option Z
}.

(** [entry.message]; [id] in its string form, [model] present when it is
    a string. *)
Record Message : Type := {
  id : option string;
  model : option string;
  usage : option Usage
}.

Record Entry : Type := {
  message : option Message;
  requestId : option string;
  timestamp : JsTimestamp;
  sessionId : option string;
  costUSD : option Q
}.

(** One parsed line of [history.jsonl]. *)
Record HistoryEntry : Type := {
  h_timestamp : option Z;
  h_project : option string
}.

End Raw.

(** ** The persisted stats cache ([ClaudeStatsCache]) *)

Module StatsCache.

Record DailyActivity : Type := {
  da_date : option string;
  messageCount : option Z;
  sessionCount : option Z;
  toolCallCount : option Z
}.

Record DailyModelTokens : Type := {
  dmt_date : option string;
  tokensByModel : option (JS.Map Z)
}.

Record ModelUsage : Type := {
  inputTokens : option Z;
  outputTokens : option Z;
  cacheReadInputTokens : option Z;
  cacheCreationInputTokens : option Z;
  webSearchRequests : option Z;
  costUSD : option Q;
  contextWindow : option Z
}.

Record ClaudeStatsCache : Type := {
  dailyActivity : option (list DailyActivity);
  dailyModelTokens : option (list DailyModelTokens);
  modelUsage : option (JS.Map ModelUsage);
  firstSessionDate : option string
}.

(** The empty object [{}]. *)
Definition empty : ClaudeStatsCache :=
{| dailyActivity := None; dailyModelTokens := None;
   modelUsage := None; firstSessionDate := None |}.

(** What [JSON.parse] makes of the cache file. *)
Inductive Parsed : Type :=
| SyntaxError
| NotAnObject
| Object (c : ClaudeStatsCache).

End StatsCache.

(** ** The collaborators

    [./pricing], [./models], the file system, the JSON parser, the host
    time zone and the clock. *)

(** Modelled from the spec: the per-token unit prices that the pricing
    resolver of [./pricing] returns for a model; the module is not part
    of the sources at hand. *)
Record ModelPricing : Type := {
  inputPrice : Q;
  outputPrice : Q;
  cacheCreationPrice : Q;
  cacheReadPrice : Q
}.

(** The argument of [calculateCostUSD]. *)
Record TokenBreakdown : Type := {
  tb_inputTokens : Z;
  tb_outputTokens : Z;
  tb_cacheCreationTokens : Z;
  tb_cachedInputTokens : Z
}.

Record Env : Type := {
  (* host *)
  tzOffsetMs : Z -> Z;
  Date_now : Z;
  Date_parse_other : string -> option Z;
  env_CLAUDE_CONFIG_DIR : option string;
  homedir : string;
  (* node:path and node:fs *)
  path_join : string -> string -> string;
  path_resolve : string -> string;
  existsSync : string -> bool;
  statIsDirectory : string -> option bool;
  realpath : string -> option string;
  readFile : string -> option string;
  listJsonlFiles : string -> list string;
  readLines : string -> list string;
  (* JSON.parse at the three places it is used *)
  JSON_parse_entry : string -> option Raw.Entry;
  JSON_parse_history : string -> option Raw.HistoryEntry;
  JSON_parse_cache : string -> StatsCache.Parsed;
  (* ./pricing *)
  getModelPricing : string -> option ModelPricing;
  calculateCostUSD : TokenBreakdown -> ModelPricing -> Q;
  (* ./models *)
  getModelProvider : string -> option string;
  getModelDisplayName : string -> string;
  getProviderDisplayName : string -> string
}.

(** ** Dates in the host's time zone *)

Module Clock.

(** A [Date]: its time value, [None] when invalid. *)
Definition Date : Type := option Z.

(** [new Date(n)] for a number: [TimeClip]. *)
Definition ofNumber (n : Z) : Date :=
if Z.abs n <=? 8640000000000000 then Some n else None.

(** [new Date(s)] for a string, that is [Date.parse]. *)
Definition ofString (env : Env) (s : string) : Date :=
match Dates.parseDateOnly s with
| Some t => ofNumber t
| None =>
    match Date_parse_other env s with
    | Some t => ofNumber t
    | None => None
    end
end.

Definition localDay (env : Env) (t : Z) : Z :=
(t + tzOffsetMs env t) / Dates.msPerDay.

Definition getFullYear (env : Env) (t : Z) : Z :=
fst (fst (Dates.civilFromDays (localDay env t))).

(** [getMonth]: 0 = January. *)
Definition getMonth (env : Env) (t : Z) : Z :=
snd (fst (Dates.civilFromDays (localDay env t))) - 1.

Definition getDate (env : Env) (t : Z) : Z :=
snd (Dates.civilFromDays (localDay env t)).

(** [getDay]: 0 = Sunday. *)
Definition getDay (env : Env) (t : Z) : Z :=
Dates.weekDay (localDay env t).

(** [formatDateKey] of [collector.ts] and [./utils/dates]. *)
Definition formatDateKey (env : Env) (t : Z) : string :=
let year := getFullYear env t in
let month := JS.padStart2 (JS.String_of_Z (getMonth env t + 1)) in
let day := JS.padStart2 (JS.String_of_Z (getDate env t)) in
(JS.String_of_Z year ++ "-" ++ month ++ "-" ++ day)%string.

(** [new Date(s).getFullYear() !== year]; an invalid date gives [NaN],
    which differs from every year. *)
Definition yearIs (env : Env) (s : string) (year : Z) : bool :=
match ofString env s with
| Some t => getFullYear env t =? year
| None => false
end.

End Clock.

(** ** [collector.ts] *)

Module Collector.
Import Raw.

Definition CLAUDE_PROJECTS_DIR : string := "projects"%string.

Definition CLAUDE_DATA_PATH (env : Env) : string :=
path_join env (homedir env) ".claude"%string.

Definition CLAUDE_CONFIG_PATH (env : Env) : string :=
path_join env (path_join env (homedir env) ".config"%string) "claude"%string.

Definition statsCacheFile (env : Env) (dir : string) : string :=
path_join env dir "stats-cache.json"%string.

(** [resolveClaudeDataPath]: the override, then the XDG directory, then
    the legacy one; the first that holds the marker file. *)
Definition resolveClaudeDataPath (env : Env) : option string :=
let envPath := option_map JS.trim (env_CLAUDE_CONFIG_DIR env) in
match envPath with
| Some p =>
    if JS.truthy p && existsSync env (statsCacheFile env p) then Some p
    else find (fun path => existsSync env (statsCacheFile env path))
              [CLAUDE_CONFIG_PATH env; CLAUDE_DATA_PATH env]
| None =>
    find (fun path => existsSync env (statsCacheFile env path))
         [CLAUDE_CONFIG_PATH env; CLAUDE_DATA_PATH env]
end.

Definition checkClaudeDataExists (env : Env) : bool :=
match resolveClaudeDataPath env with
| Some _ => true
| None => false
end.

(** A promise that settles: fulfilled with a value or rejected with the
    message of the error thrown. *)
Inductive Result (A : Type) : Type :=
| Ok (a : A)
| Throw (msg : string).
Arguments Ok {A} a.
Arguments Throw {A} msg.

(** [loadClaudeStatsCache]. *)
Definition loadClaudeStatsCache (env : Env) : Result StatsCache.ClaudeStatsCache :=
match resolveClaudeDataPath env with
| None => Throw "Claude data not found"%string
| Some dataPath =>
    match readFile env (statsCacheFile env dataPath) with
    | None => Throw "ENOENT"%string
    | Some raw =>
        match JSON_parse_cache env raw with
        | StatsCache.SyntaxError => Throw "SyntaxError"%string
        | StatsCache.NotAnObject => Throw "Invalid stats-cache.json format"%string
        | StatsCache.Object parsed => Ok parsed
        end
    end
end.

(** [collectClaudeProjects]: the set of projects of the year. *)
Definition historyStep (env : Env) (year : Z) (projects : JS.StrSet) (line : string)
  : JS.StrSet :=
if JS.truthy (JS.trim line) then
  match JSON_parse_history env line with
  | Some entry =>
      match h_timestamp entry, h_project entry with
      | Some ts, Some project =>
          if (ts =? 0) || negb (JS.truthy project) then projects
          else
            match Clock.ofNumber ts with
            | Some t =>
                if Clock.getFullYear env t =? year then JS.Set_add projects project
                else projects
            | None => projects
            end
      | _, _ => projects
      end
  | None => projects
  end
else projects.

Definition collectClaudeProjects (env : Env) (year : Z) : JS.StrSet :=
match resolveClaudeDataPath env with
| None => []
| Some dataPath =>
    match readFile env (path_join env dataPath "history.jsonl"%string) with
    | Some raw => fold_left (historyStep env year) (JS.split "010"%char raw) []
    | None => []
    end
end.

(** [pathIsDirectory]: a failing [stat] counts as "no". *)
Definition pathIsDirectory (env : Env) (path : string) : bool :=
JS.nullish (statIsDirectory env path) false.

Definition resolveCanonicalPath (env : Env) (path : string) : string :=
JS.nullish (realpath env path) path.

(** The loop body shared by the two branches of [getClaudeProjectRoots]. *)
Definition addRoot (env : Env) (roots : list string) (base : string) : list string :=
let resolved := path_resolve env base in
let projectsPath := path_join env resolved CLAUDE_PROJECTS_DIR in
if pathIsDirectory env projectsPath then
  let canonical := resolveCanonicalPath env projectsPath in
  if JS.Set_has roots canonical then roots else roots ++ [canonical]
else roots.

Definition getClaudeProjectRoots (env : Env) : list string :=
let envPaths := JS.trim (JS.nullish (env_CLAUDE_CONFIG_DIR env) EmptyString) in
if JS.truthy envPaths then
  let entries :=
    filter JS.truthy (map JS.trim (JS.split ","%char envPaths)) in
  fold_left (addRoot env) entries []
else
  fold_left (addRoot env) [CLAUDE_CONFIG_PATH env; CLAUDE_DATA_PATH env] [].

Definition ensureNumber (value : option Z) : Z := JS.nullish value 0.

(** [createUniqueHash]: absent unless both identifiers are truthy. *)
Definition createUniqueHash (entry : Entry) : option string :=
let messageId :=
  match message entry with
  | Some m => id m
  | None => None
  end in
match messageId, requestId entry with
| Some mid, Some rid =>
    if JS.truthy mid && JS.truthy rid then Some (mid ++ ":" ++ rid)%string
    else None
| _, _ => None
end.

(** The result of the reducer. *)
Record ClaudeUsageSummary : Type := {
  totalInputTokens : Z;
  totalOutputTokens : Z;
  totalCacheCreationTokens : Z;
  totalCacheReadTokens : Z;
  totalTokens : Z;
  totalCostUSD : Q;
  modelTokenTotals : JS.Map Z;
  firstTimestamp : Clock.Date;
  dailyActivity : JS.Map Z;
  totalMessages : Z;
  totalSessions : Z
}.

(** The local variables of [collectClaudeUsageSummary]. *)
Record Acc : Type := {
  acc_modelTokenTotals : JS.Map Z;
  acc_pricingCache : JS.Map (option ModelPricing);
  acc_processedHashes : JS.StrSet;
  acc_dailyActivity : JS.Map Z;
  acc_sessionIds : JS.StrSet;
  acc_totalInputTokens : Z;
  acc_totalOutputTokens : Z;
  acc_totalCacheCreationTokens : Z;
  acc_totalCacheReadTokens : Z;
  acc_totalTokens : Z;
  acc_totalCostUSD : Q;
  acc_firstTimestamp : Clock.Date;
  acc_totalMessages : Z
}.

Definition initial : Acc :=
{| acc_modelTokenTotals := []; acc_pricingCache := [];
   acc_processedHashes := []; acc_dailyActivity := []; acc_sessionIds := [];
   acc_totalInputTokens := 0; acc_totalOutputTokens := 0;
   acc_totalCacheCreationTokens := 0; acc_totalCacheReadTokens := 0;
   acc_totalTokens := 0; acc_totalCostUSD := 0%Q;
   acc_firstTimestamp := None; acc_totalMessages := 0 |}.

Definition summarize (a : Acc) : ClaudeUsageSummary :=
{| totalInputTokens := acc_totalInputTokens a;
   totalOutputTokens := acc_totalOutputTokens a;
   totalCacheCreationTokens := acc_totalCacheCreationTokens a;
   totalCacheReadTokens := acc_totalCacheReadTokens a;
   totalTokens := acc_totalTokens a;
   totalCostUSD := acc_totalCostUSD a;
   modelTokenTotals := acc_modelTokenTotals a;
   firstTimestamp := acc_firstTimestamp a;
   dailyActivity := acc_dailyActivity a;
   totalMessages := acc_totalMessages a;
   totalSessions := JS.Set_size (acc_sessionIds a) |}.

(** [new Date(timestamp)] after the [typeof] test on the timestamp. *)
Definition entryDate (env : Env) (ts : JsTimestamp) : Clock.Date :=
match ts with
| TsOther => None
| TsNumber n => Clock.ofNumber n
| TsString s => Clock.ofString env s
end.

(** The model identifier, when it is a string that is not blank. *)
Definition presentModel (m : option Message) : option string :=
match m with
| Some msg =>
    match model msg with
    | Some name => if JS.truthy (JS.trim name) then Some name else None
    | None => None
    end
| None => None
end.

(** The pricing of a model, through the per-run memo. *)
Definition lookupPricing (env : Env) (cache : JS.Map (option ModelPricing)) (name : string)
  : option ModelPricing * JS.Map (option ModelPricing) :=
match JS.Map_get cache name with
| Some pricing => (pricing, cache)
| None =>
    let pricing := getModelPricing env name in
    (pricing, JS.Map_set cache name pricing)
end.

(** The part of the loop body that handles the usage block. *)
Definition reduceUsage (env : Env) (hasCost : bool) (m : option Message) (u : Usage) (a : Acc)
  : Acc :=
let input := ensureNumber (input_tokens u) in
let output := ensureNumber (output_tokens u) in
let cacheCreate := ensureNumber (cache_creation_input_tokens u) in
let cacheRead := ensureNumber (cache_read_input_tokens u) in
let entryTotal := input + output + cacheCreate + cacheRead in
let a1 :=
  {| acc_modelTokenTotals := acc_modelTokenTotals a;
     acc_pricingCache := acc_pricingCache a;
     acc_processedHashes := acc_processedHashes a;
     acc_dailyActivity := acc_dailyActivity a;
     acc_sessionIds := acc_sessionIds a;
     acc_totalInputTokens := acc_totalInputTokens a + input;
     acc_totalOutputTokens := acc_totalOutputTokens a + output;
     acc_totalCacheCreationTokens := acc_totalCacheCreationTokens a + cacheCreate;
     acc_totalCacheReadTokens := acc_totalCacheReadTokens a + cacheRead;
     acc_totalTokens := acc_totalTokens a + entryTotal;
     acc_totalCostUSD := acc_totalCostUSD a;
     acc_firstTimestamp := acc_firstTimestamp a;
     acc_totalMessages := acc_totalMessages a |} in
match presentModel m with
| None => a1
| Some name =>
    let totals := JS.Map_add (acc_modelTokenTotals a1) name entryTotal in
    let priced := negb hasCost && (0 <? entryTotal) in
    let '(pricing, cache) :=
      if priced then lookupPricing env (acc_pricingCache a1) name
      else (None, acc_pricingCache a1) in
    let cost :=
      match pricing with
      | Some p =>
          (acc_totalCostUSD a1 +
           calculateCostUSD env
             {| tb_inputTokens := input; tb_outputTokens := output;
                tb_cacheCreationTokens := cacheCreate;
                tb_cachedInputTokens := cacheRead |} p)%Q
      | None => acc_totalCostUSD a1
      end in
    {| acc_modelTokenTotals := totals;
       acc_pricingCache := cache;
       acc_processedHashes := acc_processedHashes a1;
       acc_dailyActivity := acc_dailyActivity a1;
       acc_sessionIds := acc_sessionIds a1;
       acc_totalInputTokens := acc_totalInputTokens a1;
       acc_totalOutputTokens := acc_totalOutputTokens a1;
       acc_totalCacheCreationTokens := acc_totalCacheCreationTokens a1;
       acc_totalCacheReadTokens := acc_totalCacheReadTokens a1;
       acc_totalTokens := acc_totalTokens a1;
       acc_totalCostUSD := cost;
       acc_firstTimestamp := acc_firstTimestamp a1;
       acc_totalMessages := acc_totalMessages a1 |}
end.

(** [processedHashes.add(uniqueHash)]. *)
Definition markSeen (a : Acc) (h : string) : Acc :=
{| acc_modelTokenTotals := acc_modelTokenTotals a;
   acc_pricingCache := acc_pricingCache a;
   acc_processedHashes := JS.Set_add (acc_processedHashes a) h;
   acc_dailyActivity := acc_dailyActivity a;
   acc_sessionIds := acc_sessionIds a;
   acc_totalInputTokens := acc_totalInputTokens a;
   acc_totalOutputTokens := acc_totalOutputTokens a;
   acc_totalCacheCreationTokens := acc_totalCacheCreationTokens a;
   acc_totalCacheReadTokens := acc_totalCacheReadTokens a;
   acc_totalTokens := acc_totalTokens a;
   acc_totalCostUSD := acc_totalCostUSD a;
   acc_firstTimestamp := acc_firstTimestamp a;
   acc_totalMessages := acc_totalMessages a |}.

(** The activity part of the loop body: first timestamp, per-day count,
    message count, session identifier and explicit cost. *)
Definition reduceActivity (env : Env) (entry : Entry) (t : Z) (a : Acc) : Acc :=
let first :=
  match acc_firstTimestamp a with
  | None => Some t
  | Some f => if t <? f then Some t else Some f
  end in
let dateKey := Clock.formatDateKey env t in
let sessions :=
  match sessionId entry with
  | Some s => if JS.truthy s then JS.Set_add (acc_sessionIds a) s else acc_sessionIds a
  | None => acc_sessionIds a
  end in
let cost :=
  match costUSD entry with
  | Some rawCost => (acc_totalCostUSD a + rawCost)%Q
  | None => acc_totalCostUSD a
  end in
{| acc_modelTokenTotals := acc_modelTokenTotals a;
   acc_pricingCache := acc_pricingCache a;
   acc_processedHashes := acc_processedHashes a;
   acc_dailyActivity := JS.Map_add (acc_dailyActivity a) dateKey 1;
   acc_sessionIds := sessions;
   acc_totalInputTokens := acc_totalInputTokens a;
   acc_totalOutputTokens := acc_totalOutputTokens a;
   acc_totalCacheCreationTokens := acc_totalCacheCreationTokens a;
   acc_totalCacheReadTokens := acc_totalCacheReadTokens a;
   acc_totalTokens := acc_totalTokens a;
   acc_totalCostUSD := cost;
   acc_firstTimestamp := first;
   acc_totalMessages := acc_totalMessages a + 1 |}.

Definition hasCost (entry : Entry) : bool :=
match costUSD entry with
| Some _ => true
| None => false
end.

Definition entryUsage (entry : Entry) : option Usage :=
match message entry with
| Some m => usage m
| None => None
end.

(** The loop body after the deduplication test. *)
Definition reduceEntry (env : Env) (year : Z) (entry : Entry) (a : Acc) : Acc :=
match entryDate env (timestamp entry) with
| None => a
| Some t =>
    if Clock.getFullYear env t =? year then
      let a1 := reduceActivity env entry t a in
      match entryUsage entry with
      | None => a1
      | Some u => reduceUsage env (hasCost entry) (message entry) u a1
      end
    else a
end.

(** The loop body for one parsed record. *)
Definition processEntry (env : Env) (year : Z) (a : Acc) (entry : Entry) : Acc :=
match createUniqueHash entry with
| Some uniqueHash =>
    if JS.Set_has (acc_processedHashes a) uniqueHash then a
    else reduceEntry env year entry (markSeen a uniqueHash)
| None => reduceEntry env year entry a
end.

(** The loop body for one line of a file. *)
Definition processLine (env : Env) (year : Z) (a : Acc) (line : string) : Acc :=
let trimmed := JS.trim line in
if JS.truthy trimmed then
  match JSON_parse_entry env trimmed with
  | Some entry => processEntry env year a entry
  | None => a
  end
else a.

Definition scanFile (env : Env) (year : Z) (a : Acc) (filePath : string) : Acc :=
fold_left (processLine env year) (readLines env filePath) a.

Definition scanFiles (env : Env) (year : Z) (a : Acc) (files : list string) : Acc :=
fold_left (scanFile env year) files a.

Definition scanRoot (env : Env) (year : Z) (a : Acc) (root : string) : Acc :=
if pathIsDirectory env root then scanFiles env year a (listJsonlFiles env root)
else a.

Definition scanRoots (env : Env) (year : Z) (roots : list string) : Acc :=
fold_left (scanRoot env year) roots initial.

Definition collectClaudeUsageSummary (env : Env) (year : Z) : ClaudeUsageSummary :=
summarize (scanRoots env year (getClaudeProjectRoots env)).

End Collector.

(** ** [stats.ts] *)

Module Stats.

Record ModelStats : Type := {
  id : string;
  name : string;
  providerId : string;
  count : Z;
  percentage : Q
}.

Record ProviderStats : Type := {
  p_id : string;
  p_name : string;
  p_count : Z;
  p_percentage : Q
}.

Record WeekdayActivity : Type := {
  w_counts : list Z;
  w_mostActiveDay : Z;
  w_mostActiveDayName : string;
  w_maxCount : Z
}.

Record MonthlyActivity : Type := {
  m_counts : list Z;
  mostActiveMonth : Z;
  mostActiveMonthName : string;
  m_maxCount : Z
}.

(** [counts[i] += n] on a fixed-size array. *)
Fixpoint addAt (i : nat) (n : Z) (l : list Z) {struct l} : list Z :=
match l, i with
| [], _ => []
| c :: rest, O => (c + n) :: rest
| c :: rest, S j => c :: addAt j n rest
end.

(** *** Daily activity, sessions, messages, tool calls *)

Record Daily : Type := {
  d_dailyActivity : JS.Map Z;
  d_weekdayCounts : list Z;
  d_totalMessages : Z;
  d_totalSessions : Z;
  d_totalToolCalls : Z
}.

Definition noDaily : Daily :=
{| d_dailyActivity := []; d_weekdayCounts := repeat 0 7;
   d_totalMessages := 0; d_totalSessions := 0; d_totalToolCalls := 0 |}.

(** [new Date(entryDate).getDay()], once the year test has passed. *)
Definition weekdayOf (env : Env) (entryDate : string) : nat :=
match Clock.ofString env entryDate with
| Some t => Z.to_nat (Clock.getDay env t)
| None => O
end.

(** Loop body over the live per-day map. *)
Definition liveDayStep (env : Env) (year : Z) (d : Daily) (e : string * Z) : Daily :=
let '(entryDate, messageCount) := e in
if Clock.yearIs env entryDate year then
  {| d_dailyActivity := JS.Map_set (d_dailyActivity d) entryDate messageCount;
     d_weekdayCounts := addAt (weekdayOf env entryDate) messageCount (d_weekdayCounts d);
     d_totalMessages := d_totalMessages d + messageCount;
     d_totalSessions := d_totalSessions d;
     d_totalToolCalls := d_totalToolCalls d |}
else d.

(** Loop body over the cache's per-day entries. *)
Definition cacheDayStep (env : Env) (year : Z) (d : Daily) (entry : StatsCache.DailyActivity)
  : Daily :=
match StatsCache.da_date entry with
| None => d
| Some entryDate =>
    if JS.truthy entryDate && Clock.yearIs env entryDate year then
      let messageCount := JS.nullish (StatsCache.messageCount entry) 0 in
      {| d_dailyActivity := JS.Map_set (d_dailyActivity d) entryDate messageCount;
         d_weekdayCounts := addAt (weekdayOf env entryDate) messageCount (d_weekdayCounts d);
         d_totalMessages := d_totalMessages d + messageCount;
         d_totalSessions := d_totalSessions d + JS.nullish (StatsCache.sessionCount entry) 0;
         d_totalToolCalls := d_totalToolCalls d + JS.nullish (StatsCache.toolCallCount entry) 0 |}
    else d
end.

Definition sumOver {A : Type} (f : A -> Z) (l : list A) : Z :=
fold_left (fun acc x => acc + f x) l 0.

(** The first part of [calculateStats], the two backstops included. *)
Definition collectDaily (env : Env) (year : Z)
  (statsCache : StatsCache.ClaudeStatsCache) (usageSummary : Collector.ClaudeUsageSummary)
  : Daily :=
let usageDailyActivity := Collector.dailyActivity usageSummary in
let cacheDays := JS.nullish (StatsCache.dailyActivity statsCache) [] in
let d0 :=
  if 0 <? JS.Map_size usageDailyActivity then
    let d := fold_left (liveDayStep env year) usageDailyActivity noDaily in
    {| d_dailyActivity := d_dailyActivity d;
       d_weekdayCounts := d_weekdayCounts d;
       d_totalMessages := d_totalMessages d;
       d_totalSessions := Collector.totalSessions usageSummary;
       d_totalToolCalls := d_totalToolCalls d |}
  else fold_left (cacheDayStep env year) cacheDays noDaily in
let toolCalls :=
  if d_totalToolCalls d0 =? 0
  then sumOver (fun e => JS.nullish (StatsCache.toolCallCount e) 0) cacheDays
  else d_totalToolCalls d0 in
let sessions :=
  if d_totalSessions d0 =? 0
  then sumOver (fun e => JS.nullish (StatsCache.sessionCount e) 0) cacheDays
  else d_totalSessions d0 in
{| d_dailyActivity := d_dailyActivity d0;
   d_weekdayCounts := d_weekdayCounts d0;
   d_totalMessages := d_totalMessages d0;
   d_totalSessions := sessions;
   d_totalToolCalls := toolCalls |}.

(** *** Per-model token totals *)

Definition cacheModelDayStep (env : Env) (year : Z) (totals : JS.Map Z)
  (entry : StatsCache.DailyModelTokens) : JS.Map Z :=
match StatsCache.dmt_date entry with
| None => totals
| Some entryDate =>
    if JS.truthy entryDate && Clock.yearIs env entryDate year then
      fold_left (fun m kv => JS.Map_add m (fst kv) (snd kv))
                (JS.nullish (StatsCache.tokensByModel entry) []) totals
    else totals
end.

Definition crudeModelStep (totals : JS.Map Z) (kv : string * StatsCache.ModelUsage)
  : JS.Map Z :=
let tokens :=
  JS.nullish (StatsCache.inputTokens (snd kv)) 0 +
  JS.nullish (StatsCache.outputTokens (snd kv)) 0 in
if 0 <? tokens then JS.Map_set totals (fst kv) tokens else totals.

Definition collectModelTokenTotals (env : Env) (year : Z)
  (statsCache : StatsCache.ClaudeStatsCache) (usageSummary : Collector.ClaudeUsageSummary)
  : JS.Map Z :=
let live := Collector.modelTokenTotals usageSummary in
let totals :=
  if 0 <? JS.Map_size live then
    fold_left (fun m kv => JS.Map_set m (fst kv) (snd kv)) live []
  else
    fold_left (cacheModelDayStep env year)
              (JS.nullish (StatsCache.dailyModelTokens statsCache) []) [] in
if JS.Map_size totals =? 0 then
  fold_left crudeModelStep (JS.nullish (StatsCache.modelUsage statsCache) []) totals
else totals.

(** *** Apportionment of a model's aggregate count *)

Record Components : Type := {
  inputTokens : Z;
  outputTokens : Z;
  cachedInputTokens : Z;
  cacheCreationTokens : Z
}.

Definition usageTotalOf (usage : StatsCache.ModelUsage) : Z :=
JS.nullish (StatsCache.inputTokens usage) 0 +
JS.nullish (StatsCache.outputTokens usage) 0 +
JS.nullish (StatsCache.cacheReadInputTokens usage) 0 +
JS.nullish (StatsCache.cacheCreationInputTokens usage) 0.

(** [Math.round(field * ratio)], the product being a binary64 one. *)
Definition scaled (field : Z) (ratio : SpecFloat.spec_float) : Z :=
Double.Math_round (Double.mul (Double.ofZ field) ratio).

(** Lines 114-138: the four components of [tokens] for a model. *)
Definition apportion (tokens : Z) (usage : option StatsCache.ModelUsage) : Components :=
let whole :=
  {| inputTokens := tokens; outputTokens := 0;
     cachedInputTokens := 0; cacheCreationTokens := 0 |} in
match usage with
| None => whole
| Some u =>
    let usageInput := JS.nullish (StatsCache.inputTokens u) 0 in
    let usageOutput := JS.nullish (StatsCache.outputTokens u) 0 in
    let usageCacheRead := JS.nullish (StatsCache.cacheReadInputTokens u) 0 in
    let usageCacheCreate := JS.nullish (StatsCache.cacheCreationInputTokens u) 0 in
    let usageTotal := usageInput + usageOutput + usageCacheRead + usageCacheCreate in
    if 0 <? usageTotal then
      let ratio := Double.div (Double.ofZ tokens) (Double.ofZ usageTotal) in
      let input := scaled usageInput ratio in
      let output := scaled usageOutput ratio in
      let cached := scaled usageCacheRead ratio in
      let created := scaled usageCacheCreate ratio in
      let scaledTotal := input + output + cached + created in
      {| inputTokens :=
           if scaledTotal =? tokens then input else input + (tokens - scaledTotal);
         outputTokens := output;
         cachedInputTokens := cached;
         cacheCreationTokens := created |}
    else whole
end.

Definition sumComponents (c : Components) : Z :=
inputTokens c + outputTokens c + cachedInputTokens c + cacheCreationTokens c.

(** *** The loop over the per-model totals (lines 90-163) *)

Definition hasUsageSummaryTokens (u : Collector.ClaudeUsageSummary) : bool :=
(0 <? Collector.totalTokens u) ||
(0 <? Collector.totalInputTokens u) ||
(0 <? Collector.totalOutputTokens u) ||
(0 <? Collector.totalCacheReadTokens u) ||
(0 <? Collector.totalCacheCreationTokens u).

Definition resolveProviderId (env : Env) (modelId : string) : string :=
let byDirectory :=
  match getModelProvider env modelId with
  | Some provider =>
      if JS.truthy provider && negb (String.eqb provider "unknown") then Some provider
      else None
  | None => None
  end in
match byDirectory with
| Some provider => provider
| None =>
    if JS.startsWith modelId "claude" then "anthropic"%string
    else if JS.startsWith modelId "gpt" || JS.startsWith modelId "openai"
    then "openai"%string
    else "unknown"%string
end.

(** The variables the loop updates. *)
Record Totals : Type := {
  t_totalTokens : Z;
  t_totalInputTokens : Z;
  t_totalOutputTokens : Z;
  t_totalCacheReadTokens : Z;
  t_totalCacheWriteTokens : Z;
  t_totalWebSearchRequests : Z;
  t_peakContextWindow : Z;
  t_modelStats : list ModelStats;
  t_providerCounts : JS.Map Z
}.

Definition liveTotals (u : Collector.ClaudeUsageSummary) : Totals :=
{| t_totalTokens := Collector.totalTokens u;
   t_totalInputTokens := Collector.totalInputTokens u;
   t_totalOutputTokens := Collector.totalOutputTokens u;
   t_totalCacheReadTokens := Collector.totalCacheReadTokens u;
   t_totalCacheWriteTokens := Collector.totalCacheCreationTokens u;
   t_totalWebSearchRequests := 0;
   t_peakContextWindow := 0;
   t_modelStats := [];
   t_providerCounts := [] |}.

(** The loop body; [authoritative] is [hasUsageSummaryTokens]. *)
Definition modelStep (env : Env) (authoritative : bool)
  (modelUsage : JS.Map StatsCache.ModelUsage) (t : Totals) (kv : string * Z) : Totals :=
let '(modelId, tokens) := kv in
if tokens <=? 0 then t
else
  let usage := JS.Map_get modelUsage modelId in
  let c := apportion tokens usage in
  let providerId := resolveProviderId env modelId in
  {| t_totalTokens :=
       if authoritative then t_totalTokens t else t_totalTokens t + tokens;
     t_totalInputTokens :=
       if authoritative then t_totalInputTokens t
       else t_totalInputTokens t + inputTokens c;
     t_totalOutputTokens :=
       if authoritative then t_totalOutputTokens t
       else t_totalOutputTokens t + outputTokens c;
     t_totalCacheReadTokens :=
       match usage with
       | Some _ =>
           if authoritative then t_totalCacheReadTokens t
           else t_totalCacheReadTokens t + cachedInputTokens c
       | None => t_totalCacheReadTokens t
       end;
     t_totalCacheWriteTokens :=
       match usage with
       | Some _ =>
           if authoritative then t_totalCacheWriteTokens t
           else t_totalCacheWriteTokens t + cacheCreationTokens c
       | None => t_totalCacheWriteTokens t
       end;
     t_totalWebSearchRequests :=
       match usage with
       | Some u => t_totalWebSearchRequests t + JS.nullish (StatsCache.webSearchRequests u) 0
       | None => t_totalWebSearchRequests t
       end;
     t_peakContextWindow :=
       match usage with
       | Some u =>
           JS.Math_max (t_peakContextWindow t) (JS.nullish (StatsCache.contextWindow u) 0)
       | None => t_peakContextWindow t
       end;
     t_modelStats :=
       t_modelStats t ++
       [{| id := modelId; name := getModelDisplayName env modelId;
           providerId := providerId; count := tokens; percentage := 0%Q |}];
     t_providerCounts := JS.Map_add (t_providerCounts t) providerId tokens |}.

Definition mergeTotals (env : Env) (statsCache : StatsCache.ClaudeStatsCache)
  (usageSummary : Collector.ClaudeUsageSummary) (modelTokenTotals : JS.Map Z) : Totals :=
fold_left
  (modelStep env (hasUsageSummaryTokens usageSummary)
             (JS.nullish (StatsCache.modelUsage statsCache) []))
  modelTokenTotals (liveTotals usageSummary).

(** [totalTokens > 0 ? (count / totalTokens) * 100 : 0]. *)
Definition percentageOf (totalTokens count : Z) : Q :=
if 0 <? totalTokens then (inject_Z count / inject_Z totalTokens * 100)%Q else 0%Q.

Definition withPercentage (totalTokens : Z) (m : ModelStats) : ModelStats :=
{| id := id m; name := name m; providerId := providerId m; count := count m;
   percentage := percentageOf totalTokens (count m) |}.

(** [.sort(...).slice(0, 3).map(...)] on the model list. *)
Definition topModelsOf (totalTokens : Z) (modelStats : list ModelStats) : list ModelStats :=
map (withPercentage totalTokens) (firstn 3 (JS.sortDesc count modelStats)).

Definition topProvidersOf (env : Env) (totalTokens : Z) (providerCounts : JS.Map Z)
  : list ProviderStats :=
map (fun kv =>
       {| p_id := fst kv; p_name := getProviderDisplayName env (fst kv);
          p_count := snd kv; p_percentage := percentageOf totalTokens (snd kv) |})
    (firstn 3 (JS.sortDesc snd providerCounts)).

(** *** Streaks *)

(** [Math.round(diffTime / (1000 * 60 * 60 * 24))] for two keys; [None]
    stands for [NaN], when one of the keys is not a date. *)
Definition diffDays (env : Env) (prev curr : string) : option Z :=
match Clock.ofString env prev, Clock.ofString env curr with
| Some p, Some c => Some (JS.Math_round (inject_Z (c - p) / inject_Z Dates.msPerDay)%Q)
| _, _ => None
end.

(** The variables of the max-streak loop. *)
Record Run : Type := {
  r_maxStreak : Z;
  tempStreak : Z;
  tempStreakStart : nat;
  maxStreakStart : nat;
  maxStreakEnd : nat
}.

Definition firstRun : Run :=
{| r_maxStreak := 1; tempStreak := 1; tempStreakStart := 0;
   maxStreakStart := 0; maxStreakEnd := 0 |}.

Definition isOne (d : option Z) : bool :=
match d with
| Some n => n =? 1
| None => false
end.

(** The loop body at index [i]. *)
Definition streakStep (d : option Z) (i : nat) (r : Run) : Run :=
if isOne d then
  let temp := tempStreak r + 1 in
  if r_maxStreak r <? temp then
    {| r_maxStreak := temp; tempStreak := temp; tempStreakStart := tempStreakStart r;
       maxStreakStart := tempStreakStart r; maxStreakEnd := i |}
  else
    {| r_maxStreak := r_maxStreak r; tempStreak := temp;
       tempStreakStart := tempStreakStart r;
       maxStreakStart := maxStreakStart r; maxStreakEnd := maxStreakEnd r |}
else
  {| r_maxStreak := r_maxStreak r; tempStreak := 1; tempStreakStart := i;
     maxStreakStart := maxStreakStart r; maxStreakEnd := maxStreakEnd r |}.

(** The loop from index [i] on, [prev] being [activeDates[i - 1]]. *)
Fixpoint streakLoop (env : Env) (prev : string) (rest : list string) (i : nat) (r : Run)
  : Run :=
match rest with
| [] => r
| curr :: rest' =>
    streakLoop env curr rest' (S i) (streakStep (diffDays env prev curr) i r)
end.

(** [activeDates[i]] for [i] from [from] to [to] inclusive. *)
Definition slice (l : list string) (from to : nat) : list string :=
firstn (S to - from) (skipn from l).

(** [countStreakBackwards]: one step is 24 hours; the walk stops at the
    first day without activity, so it takes at most as many steps as the
    map has keys, which is the fuel given by [currentStreakOf]. *)
Fixpoint countStreakBackwards (env : Env) (fuel : nat) (dailyActivity : JS.Map Z)
  (checkDate : Z) (streak : Z) : Z :=
match fuel with
| O => streak
| S fuel' =>
    let checkDate' := checkDate - Dates.msPerDay in
    if JS.Map_has dailyActivity (Clock.formatDateKey env checkDate')
    then countStreakBackwards env fuel' dailyActivity checkDate' (streak + 1)
    else streak
end.

Definition currentStreakOf (env : Env) (dailyActivity : JS.Map Z) : Z :=
let now := Date_now env in
let today := Clock.formatDateKey env now in
let yesterday := Clock.formatDateKey env (now - Dates.msPerDay) in
let fuel := List.length dailyActivity in
if JS.Map_has dailyActivity today
then countStreakBackwards env fuel dailyActivity now 1
else if JS.Map_has dailyActivity yesterday
then countStreakBackwards env fuel dailyActivity (now - Dates.msPerDay) 1
else 0.

Record Streaks : Type := {
  s_maxStreak : Z;
  s_currentStreak : Z;
  s_maxStreakDays : JS.StrSet
}.

(** The sorted active dates of the year. *)
Definition activeDatesOf (dailyActivity : JS.Map Z) (year : Z) : list string :=
JS.sortStrings
  (filter (fun date => JS.startsWith date (JS.String_of_Z year))
          (JS.Map_keys dailyActivity)).

Definition calculateStreaks (env : Env) (dailyActivity : JS.Map Z) (year : Z) : Streaks :=
match activeDatesOf dailyActivity year with
| [] => {| s_maxStreak := 0; s_currentStreak := 0; s_maxStreakDays := [] |}
| first :: rest =>
    let r := streakLoop env first rest 1 firstRun in
    {| s_maxStreak := r_maxStreak r;
       s_currentStreak := currentStreakOf env dailyActivity;
       s_maxStreakDays :=
         fold_left JS.Set_add
                   (slice (first :: rest) (maxStreakStart r) (maxStreakEnd r)) [] |}
end.

(** *** Most active day and weekday distribution *)

(** The date and count that [findMostActiveDay] returns; the display
    string [formattedDate] is left out. *)
Definition findMostActiveDay (dailyActivity : JS.Map Z) : option (string * Z) :=
let best :=
  fold_left (fun acc e => if snd acc <? snd e then e else acc)
            dailyActivity (EmptyString, 0) in
if JS.truthy (fst best) then Some best else None.

(** The arg-max loop of [buildWeekdayActivity]: the first index holding
    the largest positive count. *)
Fixpoint mostActiveLoop (counts : list Z) (i : Z) (best : Z * Z) : Z * Z :=
match counts with
| [] => best
| c :: rest => mostActiveLoop rest (i + 1) (if snd best <? c then (i, c) else best)
end.

Definition WEEKDAY_NAMES_FULL : list string :=
["Sunday"; "Monday"; "Tuesday"; "Wednesday"; "Thursday"; "Friday"; "Saturday"]%string.

Definition buildWeekdayActivity (weekdayCounts : list Z) : WeekdayActivity :=
let best := mostActiveLoop weekdayCounts 0 (0, 0) in
{| w_counts := weekdayCounts;
   w_mostActiveDay := fst best;
   w_mostActiveDayName := nth (Z.to_nat (fst best)) WEEKDAY_NAMES_FULL EmptyString;
   w_maxCount := snd best |}.

(** *** The snapshot

    The properties that the object literal of lines 198-224 sets, and
    [monthlyActivity]: the interface [ClaudeCodeStats] declares it and
    the image template reads it, but the literal does not set it, so
    that reading it gives [undefined], here [None]. *)

Record ClaudeCodeStats : Type := {
  year : Z;
  firstSessionDate : Clock.Date;
  daysSinceFirstSession : option Z;
  totalSessions : Z;
  totalMessages : Z;
  totalProjects : Z;
  totalInputTokens : Z;
  totalOutputTokens : Z;
  totalTokens : Z;
  totalCacheReadTokens : Z;
  totalCacheWriteTokens : Z;
  cacheHitRate : Q;
  totalWebSearchRequests : Z;
  totalToolCalls : Z;
  peakContextWindow : Z;
  totalCost : Q;
  hasUsageCost : bool;
  topModels : list ModelStats;
  topProviders : list ProviderStats;
  maxStreak : Z;
  currentStreak : Z;
  maxStreakDays : JS.StrSet;
  dailyActivity : JS.Map Z;
  mostActiveDay : option (string * Z);
  weekdayActivity : WeekdayActivity;
  monthlyActivity : option MonthlyActivity
}.

Definition findFirstActivityDate (env : Env) (dailyActivity : JS.Map Z) : Clock.Date :=
match JS.sortStrings (JS.Map_keys dailyActivity) with
| [] => Some (Date_now env)
| first :: _ => Clock.ofString env first
end.

Definition firstSessionDateOf (env : Env) (statsCache : StatsCache.ClaudeStatsCache)
  (usageSummary : Collector.ClaudeUsageSummary) (dailyActivity : JS.Map Z) : Clock.Date :=
match Collector.firstTimestamp usageSummary with
| Some t => Some t
| None =>
    match StatsCache.firstSessionDate statsCache with
    | Some s =>
        if JS.truthy s then Clock.ofString env s
        else findFirstActivityDate env dailyActivity
    | None => findFirstActivityDate env dailyActivity
    end
end.

Definition cacheHitRateOf (cacheRead cacheWrite : Z) : Q :=
let cacheDenominator := cacheRead + cacheWrite in
if 0 <? cacheDenominator
then (inject_Z cacheRead / inject_Z cacheDenominator * 100)%Q
else 0%Q.

(** [x > 0] on a cost. *)
Definition positiveQ (x : Q) : bool :=
match (0 ?= x)%Q with
| Lt => true
| _ => false
end.

(** The body of [calculateStats] once its four inputs are awaited. *)
Definition calculateStatsFrom (env : Env) (year : Z)
  (statsCache : StatsCache.ClaudeStatsCache) (projects : JS.StrSet)
  (usageSummary : Collector.ClaudeUsageSummary) : ClaudeCodeStats :=
let daily := collectDaily env year statsCache usageSummary in
let modelTokenTotals := collectModelTokenTotals env year statsCache usageSummary in
let t := mergeTotals env statsCache usageSummary modelTokenTotals in
let totalCost := Collector.totalCostUSD usageSummary in
let streaks := calculateStreaks env (d_dailyActivity daily) year in
let firstSession :=
  firstSessionDateOf env statsCache usageSummary (d_dailyActivity daily) in
{| year := year;
   firstSessionDate := firstSession;
   daysSinceFirstSession :=
     option_map (fun t0 => (Date_now env - t0) / Dates.msPerDay) firstSession;
   totalSessions := d_totalSessions daily;
   totalMessages := d_totalMessages daily;
   totalProjects := JS.Set_size projects;
   totalInputTokens := t_totalInputTokens t;
   totalOutputTokens := t_totalOutputTokens t;
   totalTokens := t_totalTokens t;
   totalCacheReadTokens := t_totalCacheReadTokens t;
   totalCacheWriteTokens := t_totalCacheWriteTokens t;
   cacheHitRate := cacheHitRateOf (t_totalCacheReadTokens t) (t_totalCacheWriteTokens t);
   totalWebSearchRequests := t_totalWebSearchRequests t;
   totalToolCalls := d_totalToolCalls daily;
   peakContextWindow := t_peakContextWindow t;
   totalCost := totalCost;
   hasUsageCost := positiveQ totalCost;
   topModels := topModelsOf (t_totalTokens t) (t_modelStats t);
   topProviders := topProvidersOf env (t_totalTokens t) (t_providerCounts t);
   maxStreak := s_maxStreak streaks;
   currentStreak := s_currentStreak streaks;
   maxStreakDays := s_maxStreakDays streaks;
   dailyActivity := d_dailyActivity daily;
   mostActiveDay := findMostActiveDay (d_dailyActivity daily);
   weekdayActivity := buildWeekdayActivity (d_weekdayCounts daily);
   monthlyActivity := None |}.

(** [calculateStats]: a rejected load of the cache rejects the whole. *)
Definition calculateStats (env : Env) (year : Z) : Collector.Result ClaudeCodeStats :=
match Collector.loadClaudeStatsCache env with
| Collector.Throw msg => Collector.Throw msg
| Collector.Ok statsCache =>
    Collector.Ok
      (calculateStatsFrom env year statsCache
         (Collector.collectClaudeProjects env year)
         (Collector.collectClaudeUsageSummary env year))
end.

(** The percentages of the whole (unsliced) model list, against the
    final total. *)
Definition allPercentages (totalTokens : Z) (modelStats : list ModelStats) : list Q :=
map (fun m => percentageOf totalTokens (count m)) modelStats.

Definition sumQ (l : list Q) : Q := fold_right Qplus 0%Q l.

End Stats.

(** ** A concrete host, for the examples

    No data on disk, no pricing, no model directory; the time zone is a
    fixed offset from UTC, in minutes east. *)

Module Host.

Definition bare (offsetMinutes now : Z) : Env :=
{| tzOffsetMs := fun _ => offsetMinutes * 60000;
   Date_now := now;
   Date_parse_other := fun _ => None;
   env_CLAUDE_CONFIG_DIR := None;
   homedir := "/home/user"%string;
   path_join := fun a b => (a ++ "/" ++ b)%string;
   path_resolve := fun p => p;
   existsSync := fun _ => false;
   statIsDirectory := fun _ => None;
   realpath := fun _ => None;
   readFile := fun _ => None;
   listJsonlFiles := fun _ => [];
   readLines := fun _ => [];
   JSON_parse_entry := fun _ => None;
   JSON_parse_history := fun _ => None;
   JSON_parse_cache := fun _ => StatsCache.SyntaxError;
   getModelPricing := fun _ => None;
   calculateCostUSD := fun _ _ => 0%Q;
   getModelProvider := fun _ => None;
   getModelDisplayName := fun m => m;
   getProviderDisplayName := fun p => p |}.

(** 2025-06-15T12:00:00Z. *)
Definition noon : Z := 1749988800000.

Definition utc : Env := bare 0 noon.

(** A host five hours west of UTC. *)
Definition west : Env := bare (-300) noon.

(** A live summary with nothing in it. *)
Definition noUsage : Collector.ClaudeUsageSummary :=
Collector.summarize Collector.initial.

(** A per-day map with one event on each of the given dates. *)
Definition activeOn (dates : list string) : JS.Map Z :=
map (fun d => (d, 1)) dates.

(** A usage record with the given four token fields. *)
Definition usageRecord (input output cacheRead cacheCreate : Z) : StatsCache.ModelUsage :=
{| StatsCache.inputTokens := Some input;
   StatsCache.outputTokens := Some output;
   StatsCache.cacheReadInputTokens := Some cacheRead;
   StatsCache.cacheCreationInputTokens := Some cacheCreate;
   StatsCache.webSearchRequests := None;
   StatsCache.costUSD := None;
   StatsCache.contextWindow := None |}.

(** 2025-03-01T12:00:00Z. *)
Definition march1 : Z := 1740830400000.

(** A log record with both identifiers, a numeric timestamp and a usage
    block holding input and output counts. *)
Definition record (messageId requestId : string) (ts : Z) (model : option string)
  (input output : Z) : Raw.Entry :=
{| Raw.message :=
     Some {| Raw.id := Some messageId; Raw.model := model;
             Raw.usage :=
               Some {| Raw.input_tokens := Some input;
                       Raw.output_tokens := Some output;
                       Raw.cache_creation_input_tokens := None;
                       Raw.cache_read_input_tokens := None |} |};
   Raw.requestId := Some requestId;
   Raw.timestamp := Raw.TsNumber ts;
   Raw.sessionId := Some "session-1"%string;
   Raw.costUSD := None |}.

Definition withModel : Raw.Entry :=
record "msg_1" "req_1" march1 (Some "claude-sonnet"%string) 6 4.

Definition withoutModel : Raw.Entry :=
record "msg_2" "req_2" march1 None 10 0.

Definition zeroTotal : Raw.Entry :=
record "msg_3" "req_3" march1 (Some "claude-sonnet"%string) 0 0.

(** The reducer run over parsed records, on the UTC host, for 2025. *)
Definition reduce (entries : list Raw.Entry) : Collector.Acc :=
fold_left (Collector.processEntry utc 2025) entries Collector.initial.

(** A cache that knows one model: two tokens on 2025-03-01 and a usage
    record with fields 0, 1, 1, 1. *)
Definition costlyRecord : StatsCache.ModelUsage :=
{| StatsCache.inputTokens := Some 100;
   StatsCache.outputTokens := Some 50;
   StatsCache.cacheReadInputTokens := None;
   StatsCache.cacheCreationInputTokens := None;
   StatsCache.webSearchRequests := None;
   StatsCache.costUSD := Some (25 # 2)%Q;
   StatsCache.contextWindow := None |}.

(** A cache whose only content is a model with a recorded cost. *)
Definition costlyCache : StatsCache.ClaudeStatsCache :=
{| StatsCache.dailyActivity := None;
   StatsCache.dailyModelTokens := None;
   StatsCache.modelUsage := Some [("claude-sonnet"%string, costlyRecord)];
   StatsCache.firstSessionDate := None |}.

Definition smallCache : StatsCache.ClaudeStatsCache :=
{| StatsCache.dailyActivity := None;
   StatsCache.dailyModelTokens :=
     Some [{| StatsCache.dmt_date := Some "2025-03-01"%string;
              StatsCache.tokensByModel := Some [("claude-sonnet"%string, 2)] |}];
   StatsCache.modelUsage := Some [("claude-sonnet"%string, usageRecord 0 1 1 1)];
   StatsCache.firstSessionDate := None |}.

(** The host [env] with log files: [isDirectory] answers [stat], [files]
    lists the log files under a root, [lines] gives the lines of a file
    and [parse] what [JSON.parse] makes of a line. *)
Definition withLogs (env : Env) (isDirectory : string -> option bool)
  (files lines : string -> list string) (parse : string -> option Raw.Entry) : Env :=
{| tzOffsetMs := tzOffsetMs env;
   Date_now := Date_now env;
   Date_parse_other := Date_parse_other env;
   env_CLAUDE_CONFIG_DIR := env_CLAUDE_CONFIG_DIR env;
   homedir := homedir env;
   path_join := path_join env;
   path_resolve := path_resolve env;
   existsSync := existsSync env;
   statIsDirectory := isDirectory;
   realpath := realpath env;
   readFile := readFile env;
   listJsonlFiles := files;
   readLines := lines;
   JSON_parse_entry := parse;
   JSON_parse_history := JSON_parse_history env;
   JSON_parse_cache := JSON_parse_cache env;
   getModelPricing := getModelPricing env;
   calculateCostUSD := calculateCostUSD env;
   getModelProvider := getModelProvider env;
   getModelDisplayName := getModelDisplayName env;
   getProviderDisplayName := getProviderDisplayName env |}.

(** The legacy projects directory, holding one log file of three lines:
    two records and a line that is not JSON. *)
Definition logged : Env :=
withLogs utc
  (fun path =>
     if String.eqb path "/home/user/.claude/projects" then Some true else None)
  (fun root =>
     if String.eqb root "/home/user/.claude/projects" then ["a.jsonl"%string] else [])
  (fun file => if String.eqb file "a.jsonl" then ["one"; "two"; "garbage"]%string else [])
  (fun line =>
     if String.eqb line "one" then Some withModel
     else if String.eqb line "two" then Some withoutModel
     else None).

(** 2026-01-01T17:00:00Z, noon of New Year's Day five hours west. *)
Definition newYear : Z := 1767286800000.

Definition cacheDay (date : string) (messages : Z) : StatsCache.DailyActivity :=
{| StatsCache.da_date := Some date;
   StatsCache.messageCount := Some messages;
   StatsCache.sessionCount := Some 1;
   StatsCache.toolCallCount := None |}.

(** A cache with activity on the last day of 2025 and the first of 2026. *)
Definition turnOfYear : StatsCache.ClaudeStatsCache :=
{| StatsCache.dailyActivity :=
     Some [cacheDay "2025-12-31" 3; cacheDay "2026-01-01" 5];
   StatsCache.dailyModelTokens := None;
   StatsCache.modelUsage := None;
   StatsCache.firstSessionDate := None |}.

(** Activity on 2025-01-01..03 and 2025-01-10..13, in no particular order. *)
Definition january : JS.Map Z :=
activeOn ["2025-01-12"; "2025-01-01"; "2025-01-10"; "2025-01-03";
          "2025-01-13"; "2025-01-02"; "2025-01-11"]%string.

(** Two runs of two days each. *)
Definition tied : JS.Map Z :=
activeOn ["2025-01-01"; "2025-01-02"; "2025-01-10"; "2025-01-11"]%string.

End Host.

(** ** Descriptions used by the statements

    Definitions that follow the wording of the specification, to be
    compared with the code above. *)

Module Described.

(** A gap of exactly one calendar day between two date keys. *)
Definition consecutiveDays (prev curr : string) : bool :=
match Dates.dateKeyDay prev, Dates.dateKeyDay curr with
| Some p, Some c => c - p =? 1
| _, _ => false
end.

Definition isDateKey (s : string) : bool :=
match Dates.dateKeyDay s with
| Some _ => true
| None => false
end.

(** The walk over consecutive pairs, on the dates themselves: a gap of
    one day extends the current run, any other gap restarts it; a run
    replaces the longest one only when strictly longer. *)
Fixpoint walkRuns (prev : string) (rest current longest : list string) : list string :=
match rest with
| [] => longest
| curr :: rest' =>
    if consecutiveDays prev curr then
      let current' := current ++ [curr] in
      walkRuns curr rest' current'
               (if (List.length longest <? List.length current')%nat
                then current' else longest)
    else walkRuns curr rest' [curr] longest
end.

Definition longestRun (dates : list string) : list string :=
match dates with
| [] => []
| first :: rest => walkRuns first rest [first] [first]
end.

(** The models that the merge loop does not skip. *)
Definition counted (modelTokenTotals : JS.Map Z) : JS.Map Z :=
filter (fun kv => 0 <? snd kv) modelTokenTotals.

(** The sum, over the counted models, of one apportioned component. *)
Definition apportioned (part : Stats.Components -> Z)
  (modelUsage : JS.Map StatsCache.ModelUsage) (modelTokenTotals : JS.Map Z) : Z :=
Stats.sumOver
  (fun kv => part (Stats.apportion (snd kv) (JS.Map_get modelUsage (fst kv))))
  (counted modelTokenTotals).

(** Every line of the scanned files, in scan order. *)
Definition scannedLines (env : Env) (roots : list string) : list string :=
flat_map (readLines env)
  (flat_map (listJsonlFiles env) (filter (Collector.pathIsDirectory env) roots)).

(** What a line parses to, if it is a record at all. *)
Definition recordOf (env : Env) (line : string) : option Raw.Entry :=
let trimmed := JS.trim line in
if JS.truthy trimmed then JSON_parse_entry env trimmed else None.

(** The record of the line carries a message and a request identifier. *)
Definition identified (env : Env) (line : string) : bool :=
match recordOf env line with
| Some entry =>
    match Collector.createUniqueHash entry with
    | Some _ => true
    | None => false
    end
| None => true
end.

(** The record of the line, if any, has its hash among the processed
    ones. *)
Definition covered (env : Env) (a : Collector.Acc) (line : string) : Prop :=
match recordOf env line with
| Some entry =>
    exists h, Collector.createUniqueHash entry = Some h /\
              JS.Set_has (Collector.acc_processedHashes a) h = true
| None => True
end.

(** The record of the line is dated in the requested year. *)
Definition inYear (env : Env) (year : Z) (line : string) : bool :=
match recordOf env line with
| Some entry =>
    match Collector.entryDate env (Raw.timestamp entry) with
    | Some t => Clock.getFullYear env t =? year
    | None => false
    end
| None => false
end.

(** The five token scalars of a live summary. *)
Definition scalars (u : Collector.ClaudeUsageSummary) : list Z :=
[Collector.totalTokens u; Collector.totalInputTokens u;
 Collector.totalOutputTokens u; Collector.totalCacheReadTokens u;
 Collector.totalCacheCreationTokens u].

(** Ascending order of the default string comparison. *)
Definition ascending (a b : string) : Prop := String.leb a b = true.

(** [run] is the part of [all] from index [from] to index [to]. *)
Definition delimits (all : list string) (from to : nat) (run : list string) : Prop :=
exists before after,
  all = before ++ run ++ after /\ List.length before = from /\
  S to = (List.length before + List.length run)%nat.

(** The gap between the dates at indices [k] and [k + 1] is one day. *)
Definition gapAt (dates : list string) (k : nat) : bool :=
consecutiveDays (nth k dates EmptyString) (nth (S k) dates EmptyString).

(** The dates from index [a] to index [b] are consecutive days. *)
Definition runAt (dates : list string) (a b : nat) : Prop :=
(a <= b)%nat /\ (b < List.length dates)%nat /\
forall k, (a <= k)%nat -> (k < b)%nat -> gapAt dates k = true.

(** [a]..[b] is a longest run of consecutive days, and the first of
    that length. *)
Definition firstLongestAt (dates : list string) (a b : nat) : Prop :=
runAt dates a b /\
forall a' b', runAt dates a' b' ->
  (b' - a' <= b - a)%nat /\ ((b' - a' = b - a)%nat -> (a <= a')%nat).

(** The invariant of the max-streak loop before index [i]. *)
Definition tracked (all : list string) (i : nat) (r : Stats.Run) : Prop :=
(Stats.tempStreakStart r < i)%nat /\
Stats.tempStreak r = Z.of_nat (i - Stats.tempStreakStart r) /\
(forall k, (Stats.tempStreakStart r <= k)%nat -> (S k < i)%nat -> gapAt all k = true) /\
(Stats.tempStreakStart r = 0%nat \/ gapAt all (Stats.tempStreakStart r - 1) = false) /\
(Stats.maxStreakStart r <= Stats.maxStreakEnd r)%nat /\
(Stats.maxStreakEnd r < i)%nat /\
(forall k, (Stats.maxStreakStart r <= k)%nat -> (k < Stats.maxStreakEnd r)%nat ->
           gapAt all k = true) /\
Stats.r_maxStreak r = Z.of_nat (S (Stats.maxStreakEnd r) - Stats.maxStreakStart r) /\
(forall a b, (a <= b)%nat -> (b < i)%nat ->
   (forall k, (a <= k)%nat -> (k < b)%nat -> gapAt all k = true) ->
   (b - a <= Stats.maxStreakEnd r - Stats.maxStreakStart r)%nat /\
   ((b - a = Stats.maxStreakEnd r - Stats.maxStreakStart r)%nat ->
    (Stats.maxStreakStart r <= a)%nat)).


(** Every key of the reducer's per-day map is the date key of a time
    whose local year is the requested one. *)
Definition datedIn (env : Env) (year : Z) (a : Collector.Acc) : Prop :=
forall k, In k (JS.Map_keys (Collector.acc_dailyActivity a)) ->
  exists t, k = Clock.formatDateKey env t /\ Clock.getFullYear env t = year.

(** The day entries that the snapshot counts, each with its event
    count: those of the live per-day map when it is not empty, else
    those of the cache that carry a date; in both cases the ones that
    pass the year test of the code. *)
Definition countedDays (env : Env) (year : Z)
  (statsCache : StatsCache.ClaudeStatsCache) (u : Collector.ClaudeUsageSummary)
  : list (string * Z) :=
if 0 <? JS.Map_size (Collector.dailyActivity u) then
  filter (fun e => Clock.yearIs env (fst e) year) (Collector.dailyActivity u)
else
  flat_map
    (fun entry =>
       match StatsCache.da_date entry with
       | Some date =>
           if JS.truthy date && Clock.yearIs env date year
           then [(date, JS.nullish (StatsCache.messageCount entry) 0)]
           else []
       | None => []
       end)
    (JS.nullish (StatsCache.dailyActivity statsCache) []).

(** The weekday, 0 = Sunday, of the calendar date that a key names. *)
Definition calendarWeekday (dateKey : string) : option Z :=
option_map Dates.weekDay (Dates.dateKeyDay dateKey).

(** The sum of the event counts of the entries dated on weekday [d]. *)
Definition weekdayTotal (d : nat) (days : list (string * Z)) : Z :=
Stats.sumOver snd
  (filter (fun e =>
             match calendarWeekday (fst e) with
             | Some w => w =? Z.of_nat d
             | None => false
             end) days).

(** The host's clock is at or ahead of UTC, by less than a day. *)
Definition eastOfUTC (env : Env) : Prop :=
forall t, 0 <= tzOffsetMs env t < Dates.msPerDay.

(** The candidate directories of the source locator: the override,
    when set to something not blank, then the XDG and the legacy one. *)
Definition dataCandidates (env : Env) : list string :=
match option_map JS.trim (env_CLAUDE_CONFIG_DIR env) with
| Some p => if JS.truthy p then [p] else []
| None => []
end ++ [Collector.CLAUDE_CONFIG_PATH env; Collector.CLAUDE_DATA_PATH env].

(** A candidate holds the marker file. *)
Definition holdsCache (env : Env) (dir : string) : bool :=
existsSync env (Collector.statsCacheFile env dir).

(** The candidate projects directories of the usage reducer: those of
    the entries of the override when it is not blank, else those of the
    XDG and the legacy directory. *)
Definition rootCandidates (env : Env) : list string :=
let envPaths := JS.trim (JS.nullish (env_CLAUDE_CONFIG_DIR env) EmptyString) in
map (fun base => path_join env (path_resolve env base) Collector.CLAUDE_PROJECTS_DIR)
    (if JS.truthy envPaths
     then filter JS.truthy (map JS.trim (JS.split ","%char envPaths))
     else [Collector.CLAUDE_CONFIG_PATH env; Collector.CLAUDE_DATA_PATH env]).

End Described.

From Stdlib Require Import Lqa Qpower.

(** ** Further descriptions, for the properties beyond the claims *)

Module Observed.

(** The sum of the values of a map. *)
Definition sumValues (m : JS.Map Z) : Z := Stats.sumOver snd m.

Definition sumList (l : list Z) : Z := Stats.sumOver (fun x => x) l.

(** The four token fields of the usage block of a record are not negative. *)
Definition nonNegativeUsage (entry : Raw.Entry) : bool :=
match Collector.entryUsage entry with
| Some u =>
    (0 <=? Collector.ensureNumber (Raw.input_tokens u)) &&
    (0 <=? Collector.ensureNumber (Raw.output_tokens u)) &&
    (0 <=? Collector.ensureNumber (Raw.cache_creation_input_tokens u)) &&
    (0 <=? Collector.ensureNumber (Raw.cache_read_input_tokens u))
| None => true
end.

(** A property of the record of a line, true of lines that hold none. *)
Definition ofRecord (env : Env) (p : Raw.Entry -> bool) (line : string) : bool :=
match Described.recordOf env line with
| Some entry => p entry
| None => true
end.

Definition unidentified (entry : Raw.Entry) : bool :=
match Collector.createUniqueHash entry with
| Some _ => false
| None => true
end.

(** The lines scanned by [collectClaudeUsageSummary]. *)
Definition allLines (env : Env) : list string :=
Described.scannedLines env (Collector.getClaudeProjectRoots env).

(** The accumulators after the whole scan. *)
Definition scanned (env : Env) (year : Z) : Collector.Acc :=
Collector.scanRoots env year (Collector.getClaudeProjectRoots env).

(** A binary64 value whose sign bit is clear, or NaN. *)
Definition signClear (x : SpecFloat.spec_float) : Prop :=
match x with
| SpecFloat.S754_zero s => s = false
| SpecFloat.S754_infinity s => s = false
| SpecFloat.S754_finite s _ _ => s = false
| SpecFloat.S754_nan => True
end.

(** Descending order of counts. *)
Definition descending {A : Type} (key : A -> Z) (a b : A) : Prop := key b <= key a.

(** What the max-streak loop keeps before index [i], whatever the gaps
    between the dates are. *)
Definition paced (i : nat) (r : Stats.Run) : Prop :=
(Stats.tempStreakStart r < i)%nat /\
Stats.tempStreak r = Z.of_nat (i - Stats.tempStreakStart r) /\
(Stats.maxStreakStart r <= Stats.maxStreakEnd r)%nat /\
(Stats.maxStreakEnd r < i)%nat /\
Stats.r_maxStreak r = Z.of_nat (S (Stats.maxStreakEnd r) - Stats.maxStreakStart r).

End Observed.

(** ** The bar charts of the image (image/design-tokens.ts)

    Only the geometry the charts compute from the statistics is modelled:
    one bar per bucket, with its height in pixels and whether it carries
    the accent colour. The quotient [count / maxCount] is read as an
    exact rational, as the percentages are. *)

Module Chart.

Definition BAR_HEIGHT : Z := 100.
Definition MONTHLY_BAR_HEIGHT : Z := 80.

Record Bar : Type := {
  barHeight : Z;
  isHighlighted : bool
}.

(** [counts.map((count, i) => ...)], the callback getting the index. *)
Fixpoint mapIndexed {A B : Type} (f : A -> Z -> B) (i : Z) (l : list A) : list B :=
match l with
| [] => []
| x :: rest => f x i :: mapIndexed f (i + 1) rest
end.

Definition heightPercent (maxCount count : Z) : Q :=
if 0 <? maxCount then (inject_Z count / inject_Z maxCount)%Q else 0%Q.

(** Lines 591-626. *)
Definition WeeklyBarChart (weekdayActivity : Stats.WeekdayActivity) : list Bar :=
let counts := Stats.w_counts weekdayActivity in
let mostActiveDay := Stats.w_mostActiveDay weekdayActivity in
let maxCount := Stats.w_maxCount weekdayActivity in
mapIndexed
  (fun count i =>
     {| barHeight :=
          JS.Math_max 8
            (JS.Math_round (heightPercent maxCount count * inject_Z BAR_HEIGHT)%Q);
        isHighlighted := i =? mostActiveDay |})
  0 counts.

(** Lines 659-694. *)
Definition MonthlyBarChart (monthlyActivity : Stats.MonthlyActivity) : list Bar :=
let counts := Stats.m_counts monthlyActivity in
let mostActiveMonth := Stats.mostActiveMonth monthlyActivity in
let maxCount := Stats.m_maxCount monthlyActivity in
mapIndexed
  (fun count i =>
     {| barHeight :=
          JS.Math_max 6
            (JS.Math_round (heightPercent maxCount count * inject_Z MONTHLY_BAR_HEIGHT)%Q);
        isHighlighted := i =? mostActiveMonth |})
  0 counts.

(** The two charts of [WrappedTemplate] (lines 404 and 434), which
    hands [stats.weekdayActivity] and [stats.monthlyActivity] over.
    [MonthlyBarChart] starts by destructuring its argument, which raises
    a TypeError on [undefined]. *)
Definition WrappedTemplate (stats : Stats.ClaudeCodeStats)
  : Collector.Result (list Bar * list Bar) :=
match Stats.monthlyActivity stats with
| Some monthlyActivity =>
    Collector.Ok (WeeklyBarChart (Stats.weekdayActivity stats),
                  MonthlyBarChart monthlyActivity)
| None => Collector.Throw "TypeError"%string
end.

End Chart.

(** ** Further examples *)

Module Sample.

(** A log record without a request identifier, dated 2025-03-01. *)
Definition anonymous : Raw.Entry :=
{| Raw.message :=
     Some {| Raw.id := Some "msg_9"%string; Raw.model := Some "claude-sonnet"%string;
             Raw.usage :=
               Some {| Raw.input_tokens := Some 3;
                       Raw.output_tokens := Some 2;
                       Raw.cache_creation_input_tokens := None;
                       Raw.cache_read_input_tokens := None |} |};
   Raw.requestId := None;
   Raw.timestamp := Raw.TsNumber Host.march1;
   Raw.sessionId := Some "session-2"%string;
   Raw.costUSD := None |}.

(** One log file holding the anonymous record on two lines. *)
Definition anonymousLogs : Env :=
Host.withLogs Host.utc
  (fun path =>
     if String.eqb path "/home/user/.claude/projects" then Some true else None)
  (fun root =>
     if String.eqb root "/home/user/.claude/projects" then ["b.jsonl"%string] else [])
  (fun file => if String.eqb file "b.jsonl" then ["first"; "second"]%string else [])
  (fun _ => Some anonymous).

(** The live summary of one record. *)
Definition oneRecord : Collector.ClaudeUsageSummary :=
Collector.summarize (Host.reduce [Host.withModel]).

(** A monthly distribution with its peak in March. *)
Definition spring : Stats.MonthlyActivity :=
{| Stats.m_counts := [3; 0; 12; 6; 0; 0; 0; 0; 0; 0; 0; 1];
   Stats.mostActiveMonth := 2;
   Stats.mostActiveMonthName := "March"%string;
   Stats.m_maxCount := 12 |}.

(** A cache with activity on a Saturday, a Monday and the Saturday
    after, all in March 2025. *)
Definition march : StatsCache.ClaudeStatsCache :=
{| StatsCache.dailyActivity :=
     Some [Host.cacheDay "2025-03-01" 3; Host.cacheDay "2025-03-03" 5;
           Host.cacheDay "2025-03-08" 2];
   StatsCache.dailyModelTokens := None;
   StatsCache.modelUsage := None;
   StatsCache.firstSessionDate := None |}.

(** A host whose legacy directory holds an empty cache file and nothing
    else: no projects directory anywhere. *)
Definition cacheOnly : Env :=
{| tzOffsetMs := tzOffsetMs Host.utc;
   Date_now := Date_now Host.utc;
   Date_parse_other := Date_parse_other Host.utc;
   env_CLAUDE_CONFIG_DIR := None;
   homedir := homedir Host.utc;
   path_join := path_join Host.utc;
   path_resolve := path_resolve Host.utc;
   existsSync := fun path => String.eqb path "/home/user/.claude/stats-cache.json";
   statIsDirectory := fun _ => None;
   realpath := realpath Host.utc;
   readFile :=
     fun path =>
       if String.eqb path "/home/user/.claude/stats-cache.json"
       then Some "{}"%string else None;
   listJsonlFiles := listJsonlFiles Host.utc;
   readLines := readLines Host.utc;
   JSON_parse_entry := JSON_parse_entry Host.utc;
   JSON_parse_history := JSON_parse_history Host.utc;
   JSON_parse_cache :=
     fun raw =>
       if String.eqb raw "{}" then StatsCache.Object StatsCache.empty
       else StatsCache.SyntaxError;
   getModelPricing := getModelPricing Host.utc;
   calculateCostUSD := calculateCostUSD Host.utc;
   getModelProvider := getModelProvider Host.utc;
   getModelDisplayName := getModelDisplayName Host.utc;
   getProviderDisplayName := getProviderDisplayName Host.utc |}.

End Sample.

(** * Properties *)

(** ** Rounding *)

Lemma Math_round_nearest (q : Q) :
  (inject_Z (JS.Math_round q) - (1 # 2) <= q /\
   q < inject_Z (JS.Math_round q) + (1 # 2))%Q.
Proof.
  unfold JS.Math_round.
  pose proof (Qfloor_le (q + (1 # 2))) as Hle.
  pose proof (Qlt_floor (q + (1 # 2))) as Hlt.
  rewrite inject_Z_plus in Hlt.
  split.
  - apply Qplus_le_l with (z := (1 # 2)%Q). ring_simplify.
    ring_simplify in Hle. exact Hle.
  - apply Qplus_lt_l with (z := (1 # 2)%Q).
    setoid_replace (inject_Z (Qfloor (q + (1 # 2))) + (1 # 2) + (1 # 2))%Q
      with (inject_Z (Qfloor (q + (1 # 2))) + inject_Z 1)%Q by ring.
    exact Hlt.
Qed.

Lemma Math_round_integer (k : Z) : JS.Math_round (inject_Z k) = k.
Proof.
  unfold JS.Math_round.
  pose proof (Qfloor_le (inject_Z k + (1 # 2))) as Hle.
  pose proof (Qlt_floor (inject_Z k + (1 # 2))) as Hlt.
  set (f := Qfloor (inject_Z k + (1 # 2))) in *.
  assert (Hlo : (inject_Z f < inject_Z (k + 1))%Q).
  { eapply Qle_lt_trans; [exact Hle|].
    rewrite inject_Z_plus. apply Qplus_lt_r. reflexivity. }
  assert (Hhi : (inject_Z k < inject_Z (f + 1))%Q).
  { eapply Qle_lt_trans; [|exact Hlt].
    rewrite <- (Qplus_0_r (inject_Z k)) at 1.
    apply Qplus_le_r. discriminate. }
  rewrite <- Zlt_Qlt in Hlo, Hhi. lia.
Qed.

Lemma Math_round_proper (p q : Q) : (p == q)%Q -> JS.Math_round p = JS.Math_round q.
Proof.
  intros H. unfold JS.Math_round. apply Qfloor_comp. rewrite H. reflexivity.
Qed.

(** ** Apportionment (C1) *)

Lemma Double_round_nearest (x : SpecFloat.spec_float) (q : Q) :
  Double.valueOf x = Some q ->
  (inject_Z (Double.Math_round x) - (1 # 2) <= q /\
   q < inject_Z (Double.Math_round x) + (1 # 2))%Q.
Proof.
  intros H. unfold Double.Math_round. rewrite H. apply Math_round_nearest.
Qed.

Section Apportionment.
Variable tokens : Z.
Variable u : StatsCache.ModelUsage.

Let usageInput := JS.nullish (StatsCache.inputTokens u) 0.
Let usageOutput := JS.nullish (StatsCache.outputTokens u) 0.
Let usageCacheRead := JS.nullish (StatsCache.cacheReadInputTokens u) 0.
Let usageCacheCreate := JS.nullish (StatsCache.cacheCreationInputTokens u) 0.
Let ratio := Double.div (Double.ofZ tokens) (Double.ofZ (Stats.usageTotalOf u)).
Let drift :=
  tokens - (Stats.scaled usageInput ratio + Stats.scaled usageOutput ratio +
            Stats.scaled usageCacheRead ratio + Stats.scaled usageCacheCreate ratio).

(** C1. When the usage record of a model has a positive field sum, the
    four components derived from the model's aggregate count add up to
    that count exactly: output, cache-read and cache-write are their
    usage fields times the ratio aggregate/usage-sum, quotient and
    product being the binary64 ones of the code, rounded to the nearest
    integer (within one half of the product computed); the input
    component is the rounded input product plus the signed rounding
    drift. *)
Theorem apportion_exact :
  0 < Stats.usageTotalOf u ->
  let c := Stats.apportion tokens (Some u) in
  Stats.sumComponents c = tokens /\
  Stats.inputTokens c = Stats.scaled usageInput ratio + drift /\
  Stats.outputTokens c = Stats.scaled usageOutput ratio /\
  Stats.cachedInputTokens c = Stats.scaled usageCacheRead ratio /\
  Stats.cacheCreationTokens c = Stats.scaled usageCacheCreate ratio /\
  (forall (field : Z) (product : Q),
     Double.valueOf (Double.mul (Double.ofZ field) ratio) = Some product ->
     (inject_Z (Stats.scaled field ratio) - (1 # 2) <= product /\
      product < inject_Z (Stats.scaled field ratio) + (1 # 2))%Q).
Proof.
  intros Hpos c.
  assert (Hguard : (0 <? Stats.usageTotalOf u) = true) by (apply Z.ltb_lt; exact Hpos).
  subst c. unfold Stats.apportion.
  fold usageInput usageOutput usageCacheRead usageCacheCreate.
  change (usageInput + usageOutput + usageCacheRead + usageCacheCreate)
    with (Stats.usageTotalOf u).
  rewrite Hguard. fold ratio.
  unfold Stats.sumComponents; cbn [Stats.inputTokens Stats.outputTokens
    Stats.cachedInputTokens Stats.cacheCreationTokens].
  split; [|split; [|split; [reflexivity|split; [reflexivity|split; [reflexivity|]]]]].
  - destruct (Z.eqb_spec
      (Stats.scaled usageInput ratio + Stats.scaled usageOutput ratio +
       Stats.scaled usageCacheRead ratio + Stats.scaled usageCacheCreate ratio) tokens);
      lia.
  - unfold drift.
    destruct (Z.eqb_spec
      (Stats.scaled usageInput ratio + Stats.scaled usageOutput ratio +
       Stats.scaled usageCacheRead ratio + Stats.scaled usageCacheCreate ratio) tokens);
      lia.
  - intros field product Hvalue. unfold Stats.scaled.
    apply Double_round_nearest. exact Hvalue.
Qed.

End Apportionment.

Lemma apportion_exact_witness :
  0 < Stats.usageTotalOf (Host.usageRecord 11 11 11 11) /\
  Stats.sumComponents (Stats.apportion 30 (Some (Host.usageRecord 11 11 11 11))) = 30 /\
  Stats.apportion 30 (Some (Host.usageRecord 11 11 11 11)) =
    {| Stats.inputTokens := 9; Stats.outputTokens := 7;
       Stats.cachedInputTokens := 7; Stats.cacheCreationTokens := 7 |} /\
  Stats.apportion 2 (Some (Host.usageRecord 0 1 1 1)) =
    {| Stats.inputTokens := -1; Stats.outputTokens := 1;
       Stats.cachedInputTokens := 1; Stats.cacheCreationTokens := 1 |}.
Proof.
  assert (H : 0 < Stats.usageTotalOf (Host.usageRecord 11 11 11 11)) by reflexivity.
  split; [exact H|].
  split; [exact (proj1 (apportion_exact 30 (Host.usageRecord 11 11 11 11) H))|].
  split; vm_compute; reflexivity.
Defined.

(** ** Token scalar totals (C2) *)

Lemma sumOver_from {A : Type} (f : A -> Z) (l : list A) (a : Z) :
  fold_left (fun acc x => acc + f x) l a = a + Stats.sumOver f l.
Proof.
  unfold Stats.sumOver. revert a.
  induction l as [|x l IH]; intros a; simpl.
  - lia.
  - rewrite (IH (a + f x)), (IH (f x)). lia.
Qed.

Lemma sumOver_cons {A : Type} (f : A -> Z) (x : A) (l : list A) :
  Stats.sumOver f (x :: l) = f x + Stats.sumOver f l.
Proof.
  unfold Stats.sumOver at 1. simpl. rewrite sumOver_from. lia.
Qed.

Lemma sumOver_nil {A : Type} (f : A -> Z) : Stats.sumOver f [] = 0.
Proof. reflexivity. Qed.

Lemma apportion_absent (tokens : Z) :
  Stats.apportion tokens None =
  {| Stats.inputTokens := tokens; Stats.outputTokens := 0;
     Stats.cachedInputTokens := 0; Stats.cacheCreationTokens := 0 |}.
Proof. reflexivity. Qed.

Section MergeLoop.
Variable env : Env.
Variable modelUsage : JS.Map StatsCache.ModelUsage.

(** With authoritative live scalars the loop leaves the five scalars alone. *)
Lemma modelLoop_authoritative (l : JS.Map Z) (t : Stats.Totals) :
  let t' := fold_left (Stats.modelStep env true modelUsage) l t in
  Stats.t_totalTokens t' = Stats.t_totalTokens t /\
  Stats.t_totalInputTokens t' = Stats.t_totalInputTokens t /\
  Stats.t_totalOutputTokens t' = Stats.t_totalOutputTokens t /\
  Stats.t_totalCacheReadTokens t' = Stats.t_totalCacheReadTokens t /\
  Stats.t_totalCacheWriteTokens t' = Stats.t_totalCacheWriteTokens t.
Proof.
  revert t. induction l as [|[modelId tokens] l IH]; intros t; simpl.
  - repeat split.
  - specialize (IH (Stats.modelStep env true modelUsage t (modelId, tokens))).
    simpl in IH. destruct IH as (H1 & H2 & H3 & H4 & H5).
    rewrite H1, H2, H3, H4, H5. unfold Stats.modelStep.
    destruct (tokens <=? 0); [repeat split|].
    destruct (JS.Map_get modelUsage modelId); repeat split.
Qed.

(** Otherwise it adds, per counted model, the count and its components. *)
Lemma modelLoop_accumulates (l : JS.Map Z) (t : Stats.Totals) :
  let t' := fold_left (Stats.modelStep env false modelUsage) l t in
  Stats.t_totalTokens t' =
    Stats.t_totalTokens t + Stats.sumOver snd (Described.counted l) /\
  Stats.t_totalInputTokens t' =
    Stats.t_totalInputTokens t + Described.apportioned Stats.inputTokens modelUsage l /\
  Stats.t_totalOutputTokens t' =
    Stats.t_totalOutputTokens t + Described.apportioned Stats.outputTokens modelUsage l /\
  Stats.t_totalCacheReadTokens t' =
    Stats.t_totalCacheReadTokens t +
    Described.apportioned Stats.cachedInputTokens modelUsage l /\
  Stats.t_totalCacheWriteTokens t' =
    Stats.t_totalCacheWriteTokens t +
    Described.apportioned Stats.cacheCreationTokens modelUsage l.
Proof.
  revert t. induction l as [|[modelId tokens] l IH]; intros t; simpl.
  - unfold Described.apportioned, Described.counted; simpl.
    rewrite !sumOver_nil. repeat split; lia.
  - specialize (IH (Stats.modelStep env false modelUsage t (modelId, tokens))).
    simpl in IH. destruct IH as (H1 & H2 & H3 & H4 & H5).
    rewrite H1, H2, H3, H4, H5. clear H1 H2 H3 H4 H5.
    unfold Described.apportioned, Described.counted, Stats.modelStep.
    simpl filter. replace (0 <? tokens) with (negb (tokens <=? 0))
      by (destruct (Z.leb_spec tokens 0), (Z.ltb_spec 0 tokens); simpl; lia).
    destruct (tokens <=? 0); simpl negb; cbv iota.
    + repeat split.
    + rewrite !sumOver_cons. cbn [fst snd].
      destruct (JS.Map_get modelUsage modelId) as [usage|];
        cbn [Stats.t_totalTokens Stats.t_totalInputTokens Stats.t_totalOutputTokens
             Stats.t_totalCacheReadTokens Stats.t_totalCacheWriteTokens];
        rewrite ?apportion_absent;
        cbn [Stats.inputTokens Stats.outputTokens Stats.cachedInputTokens
             Stats.cacheCreationTokens];
        repeat split; lia.
Qed.

End MergeLoop.

Lemma hasUsageSummaryTokens_nonzero (u : Collector.ClaudeUsageSummary) :
  Forall (fun x => 0 <= x) (Described.scalars u) ->
  (Stats.hasUsageSummaryTokens u = true <->
   Exists (fun x => x <> 0) (Described.scalars u)).
Proof.
  unfold Described.scalars, Stats.hasUsageSummaryTokens. intros Hnn.
  repeat match goal with
         | H : Forall _ (_ :: _) |- _ => inversion H; subst; clear H
         end.
  rewrite !Bool.orb_true_iff, !Z.ltb_lt, !Exists_cons, Exists_nil. lia.
Qed.

Lemma all_zero_not_authoritative (u : Collector.ClaudeUsageSummary) :
  Forall (fun x => x = 0) (Described.scalars u) ->
  Stats.hasUsageSummaryTokens u = false /\
  Stats.t_totalTokens (Stats.liveTotals u) = 0 /\
  Stats.t_totalInputTokens (Stats.liveTotals u) = 0 /\
  Stats.t_totalOutputTokens (Stats.liveTotals u) = 0 /\
  Stats.t_totalCacheReadTokens (Stats.liveTotals u) = 0 /\
  Stats.t_totalCacheWriteTokens (Stats.liveTotals u) = 0.
Proof.
  unfold Described.scalars. intros Hzero.
  repeat match goal with
         | H : Forall _ (_ :: _) |- _ => inversion H; subst; clear H
         end.
  unfold Stats.hasUsageSummaryTokens, Stats.liveTotals;
    cbn [Stats.t_totalTokens Stats.t_totalInputTokens Stats.t_totalOutputTokens
         Stats.t_totalCacheReadTokens Stats.t_totalCacheWriteTokens].
  repeat match goal with
         | H : _ = 0 |- _ => rewrite H; clear H
         end.
  repeat split.
Qed.

(** With all five live scalars at zero, the merged total is the sum of
    the counted per-model counts. *)
Lemma accumulated_total
  (env : Env) (year : Z) (statsCache : StatsCache.ClaudeStatsCache)
  (projects : JS.StrSet) (u : Collector.ClaudeUsageSummary) :
  Forall (fun x => x = 0) (Described.scalars u) ->
  Stats.totalTokens (Stats.calculateStatsFrom env year statsCache projects u) =
  Stats.sumOver snd
    (Described.counted (Stats.collectModelTokenTotals env year statsCache u)).
Proof.
  intros Hzero.
  destruct (all_zero_not_authoritative u Hzero) as (Hauth & H0 & _).
  unfold Stats.calculateStatsFrom; cbn [Stats.totalTokens].
  unfold Stats.mergeTotals. rewrite Hauth.
  pose proof (modelLoop_accumulates env
                (JS.nullish (StatsCache.modelUsage statsCache) [])
                (Stats.collectModelTokenTotals env year statsCache u)
                (Stats.liveTotals u)) as Hacc.
  cbv zeta in Hacc. destruct Hacc as (H1 & _). rewrite H1, H0. lia.
Qed.

(** C2. If the live usage summary reports a nonzero token scalar (total,
    input, output, cache-read or cache-write; token counts being
    non-negative), the snapshot's five token scalars are the live ones
    and the per-model loop adds nothing to them; when all five live
    scalars are zero, the snapshot's scalars are accumulated from the
    counted models: the total from the per-model counts, the other four
    from the apportioned components. The first part holds whenever the
    code's own test [hasUsageSummaryTokens] succeeds. *)
Theorem live_scalars_authoritative
  (env : Env) (year : Z) (statsCache : StatsCache.ClaudeStatsCache)
  (projects : JS.StrSet) (u : Collector.ClaudeUsageSummary) :
  let s := Stats.calculateStatsFrom env year statsCache projects u in
  let totals := Stats.collectModelTokenTotals env year statsCache u in
  let modelUsage := JS.nullish (StatsCache.modelUsage statsCache) [] in
  let live :=
    Stats.totalTokens s = Collector.totalTokens u /\
    Stats.totalInputTokens s = Collector.totalInputTokens u /\
    Stats.totalOutputTokens s = Collector.totalOutputTokens u /\
    Stats.totalCacheReadTokens s = Collector.totalCacheReadTokens u /\
    Stats.totalCacheWriteTokens s = Collector.totalCacheCreationTokens u in
  (Forall (fun x => 0 <= x) (Described.scalars u) ->
   Exists (fun x => x <> 0) (Described.scalars u) -> live) /\
  (Forall (fun x => x = 0) (Described.scalars u) ->
   Stats.totalTokens s = Stats.sumOver snd (Described.counted totals) /\
   Stats.totalInputTokens s =
     Described.apportioned Stats.inputTokens modelUsage totals /\
   Stats.totalOutputTokens s =
     Described.apportioned Stats.outputTokens modelUsage totals /\
   Stats.totalCacheReadTokens s =
     Described.apportioned Stats.cachedInputTokens modelUsage totals /\
   Stats.totalCacheWriteTokens s =
     Described.apportioned Stats.cacheCreationTokens modelUsage totals) /\
  (Stats.hasUsageSummaryTokens u = true -> live).
Proof.
  intros s totals modelUsage live.
  assert (Hlive : Stats.hasUsageSummaryTokens u = true -> live).
  { intros Hauth. subst live s.
    unfold Stats.calculateStatsFrom; cbn [Stats.totalTokens Stats.totalInputTokens
      Stats.totalOutputTokens Stats.totalCacheReadTokens Stats.totalCacheWriteTokens].
    unfold Stats.mergeTotals. rewrite Hauth.
    apply (modelLoop_authoritative env
             (JS.nullish (StatsCache.modelUsage statsCache) [])
             (Stats.collectModelTokenTotals env year statsCache u)
             (Stats.liveTotals u)). }
  split; [|split].
  - intros Hnn Hex. apply Hlive.
    apply hasUsageSummaryTokens_nonzero; assumption.
  - intros Hzero.
    assert (Hauth : Stats.hasUsageSummaryTokens u = false).
    { unfold Described.scalars in Hzero.
      repeat match goal with
             | H : Forall _ (_ :: _) |- _ => inversion H; subst; clear H
             end.
      unfold Stats.hasUsageSummaryTokens.
      repeat match goal with
             | H : _ = 0 |- _ => rewrite H; clear H
             end.
      reflexivity. }
    subst s.
    unfold Stats.calculateStatsFrom; cbn [Stats.totalTokens Stats.totalInputTokens
      Stats.totalOutputTokens Stats.totalCacheReadTokens Stats.totalCacheWriteTokens].
    unfold Stats.mergeTotals. rewrite Hauth.
    pose proof (modelLoop_accumulates env modelUsage totals (Stats.liveTotals u)) as Hacc.
    cbv zeta in Hacc. fold totals modelUsage.
    destruct Hacc as (H1 & H2 & H3 & H4 & H5).
    rewrite H1, H2, H3, H4, H5.
    unfold Described.scalars in Hzero.
    repeat match goal with
           | H : Forall _ (_ :: _) |- _ => inversion H; subst; clear H
           end.
    unfold Stats.liveTotals; cbn [Stats.t_totalTokens Stats.t_totalInputTokens
      Stats.t_totalOutputTokens Stats.t_totalCacheReadTokens
      Stats.t_totalCacheWriteTokens].
    repeat split; lia.
  - exact Hlive.
Qed.

Lemma live_scalars_authoritative_witness :
  (let u := Collector.summarize (Host.reduce [Host.withModel; Host.withoutModel]) in
   let s := Stats.calculateStatsFrom Host.utc 2025 Host.smallCache [] u in
   Collector.totalTokens u = 20 /\
   Stats.totalTokens s = 20 /\ Stats.totalInputTokens s = 16 /\
   Stats.totalOutputTokens s = 4) /\
  (let s := Stats.calculateStatsFrom Host.utc 2025 Host.smallCache [] Host.noUsage in
   Stats.totalTokens s = 2 /\ Stats.totalInputTokens s = -1 /\
   Stats.totalOutputTokens s = 1 /\ Stats.totalCacheReadTokens s = 1 /\
   Stats.totalCacheWriteTokens s = 1).
Proof.
  split.
  - pose proof (live_scalars_authoritative Host.utc 2025 Host.smallCache []
                  (Collector.summarize (Host.reduce [Host.withModel; Host.withoutModel])))
      as H.
    cbv zeta in H. destruct H as (H & _ & _).
    assert (Hnn : Forall (fun x => 0 <= x)
                    (Described.scalars
                       (Collector.summarize
                          (Host.reduce [Host.withModel; Host.withoutModel])))).
    { vm_compute. repeat constructor; discriminate. }
    assert (Hex : Exists (fun x => x <> 0)
                    (Described.scalars
                       (Collector.summarize
                          (Host.reduce [Host.withModel; Host.withoutModel])))).
    { vm_compute. constructor. discriminate. }
    destruct (H Hnn Hex) as (H1 & H2 & H3 & _).
    cbv zeta. rewrite H1, H2, H3. vm_compute. repeat split.
  - pose proof (live_scalars_authoritative Host.utc 2025 Host.smallCache []
                  Host.noUsage) as H.
    cbv zeta in H. destruct H as (_ & H & _).
    assert (Hzero : Forall (fun x => x = 0) (Described.scalars Host.noUsage)).
    { vm_compute. repeat constructor. }
    destruct (H Hzero) as (H1 & H2 & H3 & H4 & H5).
    cbv zeta. rewrite H1, H2, H3, H4, H5. vm_compute. repeat split.
Defined.

(** ** Deduplication (C4) *)

Lemma Set_has_add_same (s : JS.StrSet) (x : string) :
  JS.Set_has (JS.Set_add s x) x = true.
Proof.
  unfold JS.Set_add. destruct (JS.Set_has s x) eqn:E; [exact E|].
  unfold JS.Set_has. rewrite existsb_app. simpl.
  rewrite String.eqb_refl. rewrite Bool.orb_true_r. reflexivity.
Qed.

Lemma Set_has_add_mono (s : JS.StrSet) (x y : string) :
  JS.Set_has s y = true -> JS.Set_has (JS.Set_add s x) y = true.
Proof.
  intros H. unfold JS.Set_add. destruct (JS.Set_has s x); [exact H|].
  unfold JS.Set_has in *. rewrite existsb_app, H. reflexivity.
Qed.

Section Dedup.
Variable env : Env.
Variable year : Z.

Lemma reduceUsage_hashes hasCost m usage a :
  Collector.acc_processedHashes (Collector.reduceUsage env hasCost m usage a) =
  Collector.acc_processedHashes a.
Proof.
  unfold Collector.reduceUsage.
  destruct (Collector.presentModel m); [|reflexivity].
  cbn [Collector.acc_pricingCache Collector.acc_totalCostUSD].
  destruct (negb hasCost && _);
    [destruct (Collector.lookupPricing _ _ _)|]; reflexivity.
Qed.

Lemma reduceEntry_hashes entry a :
  Collector.acc_processedHashes (Collector.reduceEntry env year entry a) =
  Collector.acc_processedHashes a.
Proof.
  unfold Collector.reduceEntry.
  destruct (Collector.entryDate env (Raw.timestamp entry)); [|reflexivity].
  destruct (Clock.getFullYear env z =? year); [|reflexivity].
  destruct (Collector.entryUsage entry); [|reflexivity].
  rewrite reduceUsage_hashes. reflexivity.
Qed.

(** A hash is in the set once its record has gone through the loop body. *)
Lemma processEntry_marks a entry h :
  Collector.createUniqueHash entry = Some h ->
  JS.Set_has (Collector.acc_processedHashes (Collector.processEntry env year a entry)) h
  = true.
Proof.
  intros Hh. unfold Collector.processEntry. rewrite Hh.
  destruct (JS.Set_has (Collector.acc_processedHashes a) h) eqn:E; [exact E|].
  rewrite reduceEntry_hashes. simpl. apply Set_has_add_same.
Qed.

Lemma processEntry_keeps a entry h :
  JS.Set_has (Collector.acc_processedHashes a) h = true ->
  JS.Set_has (Collector.acc_processedHashes (Collector.processEntry env year a entry)) h
  = true.
Proof.
  intros Hin. unfold Collector.processEntry.
  destruct (Collector.createUniqueHash entry) as [h'|].
  - destruct (JS.Set_has (Collector.acc_processedHashes a) h'); [exact Hin|].
    rewrite reduceEntry_hashes. simpl. apply Set_has_add_mono. exact Hin.
  - rewrite reduceEntry_hashes. exact Hin.
Qed.

(** A record whose hash is in the set leaves every accumulator as it is. *)
Lemma processEntry_seen a entry h :
  Collector.createUniqueHash entry = Some h ->
  JS.Set_has (Collector.acc_processedHashes a) h = true ->
  Collector.processEntry env year a entry = a.
Proof.
  intros Hh Hin. unfold Collector.processEntry. rewrite Hh, Hin. reflexivity.
Qed.

Let covered := Described.covered env.

Lemma processLine_record a line :
  Collector.processLine env year a line =
  match Described.recordOf env line with
  | Some entry => Collector.processEntry env year a entry
  | None => a
  end.
Proof.
  unfold Collector.processLine, Described.recordOf.
  destruct (JS.truthy (JS.trim line)); reflexivity.
Qed.

Lemma processLine_covered a line : covered a line -> Collector.processLine env year a line = a.
Proof.
  unfold covered, Described.covered. rewrite processLine_record.
  destruct (Described.recordOf env line) as [entry|]; [|reflexivity].
  intros (h & Hh & Hin). exact (processEntry_seen a entry h Hh Hin).
Qed.

Lemma processLine_keeps a line line' :
  covered a line' -> covered (Collector.processLine env year a line) line'.
Proof.
  unfold covered, Described.covered. rewrite processLine_record.
  destruct (Described.recordOf env line') as [entry'|]; [|trivial].
  intros (h & Hh & Hin). exists h. split; [exact Hh|].
  destruct (Described.recordOf env line) as [entry|]; [|exact Hin].
  apply processEntry_keeps. exact Hin.
Qed.

Lemma processLine_covers a line :
  Described.identified env line = true ->
  covered (Collector.processLine env year a line) line.
Proof.
  unfold Described.identified, covered, Described.covered. rewrite processLine_record.
  destruct (Described.recordOf env line) as [entry|]; [|trivial].
  destruct (Collector.createUniqueHash entry) as [h|] eqn:Hh; [|discriminate].
  intros _. exists h. split; [reflexivity|].
  apply processEntry_marks. exact Hh.
Qed.

Lemma scan_keeps lines a line' :
  covered a line' -> covered (fold_left (Collector.processLine env year) lines a) line'.
Proof.
  revert a. induction lines as [|line lines IH]; intros a H; simpl; [exact H|].
  apply IH. apply processLine_keeps. exact H.
Qed.

Lemma scan_covers lines a :
  forallb (Described.identified env) lines = true ->
  Forall (covered (fold_left (Collector.processLine env year) lines a)) lines.
Proof.
  revert a. induction lines as [|line lines IH]; intros a H; simpl.
  - constructor.
  - simpl in H. apply Bool.andb_true_iff in H. destruct H as [Hl Hr].
    constructor.
    + apply scan_keeps. apply processLine_covers. exact Hl.
    + apply IH. exact Hr.
Qed.

Lemma scan_covered lines a :
  Forall (covered a) lines -> fold_left (Collector.processLine env year) lines a = a.
Proof.
  induction 1 as [|line lines Hc _ IH]; simpl; [reflexivity|].
  rewrite (processLine_covered a line Hc). exact IH.
Qed.

Lemma scanFiles_lines files a :
  Collector.scanFiles env year a files =
  fold_left (Collector.processLine env year) (flat_map (readLines env) files) a.
Proof.
  unfold Collector.scanFiles. revert a.
  induction files as [|f files IH]; intros a; simpl; [reflexivity|].
  rewrite fold_left_app. apply IH.
Qed.

End Dedup.

(** C4. Scanning the same log files twice in one run gives the same
    usage summary (token scalars, cost, per-model totals, daily activity,
    first timestamp, message and session counts) as scanning them once,
    provided every record in them carries a message identifier and a
    request identifier; more generally, scanning any of the files again,
    in any order, changes nothing. *)
Theorem dedup_idempotent (env : Env) (year : Z) (files : list string) :
  forallb (Described.identified env) (flat_map (readLines env) files) = true ->
  (Collector.scanFiles env year Collector.initial (files ++ files) =
   Collector.scanFiles env year Collector.initial files /\
   Collector.summarize (Collector.scanFiles env year Collector.initial (files ++ files)) =
   Collector.summarize (Collector.scanFiles env year Collector.initial files)) /\
  (forall again : list string,
     incl again files ->
     Collector.summarize (Collector.scanFiles env year Collector.initial (files ++ again)) =
     Collector.summarize (Collector.scanFiles env year Collector.initial files)).
Proof.
  intros Hid.
  assert (Hagain : forall again, incl again files ->
            Collector.scanFiles env year Collector.initial (files ++ again) =
            Collector.scanFiles env year Collector.initial files).
  { intros again Hincl.
    unfold Collector.scanFiles at 1. rewrite fold_left_app.
    fold (Collector.scanFiles env year Collector.initial files).
    fold (Collector.scanFiles env year
            (Collector.scanFiles env year Collector.initial files) again).
    rewrite (scanFiles_lines env year again
               (Collector.scanFiles env year Collector.initial files)).
    apply scan_covered.
    pose proof (scan_covers env year (flat_map (readLines env) files)
                  Collector.initial Hid) as Hall.
    rewrite <- (scanFiles_lines env year files Collector.initial) in Hall.
    rewrite Forall_forall in Hall |- *.
    intros line Hin. apply Hall.
    apply in_flat_map in Hin. destruct Hin as (file & Hfile & Hline).
    apply in_flat_map. exists file. split; [apply Hincl; exact Hfile|exact Hline]. }
  split.
  - rewrite (Hagain files (incl_refl files)). split; reflexivity.
  - intros again Hincl. rewrite (Hagain again Hincl). reflexivity.
Qed.

Lemma dedup_idempotent_witness :
  Collector.totalTokens
    (Collector.summarize
       (Collector.scanFiles Host.logged 2025 Collector.initial ["a.jsonl"; "a.jsonl"]%string))
  = 20 /\
  Collector.summarize
    (Collector.scanFiles Host.logged 2025 Collector.initial ["a.jsonl"; "a.jsonl"]%string) =
  Collector.summarize
    (Collector.scanFiles Host.logged 2025 Collector.initial ["a.jsonl"]%string).
Proof.
  split; [vm_compute; reflexivity|].
  apply (proj1 (dedup_idempotent Host.logged 2025 ["a.jsonl"%string] eq_refl)).
Defined.

(** ** Cost (C10) *)

Section Cost.
Variable env : Env.
Variable year : Z.

Lemma processLine_out_of_year a line :
  Described.inYear env year line = false ->
  Collector.acc_totalCostUSD (Collector.processLine env year a line) =
  Collector.acc_totalCostUSD a.
Proof.
  unfold Described.inYear. rewrite processLine_record.
  destruct (Described.recordOf env line) as [entry|]; [|reflexivity].
  intros Hout. unfold Collector.processEntry.
  assert (Hskip : forall b, Collector.reduceEntry env year entry b = b).
  { intros b. unfold Collector.reduceEntry.
    destruct (Collector.entryDate env (Raw.timestamp entry)); [|reflexivity].
    rewrite Hout. reflexivity. }
  destruct (Collector.createUniqueHash entry) as [h|].
  - destruct (JS.Set_has (Collector.acc_processedHashes a) h); [reflexivity|].
    rewrite Hskip. reflexivity.
  - rewrite Hskip. reflexivity.
Qed.

Lemma scan_out_of_year lines a :
  forallb (fun line => negb (Described.inYear env year line)) lines = true ->
  Collector.acc_totalCostUSD (fold_left (Collector.processLine env year) lines a) =
  Collector.acc_totalCostUSD a.
Proof.
  revert a. induction lines as [|line lines IH]; intros a H; simpl; [reflexivity|].
  simpl in H. apply Bool.andb_true_iff in H. destruct H as [Hl Hr].
  rewrite (IH _ Hr). apply processLine_out_of_year.
  apply Bool.negb_true_iff. exact Hl.
Qed.

Lemma scanRoots_lines roots a :
  fold_left (Collector.scanRoot env year) roots a =
  fold_left (Collector.processLine env year) (Described.scannedLines env roots) a.
Proof.
  unfold Described.scannedLines. revert a.
  induction roots as [|root roots IH]; intros a; simpl; [reflexivity|].
  rewrite IH. unfold Collector.scanRoot.
  destruct (Collector.pathIsDirectory env root); simpl; [|reflexivity].
  rewrite flat_map_app, fold_left_app, scanFiles_lines. reflexivity.
Qed.

End Cost.

(** C10. The snapshot's total cost is the live usage summary's cost (the
    explicit record costs plus the priced estimates), whatever the stats
    cache holds, so no per-model cost of the cache enters it; when no
    record of the scanned logs is dated in the requested year, the total
    cost is 0 and [hasUsageCost] is false, whatever the cache holds. *)
Theorem total_cost_is_live
  (env : Env) (year : Z) (statsCache : StatsCache.ClaudeStatsCache) (projects : JS.StrSet) :
  (forall u : Collector.ClaudeUsageSummary,
     Stats.totalCost (Stats.calculateStatsFrom env year statsCache projects u) =
       Collector.totalCostUSD u /\
     Stats.hasUsageCost (Stats.calculateStatsFrom env year statsCache projects u) =
       Stats.positiveQ (Collector.totalCostUSD u)) /\
  (forall (u : Collector.ClaudeUsageSummary) (other : StatsCache.ClaudeStatsCache),
     Stats.totalCost (Stats.calculateStatsFrom env year statsCache projects u) =
     Stats.totalCost (Stats.calculateStatsFrom env year other projects u)) /\
  (forallb (fun line => negb (Described.inYear env year line))
           (Described.scannedLines env (Collector.getClaudeProjectRoots env)) = true ->
   let s := Stats.calculateStatsFrom env year statsCache projects
              (Collector.collectClaudeUsageSummary env year) in
   Stats.totalCost s = 0%Q /\ Stats.hasUsageCost s = false).
Proof.
  split; [|split].
  - intros u. split; reflexivity.
  - intros u other. reflexivity.
  - intros Hout s.
    assert (Hcost : Collector.totalCostUSD (Collector.collectClaudeUsageSummary env year)
                    = 0%Q).
    { unfold Collector.collectClaudeUsageSummary, Collector.scanRoots.
      rewrite scanRoots_lines.
      unfold Collector.summarize; cbn [Collector.totalCostUSD].
      rewrite (scan_out_of_year env year _ _ Hout). reflexivity. }
    subst s. unfold Stats.calculateStatsFrom;
      cbn [Stats.totalCost Stats.hasUsageCost].
    rewrite Hcost. split; reflexivity.
Qed.

Lemma total_cost_is_live_witness :
  Described.scannedLines Host.logged (Collector.getClaudeProjectRoots Host.logged) =
    ["one"; "two"; "garbage"]%string /\
  let s := Stats.calculateStatsFrom Host.logged 2024 Host.costlyCache []
             (Collector.collectClaudeUsageSummary Host.logged 2024) in
  Stats.totalCost s = 0%Q /\ Stats.hasUsageCost s = false.
Proof.
  split; [vm_compute; reflexivity|].
  apply (total_cost_is_live Host.logged 2024 Host.costlyCache []).
  vm_compute. reflexivity.
Defined.

(** ** Per-model totals in the reducer (C8) *)

Lemma Map_get_set_same {V : Type} (m : JS.Map V) (k : string) (v : V) :
  JS.Map_get (JS.Map_set m k v) k = Some v.
Proof.
  induction m as [|[k' v'] m IH]; simpl.
  - rewrite String.eqb_refl. reflexivity.
  - destruct (String.eqb k k') eqn:E; simpl; rewrite E; [reflexivity|exact IH].
Qed.

Lemma Map_has_add (m : JS.Map Z) (k : string) (n : Z) :
  JS.Map_has (JS.Map_add m k n) k = true.
Proof.
  unfold JS.Map_has, JS.Map_add. rewrite Map_get_set_same. reflexivity.
Qed.

Lemma trimEnd_empty (s : string) :
  JS.trimEnd s = EmptyString <-> JS.allWhiteSpace s = true.
Proof.
  destruct s as [|c s]; simpl.
  - split; reflexivity.
  - destruct (JS.isWhiteSpace c && JS.allWhiteSpace s).
    + split; reflexivity.
    + split; discriminate.
Qed.

Lemma allWhiteSpace_trimStart (s : string) :
  JS.allWhiteSpace (JS.trimStart s) = JS.allWhiteSpace s.
Proof.
  induction s as [|c s IH]; simpl; [reflexivity|].
  destruct (JS.isWhiteSpace c) eqn:E; simpl; [exact IH|].
  rewrite E. reflexivity.
Qed.

(** A string trims to the empty string exactly when it is blank. *)
Lemma trim_blank (s : string) :
  JS.truthy (JS.trim s) = negb (JS.allWhiteSpace s).
Proof.
  unfold JS.truthy, JS.trim.
  rewrite <- (allWhiteSpace_trimStart s).
  destruct (JS.allWhiteSpace (JS.trimStart s)) eqn:E.
  - apply trimEnd_empty in E. rewrite E. reflexivity.
  - destruct (String.eqb_spec (JS.trimEnd (JS.trimStart s)) EmptyString) as [H|H];
      [|reflexivity].
    apply trimEnd_empty in H. congruence.
Qed.

(** C8, the claim fails: a record that names a model and whose usage
    block sums to zero adds an entry for the model to the per-model
    token map. *)
Lemma zero_total_adds_entry :
  Collector.entryUsage Host.zeroTotal =
    Some {| Raw.input_tokens := Some 0; Raw.output_tokens := Some 0;
            Raw.cache_creation_input_tokens := None;
            Raw.cache_read_input_tokens := None |} /\
  Collector.acc_modelTokenTotals Collector.initial = [] /\
  Collector.acc_modelTokenTotals (Host.reduce [Host.zeroTotal]) =
    [("claude-sonnet"%string, 0)].
Proof. repeat split. Qed.

(** C8, amended. While a record with a usage block is reduced, its token
    total is added to the running total of its model whenever the model
    identifier is a string that is not blank, whatever the sign of the
    record's total: the model then has an entry in the per-model map,
    holding its previous value (0 if none) plus the record's total. A
    record without such an identifier leaves the map as it is. A
    positive total is required only for the priced cost estimate: with
    an explicit cost or a total that is not positive, neither the
    pricing memo nor the cost changes. *)
Theorem model_total_added_when_named
  (env : Env) (hasCost : bool) (m : option Raw.Message) (u : Raw.Usage)
  (a : Collector.Acc) :
  let entryTotal :=
    Collector.ensureNumber (Raw.input_tokens u) +
    Collector.ensureNumber (Raw.output_tokens u) +
    Collector.ensureNumber (Raw.cache_creation_input_tokens u) +
    Collector.ensureNumber (Raw.cache_read_input_tokens u) in
  let a' := Collector.reduceUsage env hasCost m u a in
  (forall name : string,
     Collector.presentModel m = Some name ->
     Collector.acc_modelTokenTotals a' =
       JS.Map_add (Collector.acc_modelTokenTotals a) name entryTotal /\
     JS.Map_get (Collector.acc_modelTokenTotals a') name =
       Some (JS.nullish (JS.Map_get (Collector.acc_modelTokenTotals a) name) 0
             + entryTotal)) /\
  (Collector.presentModel m = None ->
   Collector.acc_modelTokenTotals a' = Collector.acc_modelTokenTotals a) /\
  (forall name : string,
     Collector.presentModel m = Some name <->
     exists msg, m = Some msg /\ Raw.model msg = Some name /\
                 JS.allWhiteSpace name = false) /\
  (hasCost = true \/ entryTotal <= 0 ->
   Collector.acc_pricingCache a' = Collector.acc_pricingCache a /\
   Collector.acc_totalCostUSD a' = Collector.acc_totalCostUSD a).
Proof.
  intros entryTotal a'. subst a'. unfold Collector.reduceUsage. fold entryTotal.
  split; [|split; [|split]].
  - intros name Hname. rewrite Hname.
    cbn [Collector.acc_modelTokenTotals Collector.acc_pricingCache
         Collector.acc_totalCostUSD].
    destruct (negb hasCost && (0 <? entryTotal));
      [destruct (Collector.lookupPricing _ _ _)|];
      cbn [Collector.acc_modelTokenTotals];
      (split; [reflexivity|]); unfold JS.Map_add; apply Map_get_set_same.
  - intros Hnone. rewrite Hnone. reflexivity.
  - intros name. unfold Collector.presentModel.
    destruct m as [msg|].
    + destruct (Raw.model msg) as [n|] eqn:Hm.
      * rewrite trim_blank.
        destruct (JS.allWhiteSpace n) eqn:Hb; simpl.
        -- split; [discriminate|].
           intros (msg' & Heq & Hn & Hw). inversion Heq; subst msg'.
           rewrite Hm in Hn. inversion Hn; subst. congruence.
        -- split.
           ++ intros H. inversion H; subst. exists msg. repeat split; assumption.
           ++ intros (msg' & Heq & Hn & Hw). inversion Heq; subst msg'.
              rewrite Hm in Hn. exact Hn.
      * split; [discriminate|].
        intros (msg' & Heq & Hn & _). inversion Heq; subst msg'.
        rewrite Hm in Hn. discriminate.
    + split; [discriminate|]. intros (msg' & Heq & _). discriminate.
  - intros Hgate.
    assert (Hoff : negb hasCost && (0 <? entryTotal) = false).
    { destruct Hgate as [Hc|Hz].
      - rewrite Hc. reflexivity.
      - apply Bool.andb_false_iff. right. apply Z.ltb_ge. exact Hz. }
    rewrite Hoff.
    destruct (Collector.presentModel m); split; reflexivity.
Qed.

Lemma model_total_added_when_named_witness :
  let a' :=
    Collector.reduceUsage Host.utc false (Raw.message Host.zeroTotal)
      {| Raw.input_tokens := Some 0; Raw.output_tokens := Some 0;
         Raw.cache_creation_input_tokens := None;
         Raw.cache_read_input_tokens := None |} Collector.initial in
  Collector.presentModel (Raw.message Host.zeroTotal) = Some "claude-sonnet"%string /\
  JS.Map_get (Collector.acc_modelTokenTotals a') "claude-sonnet" = Some 0 /\
  Collector.acc_totalCostUSD a' = 0%Q.
Proof.
  cbv zeta.
  pose proof (model_total_added_when_named Host.utc false (Raw.message Host.zeroTotal)
                {| Raw.input_tokens := Some 0; Raw.output_tokens := Some 0;
                   Raw.cache_creation_input_tokens := None;
                   Raw.cache_read_input_tokens := None |} Collector.initial) as H.
  cbv zeta in H. destruct H as (Hadd & _ & _ & Hgate).
  assert (Hname : Collector.presentModel (Raw.message Host.zeroTotal)
                  = Some "claude-sonnet"%string) by reflexivity.
  split; [exact Hname|].
  split.
  - rewrite (proj2 (Hadd _ Hname)). reflexivity.
  - rewrite (proj2 (Hgate (or_intror (Z.le_refl 0)))). reflexivity.
Defined.

(** ** Missing data sources (C6) *)

(** C6, the claim fails: on a host without any Claude directory the
    cache reader raises, and so does the stats merger. *)
Lemma missing_cache_raises :
  Collector.resolveClaudeDataPath Host.utc = None /\
  Collector.loadClaudeStatsCache Host.utc =
    Collector.Throw "Claude data not found"%string /\
  Stats.calculateStats Host.utc 2025 =
    Collector.Throw "Claude data not found"%string /\
  ~ (exists statsCache, Collector.loadClaudeStatsCache Host.utc = Collector.Ok statsCache).
Proof.
  repeat split. intros (c & H). discriminate H.
Qed.

Lemma addRoot_skips (env : Env) (bases roots : list string) :
  Forall (fun path => Collector.pathIsDirectory env path = false)
         (map (fun base => path_join env (path_resolve env base)
                             Collector.CLAUDE_PROJECTS_DIR) bases) ->
  fold_left (Collector.addRoot env) bases roots = roots.
Proof.
  revert roots. induction bases as [|base bases IH]; intros roots H; simpl;
    [reflexivity|].
  inversion H as [|x l Hbase Hrest]; subst.
  rewrite (IH _ Hrest). unfold Collector.addRoot. rewrite Hbase. reflexivity.
Qed.

Lemma addRoot_grows (env : Env) (bases roots : list string) :
  roots <> [] -> fold_left (Collector.addRoot env) bases roots <> [].
Proof.
  revert roots. induction bases as [|base bases IH]; intros roots H; simpl; [exact H|].
  apply IH. unfold Collector.addRoot.
  destruct (Collector.pathIsDirectory env _); [|exact H].
  destruct (JS.Set_has roots _); [exact H|].
  destruct roots; [congruence|discriminate].
Qed.

Lemma addRoot_finds (env : Env) (bases roots : list string) :
  fold_left (Collector.addRoot env) bases roots = [] ->
  Forall (fun path => Collector.pathIsDirectory env path = false)
         (map (fun base => path_join env (path_resolve env base)
                             Collector.CLAUDE_PROJECTS_DIR) bases).
Proof.
  revert roots. induction bases as [|base bases IH]; intros roots H; simpl;
    [constructor|].
  simpl in H. constructor; [|exact (IH _ H)].
  destruct (Collector.pathIsDirectory env
              (path_join env (path_resolve env base) Collector.CLAUDE_PROJECTS_DIR))
    eqn:Hdir; [|reflexivity].
  exfalso. revert H. apply addRoot_grows.
  unfold Collector.addRoot. rewrite Hdir.
  destruct (JS.Set_has roots _) eqn:Hhas.
  - destruct roots; [discriminate Hhas|discriminate].
  - destruct roots; discriminate.
Qed.

Lemma find_none {A : Type} (f : A -> bool) (l : list A) :
  Forall (fun x => f x = false) l -> find f l = None.
Proof.
  intros H. induction H as [|x l Hx _ IH]; simpl; [reflexivity|].
  rewrite Hx. exact IH.
Qed.

(** C6, amended. The two sources are missing independently. When none
    of the candidate projects directories exists (exactly then, no root
    is found), the usage reducer returns a zero-valued summary without
    raising, whether or not there is a cache file. When none of the
    candidate directories holds the marker file, the source locator
    returns an empty result and the project collector an empty set, but
    the cache reader raises "Claude data not found", and with it the
    stats merger: a caller has to test [checkClaudeDataExists] (which
    answers "no") before asking for the snapshot. *)
Theorem missing_sources (env : Env) (year : Z) :
  (Forall (fun path => Collector.pathIsDirectory env path = false)
          (Described.rootCandidates env) <->
   Collector.getClaudeProjectRoots env = []) /\
  (Forall (fun path => Collector.pathIsDirectory env path = false)
          (Described.rootCandidates env) ->
   Collector.collectClaudeUsageSummary env year = Collector.summarize Collector.initial) /\
  (Forall (fun dir => Described.holdsCache env dir = false)
          (Described.dataCandidates env) ->
   Collector.resolveClaudeDataPath env = None /\
   Collector.checkClaudeDataExists env = false /\
   Collector.collectClaudeProjects env year = [] /\
   Collector.loadClaudeStatsCache env = Collector.Throw "Claude data not found"%string /\
   Stats.calculateStats env year = Collector.Throw "Claude data not found"%string).
Proof.
  assert (Hiff : Forall (fun path => Collector.pathIsDirectory env path = false)
                        (Described.rootCandidates env) <->
                 Collector.getClaudeProjectRoots env = []).
  { unfold Described.rootCandidates, Collector.getClaudeProjectRoots.
    destruct (JS.truthy _); (split; [apply addRoot_skips|apply addRoot_finds]). }
  split; [exact Hiff|split].
  - intros Hnone. unfold Collector.collectClaudeUsageSummary.
    rewrite (proj1 Hiff Hnone). reflexivity.
  - intros Hfile.
    assert (Hpath : Collector.resolveClaudeDataPath env = None).
    { unfold Described.dataCandidates in Hfile.
      unfold Collector.resolveClaudeDataPath.
      destruct (option_map JS.trim (env_CLAUDE_CONFIG_DIR env)) as [p|].
      - destruct (JS.truthy p); cbn [andb app] in *.
        + inversion Hfile as [|x l Hp Hrest]; subst.
          unfold Described.holdsCache in Hp. rewrite Hp.
          apply find_none. exact Hrest.
        + apply find_none. exact Hfile.
      - apply find_none. exact Hfile. }
    assert (Hload : Collector.loadClaudeStatsCache env =
                    Collector.Throw "Claude data not found"%string).
    { unfold Collector.loadClaudeStatsCache. rewrite Hpath. reflexivity. }
    split; [exact Hpath|].
    split; [unfold Collector.checkClaudeDataExists; rewrite Hpath; reflexivity|].
    split; [unfold Collector.collectClaudeProjects; rewrite Hpath; reflexivity|].
    split; [exact Hload|].
    unfold Stats.calculateStats. rewrite Hload. reflexivity.
Qed.

Lemma missing_sources_witness :
  Collector.loadClaudeStatsCache Sample.cacheOnly = Collector.Ok StatsCache.empty /\
  Collector.collectClaudeUsageSummary Sample.cacheOnly 2025 = Host.noUsage /\
  Collector.checkClaudeDataExists Host.utc = false /\
  Collector.loadClaudeStatsCache Host.utc =
    Collector.Throw "Claude data not found"%string.
Proof.
  split; [reflexivity|].
  destruct (missing_sources Sample.cacheOnly 2025) as (Hroots & Hsummary & _).
  destruct (missing_sources Host.utc 2025) as (_ & _ & Hcache).
  split.
  - apply Hsummary. vm_compute. repeat constructor.
  - assert (Hnone : Forall (fun dir => Described.holdsCache Host.utc dir = false)
                           (Described.dataCandidates Host.utc))
      by (vm_compute; repeat constructor).
    destruct (Hcache Hnone) as (_ & Hcheck & _ & Hload & _).
    split; [exact Hcheck|exact Hload].
Defined.

(** ** Percentages (C7) *)

Lemma modelLoop_counts (env : Env) (authoritative : bool)
  (modelUsage : JS.Map StatsCache.ModelUsage) (l : JS.Map Z) (t : Stats.Totals) :
  map Stats.count
      (Stats.t_modelStats (fold_left (Stats.modelStep env authoritative modelUsage) l t)) =
  map Stats.count (Stats.t_modelStats t) ++ map snd (Described.counted l).
Proof.
  revert t. induction l as [|[modelId tokens] l IH]; intros t; simpl.
  - rewrite app_nil_r. reflexivity.
  - rewrite IH. unfold Stats.modelStep.
    replace (0 <? tokens) with (negb (tokens <=? 0))
      by (destruct (Z.leb_spec tokens 0), (Z.ltb_spec 0 tokens); simpl; lia).
    destruct (tokens <=? 0); simpl.
    + reflexivity.
    + rewrite map_app, <- app_assoc. reflexivity.
Qed.

Lemma sumOver_map {A : Type} (f : A -> Z) (l : list A) :
  Stats.sumOver (fun x => x) (map f l) = Stats.sumOver f l.
Proof.
  induction l as [|x l IH]; [reflexivity|].
  simpl map. rewrite !sumOver_cons, IH. reflexivity.
Qed.

(** Against a positive total the percentages add up to the share of the
    summed counts in that total. *)
Lemma sum_percentages (total : Z) (modelStats : list Stats.ModelStats) :
  0 < total ->
  (Stats.sumQ (Stats.allPercentages total modelStats) ==
   inject_Z (Stats.sumOver Stats.count modelStats) / inject_Z total * 100)%Q.
Proof.
  intros Hpos. unfold Stats.allPercentages, Stats.percentageOf.
  assert (Hguard : (0 <? total) = true) by (apply Z.ltb_lt; exact Hpos).
  rewrite Hguard.
  induction modelStats as [|m ms IH]; simpl.
  - rewrite sumOver_nil. unfold Qdiv. ring.
  - rewrite IH, sumOver_cons, inject_Z_plus. unfold Qdiv. ring.
Qed.

Lemma percentage_of_nothing (total count : Z) :
  total <= 0 -> Stats.percentageOf total count = 0%Q.
Proof.
  intros H. unfold Stats.percentageOf.
  destruct (Z.ltb_spec 0 total); [lia|reflexivity].
Qed.




(** ** The buckets and the arg-max loop of the distributions *)

Lemma addAt_length (i : nat) (n : Z) (l : list Z) :
  List.length (Stats.addAt i n l) = List.length l.
Proof.
  revert i. induction l as [|c l IH]; intros i; simpl; [reflexivity|].
  destruct i; simpl; [reflexivity|]. rewrite IH. reflexivity.
Qed.

Lemma addAt_nth (i j : nat) (n : Z) (l : list Z) :
  (j < List.length l)%nat ->
  nth j (Stats.addAt i n l) 0 = nth j l 0 + (if Nat.eqb j i then n else 0).
Proof.
  revert i j. induction l as [|c l IH]; intros i j Hj; simpl in Hj; [lia|].
  destruct i, j; simpl; try lia.
  apply IH. lia.
Qed.

(** What the arg-max loop returns, started at index [i0] with the best
    pair [best]: either [best] itself, no count exceeding it, or the
    first position at which the largest count, larger than [best]'s, is
    found. *)
Lemma mostActiveLoop_spec (counts : list Z) (i0 : Z) (best : Z * Z) :
  let r := Stats.mostActiveLoop counts i0 best in
  snd best <= snd r /\
  (forall j, (j < List.length counts)%nat -> nth j counts 0 <= snd r) /\
  ((r = best /\ forall j, (j < List.length counts)%nat -> nth j counts 0 <= snd best) \/
   (exists k, (k < List.length counts)%nat /\ fst r = i0 + Z.of_nat k /\
              nth k counts 0 = snd r /\ snd best < snd r /\
              forall j, (j < k)%nat -> nth j counts 0 < snd r)).
Proof.
  revert i0 best. induction counts as [|c counts IH]; intros i0 best; simpl.
  - split; [lia|]. split; [intros j Hj; lia|]. left. split; [reflexivity|].
    intros j Hj; lia.
  - specialize (IH (i0 + 1) (if snd best <? c then (i0, c) else best)).
    cbv zeta in IH. destruct IH as (Hge & Hall & Hcase).
    set (r := Stats.mostActiveLoop counts (i0 + 1)
                (if snd best <? c then (i0, c) else best)) in *.
    destruct (Z.ltb_spec (snd best) c) as [Hlt|Hnlt]; cbn [snd fst] in *.
    + split; [lia|].
      split; [intros [|j] Hj; [lia|apply Hall; lia]|].
      right. destruct Hcase as [[Hr Hle]|(k & Hk & Hidx & Hval & Hbig & Hfirst)].
      * exists O. rewrite Hr. cbn [fst snd]. repeat split; try lia.
      * exists (S k). repeat split; try lia.
        intros [|j] Hj; [lia|]. apply Hfirst. lia.
    + split; [lia|].
      split; [intros [|j] Hj; [lia|apply Hall; lia]|].
      destruct Hcase as [[Hr Hle]|(k & Hk & Hidx & Hval & Hbig & Hfirst)].
      * left. split; [exact Hr|]. intros [|j] Hj; [lia|apply Hle; lia].
      * right. exists (S k). repeat split; try lia.
        intros [|j] Hj; [lia|]. apply Hfirst. lia.
Qed.

(** ** Streaks (C5) *)

Lemma daysFromCivil_range (y m d : Z) :
  0 <= y <= 9999 -> 1 <= m <= 12 -> 1 <= d <= 31 ->
  -1000000 <= Dates.daysFromCivil y m d <= 3000000.
Proof.
  intros Hy Hm Hd. unfold Dates.daysFromCivil.
  destruct (m <=? 2) eqn:E1; destruct (2 <? m) eqn:E2;
    Z.to_euclidean_division_equations; lia.
Qed.

Lemma digit_range c a : Dates.digit c = Some a -> 0 <= a <= 9.
Proof.
  unfold Dates.digit.
  destruct (_ && _) eqn:E; [|discriminate].
  intros H. inversion H; subst. apply Bool.andb_true_iff in E. lia.
Qed.

Lemma dateKeyFields_range s y m d :
  Dates.dateKeyFields s = Some (y, m, d) -> 0 <= y <= 9999.
Proof.
  unfold Dates.dateKeyFields.
  destruct (list_ascii_of_string s)
    as [|c1 [|c2 [|c3 [|c4 [|c5 [|c6 [|c7 [|c8 [|c9 [|c10 [|c11 l]]]]]]]]]]];
    try discriminate.
  destruct (Dates.digit c1) as [a1|] eqn:D1; [|discriminate].
  destruct (Dates.digit c2) as [a2|] eqn:D2; [|discriminate].
  destruct (Dates.digit c3) as [a3|] eqn:D3; [|discriminate].
  destruct (Dates.digit c4) as [a4|] eqn:D4; [|discriminate].
  destruct (Dates.digit c6) as [a6|]; [|discriminate].
  destruct (Dates.digit c7) as [a7|]; [|discriminate].
  destruct (Dates.digit c9) as [a9|]; [|discriminate].
  destruct (Dates.digit c10) as [a10|]; [|discriminate].
  destruct (_ && _); [|discriminate].
  intros H.
  assert (Hy : y = 1000 * a1 + 100 * a2 + 10 * a3 + a4) by congruence.
  apply digit_range in D1, D2, D3, D4. lia.
Qed.

Lemma daysInMonth_le (y m : Z) : Dates.daysInMonth y m <= 31.
Proof.
  unfold Dates.daysInMonth.
  destruct (m =? 2); [destruct (Dates.isLeapYear y); lia|].
  destruct (_ || _); lia.
Qed.

Lemma dateKeyDay_range (s : string) (day : Z) :
  Dates.dateKeyDay s = Some day -> -1000000 <= day <= 3000000.
Proof.
  unfold Dates.dateKeyDay.
  destruct (Dates.dateKeyFields s) as [[[y m] d]|] eqn:Hf; [|discriminate].
  destruct (_ && _) eqn:Hv; [|discriminate].
  intros [= <-].
  apply dateKeyFields_range in Hf.
  rewrite !Bool.andb_true_iff, !Z.leb_le in Hv.
  pose proof (daysInMonth_le y m).
  apply daysFromCivil_range; lia.
Qed.

Lemma ofString_dateKey (env : Env) (s : string) (day : Z) :
  Dates.dateKeyDay s = Some day ->
  Clock.ofString env s = Some (day * Dates.msPerDay).
Proof.
  intros Hd. unfold Clock.ofString, Dates.parseDateOnly. rewrite Hd.
  unfold Clock.ofNumber.
  apply dateKeyDay_range in Hd.
  destruct (Z.leb_spec (Z.abs (day * Dates.msPerDay)) 8640000000000000) as [_|Hbig];
    [reflexivity|].
  unfold Dates.msPerDay in Hbig. lia.
Qed.

Lemma round_days (p c : Z) :
  JS.Math_round (inject_Z (c * Dates.msPerDay - p * Dates.msPerDay) /
                 inject_Z Dates.msPerDay)%Q = c - p.
Proof.
  rewrite <- (Math_round_integer (c - p)).
  apply Math_round_proper.
  replace (c * Dates.msPerDay - p * Dates.msPerDay) with ((c - p) * Dates.msPerDay) by ring.
  rewrite inject_Z_mult. field. discriminate.
Qed.

Lemma diffDays_consecutive (env : Env) (prev curr : string) :
  Described.isDateKey prev = true -> Described.isDateKey curr = true ->
  Stats.isOne (Stats.diffDays env prev curr) = Described.consecutiveDays prev curr.
Proof.
  unfold Described.isDateKey, Described.consecutiveDays, Stats.diffDays.
  destruct (Dates.dateKeyDay prev) as [p|] eqn:Hp; [|discriminate].
  destruct (Dates.dateKeyDay curr) as [c|] eqn:Hc; [|discriminate].
  intros _ _.
  rewrite (ofString_dateKey env prev p Hp), (ofString_dateKey env curr c Hc).
  rewrite round_days. reflexivity.
Qed.

Lemma insertSorted_perm (x : string) (l : list string) :
  Permutation (JS.insertSorted x l) (x :: l).
Proof.
  induction l as [|y l IH]; simpl; [reflexivity|].
  destruct (String.leb x y); [reflexivity|].
  rewrite IH. apply perm_swap.
Qed.

Lemma sortStrings_perm (l : list string) : Permutation (JS.sortStrings l) l.
Proof.
  induction l as [|x l IH]; simpl; [reflexivity|].
  rewrite insertSorted_perm, IH. reflexivity.
Qed.

Lemma insertSorted_sorted (x : string) (l : list string) :
  Sorted Described.ascending l -> Sorted Described.ascending (JS.insertSorted x l).
Proof.
  induction 1 as [|y l Hs IH Hhd]; simpl.
  - repeat constructor.
  - destruct (String.leb x y) eqn:E.
    + constructor; [constructor; assumption|]. constructor. exact E.
    + constructor; [exact IH|].
      destruct l as [|z l]; simpl.
      * constructor. destruct (String.leb_total x y) as [H|H]; [congruence|exact H].
      * destruct (String.leb x z).
        -- constructor. destruct (String.leb_total x y) as [H|H]; [congruence|exact H].
        -- inversion Hhd; subst. constructor. assumption.
Qed.

Lemma sortStrings_sorted (l : list string) : Sorted Described.ascending (JS.sortStrings l).
Proof.
  induction l as [|x l IH]; simpl; [constructor|].
  apply insertSorted_sorted. exact IH.
Qed.

(** The index-based loop and the walk on the dates agree. *)
Lemma streakLoop_walk (env : Env) (all : list string) :
  forall (rest : list string) (prev : string) (i : nat) (r : Stats.Run)
         (current longest : list string),
    forallb Described.isDateKey (prev :: rest) = true ->
    (exists before, all = before ++ current ++ rest /\
                    List.length before = Stats.tempStreakStart r /\
                    i = (List.length before + List.length current)%nat) ->
    Stats.tempStreak r = Z.of_nat (List.length current) ->
    Described.delimits all (Stats.maxStreakStart r) (Stats.maxStreakEnd r) longest ->
    Stats.r_maxStreak r = Z.of_nat (List.length longest) ->
    let r' := Stats.streakLoop env prev rest i r in
    let run := Described.walkRuns prev rest current longest in
    Described.delimits all (Stats.maxStreakStart r') (Stats.maxStreakEnd r') run /\
    Stats.r_maxStreak r' = Z.of_nat (List.length run).
Proof.
  induction rest as [|curr rest IH];
    intros prev i r current longest Hkeys Hcur Htemp Hmax Hlen; simpl.
  - split; assumption.
  - simpl in Hkeys. apply Bool.andb_true_iff in Hkeys. destruct Hkeys as [Hp Hrest].
    assert (Hc : Described.isDateKey curr = true).
    { simpl in Hrest. apply Bool.andb_true_iff in Hrest. tauto. }
    unfold Stats.streakStep. rewrite (diffDays_consecutive env prev curr Hp Hc).
    destruct Hcur as (before & Hall & Hbefore & Hi).
    destruct (Described.consecutiveDays prev curr).
    + assert (Hall' : all = before ++ (current ++ [curr]) ++ rest).
      { rewrite Hall, <- !app_assoc. reflexivity. }
      assert (Hcmp : (Stats.r_maxStreak r <? Stats.tempStreak r + 1) =
                     (List.length longest <? List.length (current ++ [curr]))%nat).
      { rewrite Hlen, Htemp, length_app. simpl.
        destruct (Z.ltb_spec (Z.of_nat (List.length longest))
                    (Z.of_nat (List.length current) + 1)),
                 (Nat.ltb_spec (List.length longest) (List.length current + 1));
          try reflexivity; lia. }
      rewrite Hcmp.
      destruct (List.length longest <? List.length (current ++ [curr]))%nat.
      * apply IH; cbn [Stats.tempStreak Stats.tempStreakStart Stats.maxStreakStart
                       Stats.maxStreakEnd Stats.r_maxStreak].
        -- exact Hrest.
        -- exists before. rewrite length_app. simpl. repeat split; [exact Hall'|exact Hbefore|lia].
        -- rewrite Htemp, length_app. simpl. lia.
        -- exists before, rest. rewrite length_app. simpl.
           repeat split; [exact Hall'|exact Hbefore|lia].
        -- rewrite Htemp, length_app. simpl. lia.
      * apply IH; cbn [Stats.tempStreak Stats.tempStreakStart Stats.maxStreakStart
                       Stats.maxStreakEnd Stats.r_maxStreak].
        -- exact Hrest.
        -- exists before. rewrite length_app. simpl. repeat split; [exact Hall'|exact Hbefore|lia].
        -- rewrite Htemp, length_app. simpl. lia.
        -- exact Hmax.
        -- exact Hlen.
    + apply IH; cbn [Stats.tempStreak Stats.tempStreakStart Stats.maxStreakStart
                     Stats.maxStreakEnd Stats.r_maxStreak].
      * exact Hrest.
      * exists (before ++ current). rewrite length_app. simpl.
        repeat split; [rewrite Hall, <- app_assoc; reflexivity|lia|lia].
      * reflexivity.
      * exact Hmax.
      * exact Hlen.
Qed.

Lemma delimits_slice (all : list string) (from to : nat) (run : list string) :
  Described.delimits all from to run -> Stats.slice all from to = run.
Proof.
  intros (before & after & Hall & Hfrom & Hto).
  unfold Stats.slice. subst all from.
  replace (S to - List.length before)%nat with (List.length run) by lia.
  rewrite skipn_app, skipn_all, Nat.sub_diag. simpl.
  rewrite firstn_app, firstn_all, Nat.sub_diag. simpl. apply app_nil_r.
Qed.

Lemma calculateStreaks_walk (env : Env) (dailyActivity : JS.Map Z) (year : Z) :
  forallb Described.isDateKey (Stats.activeDatesOf dailyActivity year) = true ->
  Stats.s_maxStreak (Stats.calculateStreaks env dailyActivity year) =
    Z.of_nat (List.length (Described.longestRun (Stats.activeDatesOf dailyActivity year))) /\
  Stats.s_maxStreakDays (Stats.calculateStreaks env dailyActivity year) =
    fold_left JS.Set_add
      (Described.longestRun (Stats.activeDatesOf dailyActivity year)) [].
Proof.
  intros Hkeys. unfold Stats.calculateStreaks.
  destruct (Stats.activeDatesOf dailyActivity year) as [|first rest] eqn:Hdates.
  - split; reflexivity.
  - cbn [Stats.s_maxStreak Stats.s_maxStreakDays Described.longestRun].
    destruct (streakLoop_walk env (first :: rest) rest first 1 Stats.firstRun
                [first] [first] Hkeys) as [Hd Hl].
    + exists []. repeat split.
    + reflexivity.
    + exists [], rest. repeat split.
    + reflexivity.
    + split; [exact Hl|]. rewrite (delimits_slice _ _ _ _ Hd). reflexivity.
Qed.

(** The loop keeps the first longest run of what it has walked. *)
Lemma tracked_step (all : list string) (i : nat) (r : Stats.Run) (d : option Z) :
  (1 <= i)%nat ->
  Stats.isOne d = Described.gapAt all (i - 1) ->
  Described.tracked all i r -> Described.tracked all (S i) (Stats.streakStep d i r).
Proof.
  intros Hi Hd (Hts & Htemp & Hrun & Hmaximal & Hle & Hme & Hmrun & Hmax & Hbest).
  unfold Stats.streakStep. rewrite Hd.
  destruct (Described.gapAt all (i - 1)) eqn:Hgap.
  - assert (Hrun' : forall k, (Stats.tempStreakStart r <= k)%nat -> (S k < S i)%nat ->
                              Described.gapAt all k = true).
    { intros k Hk1 Hk2. destruct (Nat.eq_dec k (i - 1)) as [->|Hne]; [exact Hgap|].
      apply Hrun; lia. }
    assert (Hfrom : forall a, (a < i)%nat ->
              (forall k, (a <= k)%nat -> (k < i)%nat -> Described.gapAt all k = true) ->
              (Stats.tempStreakStart r <= a)%nat).
    { intros a Ha Hall.
      destruct (Nat.le_gt_cases (Stats.tempStreakStart r) a) as [|Hlt]; [assumption|].
      destruct Hmaximal as [H0|Hfalse]; [lia|].
      rewrite Hall in Hfalse by lia. discriminate. }
    assert (Hends : forall a, (a <= i)%nat ->
              (forall k, (a <= k)%nat -> (k < i)%nat -> Described.gapAt all k = true) ->
              (Stats.tempStreakStart r <= a)%nat).
    { intros a Ha Hall. destruct (Nat.eq_dec a i) as [->|Hai]; [lia|].
      apply Hfrom; [lia|exact Hall]. }
    destruct (Z.ltb_spec (Stats.r_maxStreak r) (Stats.tempStreak r + 1)) as [Hnew|Hold];
      unfold Described.tracked;
      cbn [Stats.tempStreak Stats.tempStreakStart Stats.maxStreakStart
           Stats.maxStreakEnd Stats.r_maxStreak].
    + assert (Hbest' : forall a b, (a <= b)%nat -> (b < S i)%nat ->
                (forall k, (a <= k)%nat -> (k < b)%nat -> Described.gapAt all k = true) ->
                (b - a <= i - Stats.tempStreakStart r)%nat /\
                ((b - a = i - Stats.tempStreakStart r)%nat ->
                 (Stats.tempStreakStart r <= a)%nat)).
      { intros a b Hab Hb Hall. destruct (Nat.eq_dec b i) as [->|Hne].
        - pose proof (Hends a Hab Hall). lia.
        - destruct (Hbest a b) as [Hb1 Hb2]; try lia; try assumption. }
      refine (conj _ (conj _ (conj _ (conj _ (conj _ (conj _ (conj _ (conj _ _)))))))); try lia; try assumption.
      intros k Hk1 Hk2. apply Hrun'; lia.
    + assert (Hbest' : forall a b, (a <= b)%nat -> (b < S i)%nat ->
                (forall k, (a <= k)%nat -> (k < b)%nat -> Described.gapAt all k = true) ->
                (b - a <= Stats.maxStreakEnd r - Stats.maxStreakStart r)%nat /\
                ((b - a = Stats.maxStreakEnd r - Stats.maxStreakStart r)%nat ->
                 (Stats.maxStreakStart r <= a)%nat)).
      { intros a b Hab Hb Hall. destruct (Nat.eq_dec b i) as [->|Hne].
        - pose proof (Hends a Hab Hall). lia.
        - apply Hbest; try lia; assumption. }
      refine (conj _ (conj _ (conj _ (conj _ (conj _ (conj _ (conj _ (conj _ _)))))))); try lia; try assumption.
  - assert (Hbest' : forall a b, (a <= b)%nat -> (b < S i)%nat ->
              (forall k, (a <= k)%nat -> (k < b)%nat -> Described.gapAt all k = true) ->
              (b - a <= Stats.maxStreakEnd r - Stats.maxStreakStart r)%nat /\
              ((b - a = Stats.maxStreakEnd r - Stats.maxStreakStart r)%nat ->
               (Stats.maxStreakStart r <= a)%nat)).
    { intros a b Hab Hb Hall. destruct (Nat.eq_dec b i) as [->|Hne].
      - destruct (Nat.eq_dec a i) as [->|Hai]; [lia|].
        rewrite Hall in Hgap by lia. discriminate.
      - apply Hbest; try lia; assumption. }
    unfold Described.tracked;
      cbn [Stats.tempStreak Stats.tempStreakStart Stats.maxStreakStart
           Stats.maxStreakEnd Stats.r_maxStreak].
    refine (conj _ (conj _ (conj _ (conj _ (conj _ (conj _ (conj _ (conj _ _)))))))); try lia; try assumption.
    right. exact Hgap.
Qed.

Lemma gapAt_middle (before : list string) (prev curr : string) (rest : list string) :
  Described.gapAt (before ++ prev :: curr :: rest) (List.length before) =
  Described.consecutiveDays prev curr.
Proof.
  unfold Described.gapAt.
  rewrite (nth_middle before (curr :: rest) prev EmptyString).
  replace (before ++ prev :: curr :: rest) with ((before ++ [prev]) ++ curr :: rest)
    by (rewrite <- app_assoc; reflexivity).
  replace (S (List.length before)) with (List.length (before ++ [prev]))
    by (rewrite length_app; simpl; lia).
  rewrite (nth_middle (before ++ [prev]) rest curr EmptyString). reflexivity.
Qed.

Lemma streakLoop_tracked (env : Env) (all : list string) :
  forall (rest before : list string) (prev : string) (r : Stats.Run),
    all = before ++ prev :: rest ->
    forallb Described.isDateKey (prev :: rest) = true ->
    Described.tracked all (S (List.length before)) r ->
    Described.tracked all (List.length all)
            (Stats.streakLoop env prev rest (S (List.length before)) r).
Proof.
  induction rest as [|curr rest IH]; intros before prev r Hall Hkeys Hinv; simpl.
  - assert (Hlen : List.length all = S (List.length before))
      by (rewrite Hall, length_app; simpl; lia).
    rewrite Hlen. exact Hinv.
  - simpl in Hkeys. apply Bool.andb_true_iff in Hkeys. destruct Hkeys as [Hp Hrest].
    assert (Hc : Described.isDateKey curr = true).
    { simpl in Hrest. apply Bool.andb_true_iff in Hrest. tauto. }
    replace (S (S (List.length before))) with (S (List.length (before ++ [prev])))
      by (rewrite length_app; simpl; lia).
    apply IH.
    + rewrite Hall, <- app_assoc. reflexivity.
    + exact Hrest.
    + replace (S (List.length (before ++ [prev]))) with (S (S (List.length before)))
        by (rewrite length_app; simpl; lia).
      apply tracked_step; [lia| |exact Hinv].
      rewrite (diffDays_consecutive env prev curr Hp Hc).
      replace (S (List.length before) - 1)%nat with (List.length before) by lia.
      rewrite Hall. symmetry. apply gapAt_middle.
Qed.

Lemma tracked_first (all : list string) : Described.tracked all 1 Stats.firstRun.
Proof.
  unfold Described.tracked, Stats.firstRun; simpl.
  refine (conj _ (conj _ (conj _ (conj _ (conj _ (conj _ (conj _ (conj _ _))))))));
    try lia; try reflexivity.
Qed.

Lemma calculateStreaks_longest (env : Env) (dailyActivity : JS.Map Z) (year : Z) :
  forallb Described.isDateKey (Stats.activeDatesOf dailyActivity year) = true ->
  Stats.activeDatesOf dailyActivity year <> [] ->
  exists a b,
    Described.firstLongestAt (Stats.activeDatesOf dailyActivity year) a b /\
    Stats.s_maxStreak (Stats.calculateStreaks env dailyActivity year) =
      Z.of_nat (S b - a) /\
    Described.longestRun (Stats.activeDatesOf dailyActivity year) =
      Stats.slice (Stats.activeDatesOf dailyActivity year) a b.
Proof.
  intros Hkeys Hne. unfold Stats.calculateStreaks.
  destruct (Stats.activeDatesOf dailyActivity year) as [|first rest] eqn:Hdates;
    [congruence|].
  cbn [Stats.s_maxStreak Stats.s_maxStreakDays Described.longestRun].
  pose proof (streakLoop_tracked env (first :: rest) rest [] first Stats.firstRun
                eq_refl Hkeys (tracked_first (first :: rest))) as Hinv.
  simpl List.length in Hinv.
  set (r := Stats.streakLoop env first rest 1 Stats.firstRun) in *.
  destruct Hinv as (_ & _ & _ & _ & Hle & Hme & Hmrun & Hmax & Hbest).
  exists (Stats.maxStreakStart r), (Stats.maxStreakEnd r).
  split; [|split; [exact Hmax|]].
  2: { destruct (streakLoop_walk env (first :: rest) rest first 1 Stats.firstRun
                   [first] [first] Hkeys) as [Hd _].
       - exists []. repeat split.
       - reflexivity.
       - exists [], rest. repeat split.
       - reflexivity.
       - fold r in Hd. symmetry. apply delimits_slice. exact Hd. }
  split.
  - split; [exact Hle|]. split; [simpl; lia|exact Hmrun].
  - intros a' b' (Hab & Hb & Hrun). apply Hbest; assumption.
Qed.

(** C5. The max-streak computation sorts the active dates of the year
    ascending and, the dates being calendar date keys, walks consecutive
    pairs: a gap of exactly one calendar day extends the current run,
    any other gap restarts it at length 1, and a run replaces the
    recorded longest one only when strictly longer; [maxStreak] is the
    length of the run so tracked and [maxStreakDays] its dates. That run
    is a longest run of consecutive days among the sorted dates, and the
    first of its length. Activity on 2025-01-01..03 and
    2025-01-10..13 gives a max streak of 4 over 2025-01-10..13; two runs
    of two days give the first one. *)
Theorem max_streak_walk (env : Env) (dailyActivity : JS.Map Z) (year : Z) :
  let dates := Stats.activeDatesOf dailyActivity year in
  let streaks := Stats.calculateStreaks env dailyActivity year in
  Sorted Described.ascending dates /\
  Permutation dates
    (filter (fun date => JS.startsWith date (JS.String_of_Z year))
            (JS.Map_keys dailyActivity)) /\
  (forallb Described.isDateKey dates = true ->
   Stats.s_maxStreak streaks = Z.of_nat (List.length (Described.longestRun dates)) /\
   Stats.s_maxStreakDays streaks =
     fold_left JS.Set_add (Described.longestRun dates) []) /\
  (forallb Described.isDateKey dates = true -> dates <> [] ->
   exists a b,
     Described.firstLongestAt dates a b /\
     Stats.s_maxStreak streaks = Z.of_nat (S b - a) /\
     Described.longestRun dates = Stats.slice dates a b) /\
  (Stats.s_maxStreak (Stats.calculateStreaks env Host.january 2025) = 4 /\
   Stats.s_maxStreakDays (Stats.calculateStreaks env Host.january 2025) =
     ["2025-01-10"; "2025-01-11"; "2025-01-12"; "2025-01-13"]%string) /\
  (Stats.s_maxStreak (Stats.calculateStreaks env Host.tied 2025) = 2 /\
   Stats.s_maxStreakDays (Stats.calculateStreaks env Host.tied 2025) =
     ["2025-01-01"; "2025-01-02"]%string).
Proof.
  intros dates streaks.
  split; [apply sortStrings_sorted|].
  split; [apply sortStrings_perm|].
  split; [apply calculateStreaks_walk|].
  split; [apply calculateStreaks_longest|].
  split.
  - destruct (calculateStreaks_walk env Host.january 2025) as [H1 H2];
      [vm_compute; reflexivity|].
    rewrite H1, H2. split; vm_compute; reflexivity.
  - destruct (calculateStreaks_walk env Host.tied 2025) as [H1 H2];
      [vm_compute; reflexivity|].
    rewrite H1, H2. split; vm_compute; reflexivity.
Qed.

Lemma max_streak_walk_witness :
  Stats.activeDatesOf Host.january 2025 =
    ["2025-01-01"; "2025-01-02"; "2025-01-03"; "2025-01-10"; "2025-01-11";
     "2025-01-12"; "2025-01-13"]%string /\
  Stats.s_maxStreak (Stats.calculateStreaks Host.utc Host.january 2025) =
    Z.of_nat (List.length
                (Described.longestRun (Stats.activeDatesOf Host.january 2025))) /\
  Described.longestRun (Stats.activeDatesOf Host.january 2025) =
    ["2025-01-10"; "2025-01-11"; "2025-01-12"; "2025-01-13"]%string.
Proof.
  split; [vm_compute; reflexivity|].
  split; [|vm_compute; reflexivity].
  pose proof (max_streak_walk Host.utc Host.january 2025) as H.
  cbv zeta in H. destruct H as (_ & _ & H & _).
  apply H. vm_compute. reflexivity.
Defined.

(** ** Year filtering (C3) *)

Lemma prefix_append (p s : string) : String.prefix p (p ++ s) = true.
Proof.
  induction p as [|c p IH]; simpl.
  - destruct s; reflexivity.
  - destruct (ascii_dec c c) as [_|Hne]; [exact IH|congruence].
Qed.

Lemma formatDateKey_year (env : Env) (t : Z) :
  JS.startsWith (Clock.formatDateKey env t) (JS.String_of_Z (Clock.getFullYear env t)) = true.
Proof.
  unfold JS.startsWith, Clock.formatDateKey. apply prefix_append.
Qed.

Lemma Map_set_keys {V : Type} (m : JS.Map V) (k k' : string) (v : V) :
  In k (JS.Map_keys (JS.Map_set m k' v)) -> k = k' \/ In k (JS.Map_keys m).
Proof.
  unfold JS.Map_keys. induction m as [|[k0 v0] m IH]; simpl.
  - intros [H|[]]; left; congruence.
  - destruct (String.eqb k' k0) eqn:E; simpl.
    + intros [H|H]; right; [left; exact H|right; exact H].
    + intros [H|H]; [right; left; exact H|].
      destruct (IH H) as [Hk|Hk]; [left; exact Hk|right; right; exact Hk].
Qed.

Section Live.
Variable env : Env.
Variable year : Z.

Lemma reduceUsage_daily hasCost m usage a :
  Collector.acc_dailyActivity (Collector.reduceUsage env hasCost m usage a) =
  Collector.acc_dailyActivity a.
Proof.
  unfold Collector.reduceUsage.
  destruct (Collector.presentModel m); [|reflexivity].
  cbn [Collector.acc_pricingCache Collector.acc_totalCostUSD].
  destruct (negb hasCost && _);
    [destruct (Collector.lookupPricing _ _ _)|]; reflexivity.
Qed.

Lemma processEntry_datedIn a entry :
  Described.datedIn env year a -> Described.datedIn env year (Collector.processEntry env year a entry).
Proof.
  intros Ha.
  assert (Hreduce : forall b, Collector.acc_dailyActivity b = Collector.acc_dailyActivity a ->
            Described.datedIn env year (Collector.reduceEntry env year entry b)).
  { intros b Hb. unfold Collector.reduceEntry.
    destruct (Collector.entryDate env (Raw.timestamp entry)) as [t|];
      [|unfold Described.datedIn; rewrite Hb; exact Ha].
    destruct (Z.eqb_spec (Clock.getFullYear env t) year) as [Hy|Hy];
      [|unfold Described.datedIn; rewrite Hb; exact Ha].
    assert (Hact : Described.datedIn env year (Collector.reduceActivity env entry t b)).
    { unfold Described.datedIn, Collector.reduceActivity; cbn [Collector.acc_dailyActivity].
      intros k Hk. unfold JS.Map_add in Hk. apply Map_set_keys in Hk.
      destruct Hk as [->|Hk]; [exists t; split; [reflexivity|exact Hy]|].
      rewrite Hb in Hk. exact (Ha k Hk). }
    destruct (Collector.entryUsage entry); [|exact Hact].
    unfold Described.datedIn. rewrite reduceUsage_daily. exact Hact. }
  unfold Collector.processEntry.
  destruct (Collector.createUniqueHash entry) as [h|].
  - destruct (JS.Set_has (Collector.acc_processedHashes a) h); [exact Ha|].
    apply Hreduce. reflexivity.
  - apply Hreduce. reflexivity.
Qed.

Lemma scan_datedIn lines a :
  Described.datedIn env year a ->
  Described.datedIn env year (fold_left (Collector.processLine env year) lines a).
Proof.
  revert a. induction lines as [|line lines IH]; intros a Ha; simpl; [exact Ha|].
  apply IH. rewrite processLine_record.
  destruct (Described.recordOf env line); [|exact Ha].
  apply processEntry_datedIn. exact Ha.
Qed.

Lemma collect_datedIn :
  forall k, In k (JS.Map_keys (Collector.dailyActivity
                                 (Collector.collectClaudeUsageSummary env year))) ->
  exists t, k = Clock.formatDateKey env t /\ Clock.getFullYear env t = year.
Proof.
  unfold Collector.collectClaudeUsageSummary, Collector.scanRoots.
  rewrite scanRoots_lines. unfold Collector.summarize; cbn [Collector.dailyActivity].
  apply scan_datedIn. intros k [].
Qed.

End Live.

Lemma activeDates_in_year (dailyActivity : JS.Map Z) (year : Z) (date : string) :
  In date (Stats.activeDatesOf dailyActivity year) ->
  JS.startsWith date (JS.String_of_Z year) = true /\
  In date (JS.Map_keys dailyActivity).
Proof.
  unfold Stats.activeDatesOf. intros Hin.
  apply (Permutation_in _ (sortStrings_perm _)) in Hin.
  apply filter_In in Hin. tauto.
Qed.

(** C3, where the code departs from the claim. The merger decides the
    year of a date key by [new Date(key).getFullYear()]: the key is read
    as midnight UTC and its year taken in local time. On a host five
    hours west of UTC, asked for 2025, the cache entry of 2026-01-01
    passes the test: it enters the daily-activity map, the message
    total, the weekday distribution (under the weekday of the day
    before), the most active day and the current streak. On a UTC host
    the same input keeps 2025-12-31 alone. The two other filters are
    exact on every host: the reducer only records date keys of times
    whose local year is the requested one, and the max-streak walk only
    sees keys that start with the requested year. *)
Theorem year_filter_west_of_utc :
  let west := Stats.calculateStatsFrom (Host.bare (-300) Host.newYear) 2025
                Host.turnOfYear [] Host.noUsage in
  let utc := Stats.calculateStatsFrom (Host.bare 0 Host.newYear) 2025
               Host.turnOfYear [] Host.noUsage in
  (Stats.dailyActivity west = [("2025-12-31", 3); ("2026-01-01", 5)]%string /\
   Stats.totalMessages west = 8 /\
   Stats.w_counts (Stats.weekdayActivity west) = [0; 0; 3; 5; 0; 0; 0] /\
   Stats.mostActiveDay west = Some ("2026-01-01"%string, 5) /\
   Stats.currentStreak west = 2 /\
   Stats.maxStreak west = 1 /\
   Stats.maxStreakDays west = ["2025-12-31"%string]) /\
  (Stats.dailyActivity utc = [("2025-12-31"%string, 3)] /\
   Stats.totalMessages utc = 3 /\
   Stats.w_counts (Stats.weekdayActivity utc) = [0; 0; 0; 3; 0; 0; 0] /\
   Stats.mostActiveDay utc = Some ("2025-12-31"%string, 3) /\
   Stats.currentStreak utc = 1 /\
   Stats.maxStreak utc = 1) /\
  (forall (env : Env) (year : Z) (key : string),
     In key (JS.Map_keys (Collector.dailyActivity
                            (Collector.collectClaudeUsageSummary env year))) ->
     JS.startsWith key (JS.String_of_Z year) = true /\
     exists t, key = Clock.formatDateKey env t /\ Clock.getFullYear env t = year) /\
  (forall (dailyActivity : JS.Map Z) (year : Z) (date : string),
     In date (Stats.activeDatesOf dailyActivity year) ->
     JS.startsWith date (JS.String_of_Z year) = true).
Proof.
  cbv zeta. split; [|split; [|split]].
  - repeat split; vm_compute; reflexivity.
  - repeat split; vm_compute; reflexivity.
  - intros env year key Hin.
    destruct (collect_datedIn env year key Hin) as (t & -> & Hy).
    split; [|exists t; split; [reflexivity|exact Hy]].
    rewrite <- Hy. apply formatDateKey_year.
  - intros dailyActivity year date Hin.
    apply (activeDates_in_year dailyActivity year date Hin).
Qed.

(** * Further properties of the code *)

(** ** The source locator and the cache reader *)

Lemma Set_has_In (s : JS.StrSet) (x : string) :
  JS.Set_has s x = true <-> In x s.
Proof.
  unfold JS.Set_has. rewrite existsb_exists. split.
  - intros (y & Hin & Heq). apply String.eqb_eq in Heq. subst. exact Hin.
  - intros Hin. exists x. split; [exact Hin|apply String.eqb_refl].
Qed.

Lemma Set_add_NoDup (s : JS.StrSet) (x : string) :
  NoDup s -> NoDup (JS.Set_add s x).
Proof.
  intros Hs. unfold JS.Set_add.
  destruct (JS.Set_has s x) eqn:E; [exact Hs|].
  apply NoDup_app; [exact Hs|repeat constructor; intros []|].
  intros y Hy [Hx|[]]. subst y.
  apply Set_has_In in Hy. congruence.
Qed.

Lemma Set_add_In (s : JS.StrSet) (x y : string) :
  In y (JS.Set_add s x) <-> y = x \/ In y s.
Proof.
  unfold JS.Set_add. destruct (JS.Set_has s x) eqn:E.
  - apply Set_has_In in E. split; [intros H; right; exact H|].
    intros [->|H]; assumption.
  - rewrite in_app_iff. simpl. split.
    + intros [H|[H|[]]]; [right; exact H|left; symmetry; exact H].
    + intros [->|H]; [right; left; reflexivity|left; exact H].
Qed.

(** X1. The data directory that [resolveClaudeDataPath] returns always holds
    the marker file; a non-empty override that holds it wins, then the
    XDG directory, then the legacy one; the result is empty exactly when
    none of the three holds it. *)
Theorem resolveClaudeDataPath_priority (env : Env) :
  let marker := fun dir => existsSync env (Collector.statsCacheFile env dir) in
  let override :=
    match option_map JS.trim (env_CLAUDE_CONFIG_DIR env) with
    | Some p => if JS.truthy p && marker p then Some p else None
    | None => None
    end in
  (forall dir, Collector.resolveClaudeDataPath env = Some dir -> marker dir = true) /\
  (forall dir, override = Some dir -> Collector.resolveClaudeDataPath env = Some dir) /\
  (override = None -> marker (Collector.CLAUDE_CONFIG_PATH env) = true ->
   Collector.resolveClaudeDataPath env = Some (Collector.CLAUDE_CONFIG_PATH env)) /\
  (override = None -> marker (Collector.CLAUDE_CONFIG_PATH env) = false ->
   marker (Collector.CLAUDE_DATA_PATH env) = true ->
   Collector.resolveClaudeDataPath env = Some (Collector.CLAUDE_DATA_PATH env)) /\
  (Collector.resolveClaudeDataPath env = None <->
   override = None /\ marker (Collector.CLAUDE_CONFIG_PATH env) = false /\
   marker (Collector.CLAUDE_DATA_PATH env) = false).
Proof.
  intros marker override. subst marker override. cbv beta.
  unfold Collector.resolveClaudeDataPath. simpl find.
  destruct (option_map JS.trim (env_CLAUDE_CONFIG_DIR env)) as [p|].
  - destruct (JS.truthy p && existsSync env (Collector.statsCacheFile env p)) eqn:Ho.
    + split; [|split; [|split; [|split]]].
      * intros dir [= <-]. apply Bool.andb_true_iff in Ho. tauto.
      * intros dir H. exact H.
      * discriminate.
      * discriminate.
      * split; [discriminate|]. intros [H _]. discriminate H.
    + destruct (existsSync env (Collector.statsCacheFile env (Collector.CLAUDE_CONFIG_PATH env)))
        eqn:Hx;
      destruct (existsSync env (Collector.statsCacheFile env (Collector.CLAUDE_DATA_PATH env)))
        eqn:Hl;
      (split; [intros dir [= <-]; assumption || discriminate|]);
      (split; [discriminate|]);
      (split; [intros _ H; (reflexivity || discriminate H)|]);
      (split; [intros _ H1 H2; (reflexivity || discriminate H1 || discriminate H2)|]);
      (split; [try discriminate; intros _; repeat split
              |intros (_ & H1 & H2); (reflexivity || discriminate H1 || discriminate H2)]).
  - destruct (existsSync env (Collector.statsCacheFile env (Collector.CLAUDE_CONFIG_PATH env)))
      eqn:Hx;
    destruct (existsSync env (Collector.statsCacheFile env (Collector.CLAUDE_DATA_PATH env)))
      eqn:Hl;
    (split; [intros dir [= <-]; assumption || discriminate|]);
    (split; [discriminate|]);
    (split; [intros _ H; (reflexivity || discriminate H)|]);
    (split; [intros _ H1 H2; (reflexivity || discriminate H1 || discriminate H2)|]);
    (split; [try discriminate; intros _; repeat split
            |intros (_ & H1 & H2); (reflexivity || discriminate H1 || discriminate H2)]).
Qed.

(** X2. [checkClaudeDataExists], the test the command line makes first,
    answers "yes" exactly when [loadClaudeStatsCache] does not raise
    "Claude data not found"; a cache file that parses to something else
    than an object is an error of its own, never an empty cache. *)
Theorem data_exists_guards_load (env : Env) :
  (Collector.checkClaudeDataExists env = true <->
   Collector.loadClaudeStatsCache env <> Collector.Throw "Claude data not found"%string) /\
  (forall dir raw,
     Collector.resolveClaudeDataPath env = Some dir ->
     readFile env (Collector.statsCacheFile env dir) = Some raw ->
     JSON_parse_cache env raw = StatsCache.NotAnObject ->
     Collector.loadClaudeStatsCache env =
       Collector.Throw "Invalid stats-cache.json format"%string /\
     forall year, Stats.calculateStats env year =
       Collector.Throw "Invalid stats-cache.json format"%string) /\
  (forall statsCache,
     Collector.loadClaudeStatsCache env = Collector.Ok statsCache ->
     Collector.checkClaudeDataExists env = true /\
     exists dir raw,
       Collector.resolveClaudeDataPath env = Some dir /\
       readFile env (Collector.statsCacheFile env dir) = Some raw /\
       JSON_parse_cache env raw = StatsCache.Object statsCache).
Proof.
  unfold Collector.checkClaudeDataExists, Collector.loadClaudeStatsCache,
    Stats.calculateStats, Collector.loadClaudeStatsCache.
  split; [|split].
  - destruct (Collector.resolveClaudeDataPath env) as [dir|].
    + split; [|reflexivity]. intros _.
      destruct (readFile env _) as [raw|]; [|discriminate].
      destruct (JSON_parse_cache env raw); discriminate.
    + split; [discriminate|]. intros H. exfalso. apply H. reflexivity.
  - intros dir raw Hd Hr Hp. rewrite Hd, Hr, Hp. split; [reflexivity|intros year; reflexivity].
  - intros statsCache.
    destruct (Collector.resolveClaudeDataPath env) as [dir|]; [|discriminate].
    destruct (readFile env _) as [raw|] eqn:Hr; [|discriminate].
    destruct (JSON_parse_cache env raw) eqn:Hp; try discriminate.
    intros [= <-]. split; [reflexivity|].
    exists dir, raw. repeat split; assumption.
Qed.

Section Roots.
Variable env : Env.

(** What [addRoot] can add. *)
Let canonicalOf (base : string) : string :=
  Collector.resolveCanonicalPath env
    (path_join env (path_resolve env base) Collector.CLAUDE_PROJECTS_DIR).

Lemma addRoot_fold_NoDup (bases roots : list string) :
  NoDup roots -> NoDup (fold_left (Collector.addRoot env) bases roots).
Proof.
  revert roots. induction bases as [|base bases IH]; intros roots H; simpl; [exact H|].
  apply IH. unfold Collector.addRoot.
  destruct (Collector.pathIsDirectory env _); [|exact H].
  destruct (JS.Set_has roots _) eqn:E; [exact H|].
  apply NoDup_app; [exact H|repeat constructor; intros []|].
  intros y Hy [Hx|[]]. subst y. apply Set_has_In in Hy. congruence.
Qed.

Lemma addRoot_fold_origin (bases roots : list string) (r : string) :
  In r (fold_left (Collector.addRoot env) bases roots) ->
  In r roots \/
  exists base, In base bases /\ r = canonicalOf base /\
    Collector.pathIsDirectory env
      (path_join env (path_resolve env base) Collector.CLAUDE_PROJECTS_DIR) = true.
Proof.
  revert roots. induction bases as [|base bases IH]; intros roots H; simpl in H.
  - left. exact H.
  - destruct (IH _ H) as [Hin|(b & Hb & Hr & Hd)].
    + unfold Collector.addRoot in Hin.
      destruct (Collector.pathIsDirectory env _) eqn:Hd; [|left; exact Hin].
      destruct (JS.Set_has roots _); [left; exact Hin|].
      apply in_app_iff in Hin. destruct Hin as [Hin|[Hin|[]]]; [left; exact Hin|].
      right. exists base. split; [left; reflexivity|]. split; [symmetry; exact Hin|exact Hd].
    + right. exists b. split; [right; exact Hb|]. split; assumption.
Qed.

End Roots.

(** X3. The roots to scan never hold the same canonical path twice; each is
    the canonical form of a [projects] directory that exists; and once
    the override variable is set to something not blank, the roots come
    from its comma-separated entries alone: the default directories are
    not consulted, even when no entry of the override resolves. *)
Theorem project_roots_distinct (env : Env) :
  let projectsOf := fun base =>
    path_join env (path_resolve env base) Collector.CLAUDE_PROJECTS_DIR in
  NoDup (Collector.getClaudeProjectRoots env) /\
  (forall root, In root (Collector.getClaudeProjectRoots env) ->
     exists base,
       root = Collector.resolveCanonicalPath env (projectsOf base) /\
       Collector.pathIsDirectory env (projectsOf base) = true) /\
  (forall override root,
     env_CLAUDE_CONFIG_DIR env = Some override ->
     JS.allWhiteSpace override = false ->
     In root (Collector.getClaudeProjectRoots env) ->
     exists entry,
       In entry (map JS.trim (JS.split ","%char (JS.trim override))) /\
       root = Collector.resolveCanonicalPath env (projectsOf entry)).
Proof.
  intros projectsOf. unfold Collector.getClaudeProjectRoots.
  split; [|split].
  - destruct (JS.truthy _); apply addRoot_fold_NoDup; constructor.
  - intros root Hin.
    destruct (JS.truthy _);
      apply addRoot_fold_origin in Hin;
      destruct Hin as [[]|(base & _ & Hr & Hd)]; exists base; split; assumption.
  - intros override root Hset Hblank. rewrite Hset. simpl JS.nullish.
    rewrite trim_blank, Hblank. simpl negb. cbv iota.
    intros Hin. apply addRoot_fold_origin in Hin.
    destruct Hin as [[]|(base & Hb & Hr & _)].
    exists base. split; [|exact Hr].
    apply filter_In in Hb. tauto.
Qed.

(** ** The usage reducer *)

Lemma sumValues_add (m : JS.Map Z) (k : string) (n : Z) :
  Observed.sumValues (JS.Map_add m k n) = Observed.sumValues m + n.
Proof.
  unfold Observed.sumValues, JS.Map_add.
  induction m as [|[k' v'] m IH]; simpl.
  - rewrite sumOver_cons, sumOver_nil. simpl. lia.
  - destruct (String.eqb k k') eqn:E; simpl.
    + rewrite !sumOver_cons. simpl. lia.
    + rewrite !sumOver_cons, IH. simpl. lia.
Qed.

Lemma Map_get_set_other {V : Type} (m : JS.Map V) (k k' : string) (v : V) :
  String.eqb k' k = false -> JS.Map_get (JS.Map_set m k v) k' = JS.Map_get m k'.
Proof.
  intros Hne. induction m as [|[k0 v0] m IH]; simpl.
  - rewrite Hne. reflexivity.
  - destruct (String.eqb k k0) eqn:E; simpl.
    + apply String.eqb_eq in E. subst k0. rewrite Hne. reflexivity.
    + destruct (String.eqb k' k0); [reflexivity|exact IH].
Qed.

Lemma Map_has_add_keeps (m : JS.Map Z) (k k' : string) (n : Z) :
  JS.Map_has m k' = true -> JS.Map_has (JS.Map_add m k n) k' = true.
Proof.
  unfold JS.Map_has, JS.Map_add. intros H.
  destruct (String.eqb k' k) eqn:E.
  - apply String.eqb_eq in E. subst. rewrite Map_get_set_same. reflexivity.
  - rewrite Map_get_set_other by exact E. exact H.
Qed.

Lemma Map_add_values (P : Z -> Prop) (m : JS.Map Z) (k : string) (n : Z) :
  Forall P (map snd m) -> P (0 + n) -> (forall v, P v -> P (v + n)) ->
  Forall P (map snd (JS.Map_add m k n)).
Proof.
  unfold JS.Map_add. intros Hm H0 Hstep.
  induction m as [|[k' v'] m IH]; simpl.
  - repeat constructor. exact H0.
  - inversion Hm as [|? ? Hv Hrest]; subst.
    destruct (String.eqb k k') eqn:E; simpl.
    + constructor; [apply Hstep; exact Hv|exact Hrest].
    + constructor; [exact Hv|apply IH; exact Hrest].
Qed.

Section Reducer.
Variable env : Env.
Variable year : Z.

(** An invariant of the accumulators, kept by the three updates of the
    loop body for the records that satisfy [ok], is kept by the scan. *)
Lemma scan_keeps_invariant (P : Collector.Acc -> Prop) (ok : Raw.Entry -> bool) :
  (forall a h, P a -> P (Collector.markSeen a h)) ->
  (forall a entry t, ok entry = true -> Clock.getFullYear env t = year ->
     Collector.entryDate env (Raw.timestamp entry) = Some t ->
     P a -> P (Collector.reduceActivity env entry t a)) ->
  (forall a entry u, ok entry = true -> Collector.entryUsage entry = Some u ->
     P a -> P (Collector.reduceUsage env (Collector.hasCost entry) (Raw.message entry) u a)) ->
  forall lines a,
    forallb (Observed.ofRecord env ok) lines = true ->
    P a -> P (fold_left (Collector.processLine env year) lines a).
Proof.
  intros Hseen Hact Huse.
  assert (Hreduce : forall entry a, ok entry = true -> P a ->
                      P (Collector.reduceEntry env year entry a)).
  { intros entry a Hok Ha. unfold Collector.reduceEntry.
    destruct (Collector.entryDate env (Raw.timestamp entry)) as [t|] eqn:Ht; [|exact Ha].
    destruct (Z.eqb_spec (Clock.getFullYear env t) year) as [Hy|_]; [|exact Ha].
    destruct (Collector.entryUsage entry) as [u|] eqn:Hu.
    - apply Huse; [exact Hok|exact Hu|]. apply Hact; assumption.
    - apply Hact; assumption. }
  induction lines as [|line lines IH]; intros a Hok Ha; simpl; [exact Ha|].
  simpl in Hok. apply Bool.andb_true_iff in Hok. destruct Hok as [Hl Hrest].
  apply IH; [exact Hrest|].
  rewrite processLine_record. unfold Observed.ofRecord in Hl.
  destruct (Described.recordOf env line) as [entry|]; [|exact Ha].
  unfold Collector.processEntry.
  destruct (Collector.createUniqueHash entry) as [h|].
  - destruct (JS.Set_has (Collector.acc_processedHashes a) h); [exact Ha|].
    apply Hreduce; [exact Hl|]. apply Hseen. exact Ha.
  - apply Hreduce; assumption.
Qed.

Lemma forallb_always {A : Type} (l : list A) : forallb (fun _ => true) l = true.
Proof. induction l; simpl; auto. Qed.

Lemma ofRecord_always (lines : list string) :
  forallb (Observed.ofRecord env (fun _ => true)) lines = true.
Proof.
  induction lines as [|line lines IH]; simpl; [reflexivity|].
  rewrite IH, Bool.andb_true_r. unfold Observed.ofRecord.
  destruct (Described.recordOf env line); reflexivity.
Qed.

(** The same, for invariants that hold of every record. *)
Lemma scanned_invariant (P : Collector.Acc -> Prop) :
  P Collector.initial ->
  (forall a h, P a -> P (Collector.markSeen a h)) ->
  (forall a entry t, Clock.getFullYear env t = year ->
     P a -> P (Collector.reduceActivity env entry t a)) ->
  (forall a hasCost m u, P a -> P (Collector.reduceUsage env hasCost m u a)) ->
  P (Observed.scanned env year).
Proof.
  intros H0 Hseen Hact Huse.
  unfold Observed.scanned, Collector.scanRoots. rewrite scanRoots_lines.
  apply (scan_keeps_invariant P (fun _ => true)).
  - exact Hseen.
  - intros a entry t _ Hy _ Ha. apply Hact; assumption.
  - intros a entry u _ _ Ha. apply Huse. exact Ha.
  - apply ofRecord_always.
  - exact H0.
Qed.

(** What [reduceUsage] does to the accumulators it does not price. *)
Lemma reduceUsage_fields hasCost m u a :
  let a' := Collector.reduceUsage env hasCost m u a in
  let input := Collector.ensureNumber (Raw.input_tokens u) in
  let output := Collector.ensureNumber (Raw.output_tokens u) in
  let cacheCreate := Collector.ensureNumber (Raw.cache_creation_input_tokens u) in
  let cacheRead := Collector.ensureNumber (Raw.cache_read_input_tokens u) in
  Collector.acc_totalInputTokens a' = Collector.acc_totalInputTokens a + input /\
  Collector.acc_totalOutputTokens a' = Collector.acc_totalOutputTokens a + output /\
  Collector.acc_totalCacheCreationTokens a' =
    Collector.acc_totalCacheCreationTokens a + cacheCreate /\
  Collector.acc_totalCacheReadTokens a' = Collector.acc_totalCacheReadTokens a + cacheRead /\
  Collector.acc_totalTokens a' =
    Collector.acc_totalTokens a + (input + output + cacheCreate + cacheRead) /\
  Collector.acc_dailyActivity a' = Collector.acc_dailyActivity a /\
  Collector.acc_sessionIds a' = Collector.acc_sessionIds a /\
  Collector.acc_firstTimestamp a' = Collector.acc_firstTimestamp a /\
  Collector.acc_totalMessages a' = Collector.acc_totalMessages a /\
  Collector.acc_modelTokenTotals a' =
    match Collector.presentModel m with
    | Some name =>
        JS.Map_add (Collector.acc_modelTokenTotals a) name
                   (input + output + cacheCreate + cacheRead)
    | None => Collector.acc_modelTokenTotals a
    end.
Proof.
  cbv zeta. unfold Collector.reduceUsage.
  destruct (Collector.presentModel m); [|repeat split].
  cbn [Collector.acc_pricingCache Collector.acc_totalCostUSD
       Collector.acc_modelTokenTotals].
  destruct (negb hasCost && _);
    [destruct (Collector.lookupPricing _ _ _)|]; repeat split.
Qed.

End Reducer.

(** X4. The reducer keeps the grand total equal to the sum of the four
    token totals, whatever the records hold. *)
Theorem reducer_total_is_sum (env : Env) (year : Z) :
  let u := Collector.collectClaudeUsageSummary env year in
  Collector.totalTokens u =
  Collector.totalInputTokens u + Collector.totalOutputTokens u +
  Collector.totalCacheCreationTokens u + Collector.totalCacheReadTokens u.
Proof.
  cbv zeta. unfold Collector.collectClaudeUsageSummary.
  fold (Observed.scanned env year). unfold Collector.summarize;
    cbn [Collector.totalTokens Collector.totalInputTokens Collector.totalOutputTokens
         Collector.totalCacheCreationTokens Collector.totalCacheReadTokens].
  apply (scanned_invariant env year
           (fun a => Collector.acc_totalTokens a =
                     Collector.acc_totalInputTokens a + Collector.acc_totalOutputTokens a +
                     Collector.acc_totalCacheCreationTokens a +
                     Collector.acc_totalCacheReadTokens a)).
  - reflexivity.
  - intros a h H. exact H.
  - intros a entry t _ H. exact H.
  - intros a hasCost m u H.
    pose proof (reduceUsage_fields env hasCost m u a) as F. cbv zeta in F.
    destruct F as (F1 & F2 & F3 & F4 & F5 & _).
    rewrite F1, F2, F3, F4, F5, H. lia.
Qed.

(** X5. The message count of the reducer is the sum of its per-day counts;
    every recorded day counts at least one event; and there are never
    more distinct sessions than messages. *)
Theorem reducer_messages_by_day (env : Env) (year : Z) :
  let u := Collector.collectClaudeUsageSummary env year in
  Collector.totalMessages u = Observed.sumValues (Collector.dailyActivity u) /\
  Forall (fun n => 1 <= n) (map snd (Collector.dailyActivity u)) /\
  0 <= Collector.totalSessions u <= Collector.totalMessages u.
Proof.
  cbv zeta. unfold Collector.collectClaudeUsageSummary.
  fold (Observed.scanned env year). unfold Collector.summarize;
    cbn [Collector.totalMessages Collector.dailyActivity Collector.totalSessions].
  apply (scanned_invariant env year
           (fun a => Collector.acc_totalMessages a =
                       Observed.sumValues (Collector.acc_dailyActivity a) /\
                     Forall (fun n => 1 <= n) (map snd (Collector.acc_dailyActivity a)) /\
                     0 <= JS.Set_size (Collector.acc_sessionIds a)
                       <= Collector.acc_totalMessages a)).
  - repeat split; try constructor; discriminate.
  - intros a h H. exact H.
  - intros a entry t _ (H1 & H2 & H3).
    unfold Collector.reduceActivity;
      cbn [Collector.acc_totalMessages Collector.acc_dailyActivity Collector.acc_sessionIds].
    rewrite sumValues_add. split; [lia|]. split.
    + apply Map_add_values; [exact H2|lia|intros v Hv; lia].
    + assert (Hle : forall s x, JS.Set_size (JS.Set_add s x) <= JS.Set_size s + 1).
      { intros s x. unfold JS.Set_add, JS.Set_size.
        destruct (JS.Set_has s x); [lia|]. rewrite length_app. simpl. lia. }
      unfold JS.Set_size in *.
      destruct (Raw.sessionId entry) as [s|]; [destruct (JS.truthy s)|];
        try lia.
      specialize (Hle (Collector.acc_sessionIds a) s). unfold JS.Set_size in Hle. lia.
  - intros a hasCost m u (H1 & H2 & H3).
    pose proof (reduceUsage_fields env hasCost m u a) as F. cbv zeta in F.
    destruct F as (_ & _ & _ & _ & _ & F6 & F7 & _ & F9 & _).
    rewrite F6, F7, F9. repeat split; assumption || lia.
Qed.

(** X6. The earliest timestamp of the reducer is absent exactly when no
    record was counted, that is when the per-day map is empty; when
    present, its local year is the requested one and its date key is a
    day of the per-day map. *)
Theorem reducer_first_timestamp (env : Env) (year : Z) :
  let u := Collector.collectClaudeUsageSummary env year in
  (Collector.firstTimestamp u = None <-> Collector.totalMessages u = 0) /\
  (Collector.firstTimestamp u = None <-> Collector.dailyActivity u = []) /\
  (forall t, Collector.firstTimestamp u = Some t ->
     Clock.getFullYear env t = year /\
     JS.Map_has (Collector.dailyActivity u) (Clock.formatDateKey env t) = true).
Proof.
  cbv zeta. unfold Collector.collectClaudeUsageSummary.
  fold (Observed.scanned env year). unfold Collector.summarize;
    cbn [Collector.totalMessages Collector.dailyActivity Collector.firstTimestamp].
  assert (H : (Collector.acc_firstTimestamp (Observed.scanned env year) = None /\
               Collector.acc_totalMessages (Observed.scanned env year) = 0 /\
               Collector.acc_dailyActivity (Observed.scanned env year) = []) \/
              (exists t,
                 Collector.acc_firstTimestamp (Observed.scanned env year) = Some t /\
                 Clock.getFullYear env t = year /\
                 JS.Map_has (Collector.acc_dailyActivity (Observed.scanned env year))
                            (Clock.formatDateKey env t) = true /\
                 1 <= Collector.acc_totalMessages (Observed.scanned env year))).
  { apply (scanned_invariant env year
             (fun a => (Collector.acc_firstTimestamp a = None /\
                        Collector.acc_totalMessages a = 0 /\
                        Collector.acc_dailyActivity a = []) \/
                       (exists t, Collector.acc_firstTimestamp a = Some t /\
                                  Clock.getFullYear env t = year /\
                                  JS.Map_has (Collector.acc_dailyActivity a)
                                             (Clock.formatDateKey env t) = true /\
                                  1 <= Collector.acc_totalMessages a))).
    - left. repeat split.
    - intros a h H. exact H.
    - intros a entry t Hy H. right.
      unfold Collector.reduceActivity;
        cbn [Collector.acc_firstTimestamp Collector.acc_totalMessages
             Collector.acc_dailyActivity].
      destruct H as [(Hn & Hm & _)|(f & Hf & Hfy & Hfk & Hm)].
      + rewrite Hn. exists t. repeat split; [exact Hy|apply Map_has_add|lia].
      + rewrite Hf. destruct (t <? f).
        * exists t. repeat split; [exact Hy|apply Map_has_add|lia].
        * exists f. repeat split; [exact Hfy|apply Map_has_add_keeps; exact Hfk|lia].
    - intros a hasCost m u H.
      pose proof (reduceUsage_fields env hasCost m u a) as F. cbv zeta in F.
      destruct F as (_ & _ & _ & _ & _ & F6 & _ & F8 & F9 & _).
      rewrite F6, F8, F9. exact H. }
  destruct H as [(Hn & Hm & Hd)|(t & Ht & Hy & Hk & Hm)].
  - rewrite Hn, Hm, Hd. repeat split; discriminate.
  - rewrite Ht. split; [split; [discriminate|lia]|].
    split.
    + split; [discriminate|]. intros Hd. rewrite Hd in Hk. discriminate Hk.
    + intros t' [= <-]. split; assumption.
Qed.

(** X7. When no usage block of the scanned records holds a negative count,
    the five token totals are not negative, no model total is, and the
    model totals add up to at most the grand total (the difference being
    the usage of records that name no model). *)
Theorem reducer_model_share (env : Env) (year : Z) :
  forallb (Observed.ofRecord env Observed.nonNegativeUsage) (Observed.allLines env) = true ->
  let u := Collector.collectClaudeUsageSummary env year in
  Forall (fun x => 0 <= x) (Described.scalars u) /\
  Forall (fun x => 0 <= x) (map snd (Collector.modelTokenTotals u)) /\
  Observed.sumValues (Collector.modelTokenTotals u) <= Collector.totalTokens u.
Proof.
  intros Hok. cbv zeta. unfold Collector.collectClaudeUsageSummary, Described.scalars.
  unfold Collector.scanRoots. rewrite scanRoots_lines.
  unfold Collector.summarize;
    cbn [Collector.totalTokens Collector.totalInputTokens Collector.totalOutputTokens
         Collector.totalCacheCreationTokens Collector.totalCacheReadTokens
         Collector.modelTokenTotals].
  assert (H : let a := fold_left (Collector.processLine env year)
                         (Described.scannedLines env (Collector.getClaudeProjectRoots env))
                         Collector.initial in
              (0 <= Collector.acc_totalTokens a /\
               0 <= Collector.acc_totalInputTokens a /\
               0 <= Collector.acc_totalOutputTokens a /\
               0 <= Collector.acc_totalCacheReadTokens a /\
               0 <= Collector.acc_totalCacheCreationTokens a) /\
              Forall (fun x => 0 <= x) (map snd (Collector.acc_modelTokenTotals a)) /\
              Observed.sumValues (Collector.acc_modelTokenTotals a)
                <= Collector.acc_totalTokens a).
  { cbv zeta.
    apply (scan_keeps_invariant env year
             (fun a => (0 <= Collector.acc_totalTokens a /\
                        0 <= Collector.acc_totalInputTokens a /\
                        0 <= Collector.acc_totalOutputTokens a /\
                        0 <= Collector.acc_totalCacheReadTokens a /\
                        0 <= Collector.acc_totalCacheCreationTokens a) /\
                       Forall (fun x => 0 <= x) (map snd (Collector.acc_modelTokenTotals a)) /\
                       Observed.sumValues (Collector.acc_modelTokenTotals a)
                         <= Collector.acc_totalTokens a)
             Observed.nonNegativeUsage).
    - intros a h H. exact H.
    - intros a entry t _ _ _ H. exact H.
    - intros a entry u Hnn Hu (Hs & Hm & Hle).
      unfold Observed.nonNegativeUsage in Hnn. rewrite Hu in Hnn.
      rewrite !Bool.andb_true_iff, !Z.leb_le in Hnn.
      pose proof (reduceUsage_fields env (Collector.hasCost entry) (Raw.message entry) u a)
        as F. cbv zeta in F.
      destruct F as (F1 & F2 & F3 & F4 & F5 & _ & _ & _ & _ & F10).
      rewrite F1, F2, F3, F4, F5, F10.
      split; [lia|].
      destruct (Collector.presentModel (Raw.message entry)) as [name|].
      + split; [apply Map_add_values; [exact Hm|lia|intros v Hv; lia]|].
        rewrite sumValues_add. lia.
      + split; [exact Hm|lia].
    - exact Hok.
    - repeat split; try constructor; try discriminate. }
  cbv zeta in H. destruct H as ((H1 & H2 & H3 & H4 & H5) & Hm & Hle).
  split; [repeat constructor; assumption|]. split; assumption.
Qed.

Lemma reducer_model_share_witness :
  let u := Collector.collectClaudeUsageSummary Host.logged 2025 in
  Collector.modelTokenTotals u = [("claude-sonnet"%string, 10)] /\
  Collector.totalTokens u = 20 /\
  Observed.sumValues (Collector.modelTokenTotals u) <= Collector.totalTokens u.
Proof.
  cbv zeta. split; [vm_compute; reflexivity|]. split; [vm_compute; reflexivity|].
  apply (reducer_model_share Host.logged 2025). vm_compute. reflexivity.
Defined.

Lemma Map_set_keys_eq {V : Type} (m : JS.Map V) (k : string) (v : V) :
  JS.Map_keys (JS.Map_set m k v) =
  if JS.Map_has m k then JS.Map_keys m else JS.Map_keys m ++ [k].
Proof.
  unfold JS.Map_keys, JS.Map_has. induction m as [|[k' v'] m IH]; simpl; [reflexivity|].
  destruct (String.eqb k k') eqn:E; simpl; [reflexivity|].
  rewrite IH. destruct (JS.Map_get m k); reflexivity.
Qed.

Lemma Map_has_In {V : Type} (m : JS.Map V) (k : string) :
  JS.Map_has m k = true <-> In k (JS.Map_keys m).
Proof.
  unfold JS.Map_has, JS.Map_keys. induction m as [|[k' v'] m IH]; simpl.
  - split; [discriminate|intros []].
  - destruct (String.eqb_spec k k') as [->|Hne].
    + split; [left; reflexivity|reflexivity].
    + rewrite IH. split; [right; assumption|]. intros [H|H]; [congruence|exact H].
Qed.

Lemma Map_set_NoDup {V : Type} (m : JS.Map V) (k : string) (v : V) :
  NoDup (JS.Map_keys m) -> NoDup (JS.Map_keys (JS.Map_set m k v)).
Proof.
  intros H. rewrite Map_set_keys_eq.
  destruct (JS.Map_has m k) eqn:E; [exact H|].
  apply NoDup_app; [exact H|repeat constructor; intros []|].
  intros y Hy [Hx|[]]. subst y. apply Map_has_In in Hy. congruence.
Qed.

(** X8. The pricing memo of a run holds each model once, with the answer of
    the pricing resolver for it, and only models whose name is not
    blank; when every scanned record carries an explicit cost, the
    resolver is never asked and the memo stays empty. *)
Theorem pricing_memo_faithful (env : Env) (year : Z) :
  let memo := Collector.acc_pricingCache (Observed.scanned env year) in
  NoDup (JS.Map_keys memo) /\
  (forall name pricing,
     JS.Map_get memo name = Some pricing ->
     pricing = getModelPricing env name /\ JS.allWhiteSpace name = false) /\
  (forallb (Observed.ofRecord env Collector.hasCost) (Observed.allLines env) = true ->
   memo = []).
Proof.
  cbv zeta.
  assert (Hlook : forall cache name,
            NoDup (JS.Map_keys cache) ->
            (forall n p, JS.Map_get cache n = Some p ->
                         p = getModelPricing env n /\ JS.allWhiteSpace n = false) ->
            JS.allWhiteSpace name = false ->
            NoDup (JS.Map_keys (snd (Collector.lookupPricing env cache name))) /\
            (forall n p, JS.Map_get (snd (Collector.lookupPricing env cache name)) n = Some p ->
                         p = getModelPricing env n /\ JS.allWhiteSpace n = false)).
  { intros cache name Hnd Hall Hname. unfold Collector.lookupPricing.
    destruct (JS.Map_get cache name) eqn:Hg; simpl; [split; assumption|].
    split; [apply Map_set_NoDup; exact Hnd|].
    intros n p. destruct (String.eqb_spec n name) as [->|Hne].
    - rewrite Map_get_set_same. intros [= <-]. split; [reflexivity|exact Hname].
    - rewrite Map_get_set_other by (apply String.eqb_neq; exact Hne). apply Hall. }
  assert (Hcache : forall hasCost m u a,
            Collector.acc_pricingCache (Collector.reduceUsage env hasCost m u a) =
            match Collector.presentModel m with
            | Some name =>
                if negb hasCost &&
                   (0 <? Collector.ensureNumber (Raw.input_tokens u) +
                         Collector.ensureNumber (Raw.output_tokens u) +
                         Collector.ensureNumber (Raw.cache_creation_input_tokens u) +
                         Collector.ensureNumber (Raw.cache_read_input_tokens u))
                then snd (Collector.lookupPricing env (Collector.acc_pricingCache a) name)
                else Collector.acc_pricingCache a
            | None => Collector.acc_pricingCache a
            end).
  { intros hasCost m u a. unfold Collector.reduceUsage.
    destruct (Collector.presentModel m); [|reflexivity].
    cbn [Collector.acc_pricingCache Collector.acc_totalCostUSD].
    destruct (negb hasCost && _);
      [destruct (Collector.lookupPricing _ _ _)|]; reflexivity. }
  assert (Hpresent : forall m name, Collector.presentModel m = Some name ->
                                    JS.allWhiteSpace name = false).
  { intros m name. unfold Collector.presentModel.
    destruct m as [msg|]; [|discriminate].
    destruct (Raw.model msg) as [n|]; [|discriminate].
    rewrite trim_blank. destruct (JS.allWhiteSpace n) eqn:E; simpl; [discriminate|].
    intros [= <-]. exact E. }
  split; [|split].
  - apply (scanned_invariant env year
             (fun a => NoDup (JS.Map_keys (Collector.acc_pricingCache a)) /\
                       forall n p, JS.Map_get (Collector.acc_pricingCache a) n = Some p ->
                                   p = getModelPricing env n /\ JS.allWhiteSpace n = false)).
    + split; [constructor|discriminate].
    + intros a h H. exact H.
    + intros a entry t _ H. exact H.
    + intros a hasCost m u [Hnd Hall]. rewrite Hcache.
      destruct (Collector.presentModel m) as [name|] eqn:Hm; [|split; assumption].
      destruct (negb hasCost && _); [|split; assumption].
      apply Hlook; [exact Hnd|exact Hall|exact (Hpresent m name Hm)].
  - apply (scanned_invariant env year
             (fun a => NoDup (JS.Map_keys (Collector.acc_pricingCache a)) /\
                       forall n p, JS.Map_get (Collector.acc_pricingCache a) n = Some p ->
                                   p = getModelPricing env n /\ JS.allWhiteSpace n = false)).
    + split; [constructor|discriminate].
    + intros a h H. exact H.
    + intros a entry t _ H. exact H.
    + intros a hasCost m u [Hnd Hall]. rewrite Hcache.
      destruct (Collector.presentModel m) as [name|] eqn:Hm; [|split; assumption].
      destruct (negb hasCost && _); [|split; assumption].
      apply Hlook; [exact Hnd|exact Hall|exact (Hpresent m name Hm)].
  - intros Hok. unfold Observed.scanned, Collector.scanRoots. rewrite scanRoots_lines.
    apply (scan_keeps_invariant env year
             (fun a => Collector.acc_pricingCache a = []) Collector.hasCost).
    + intros a h H. exact H.
    + intros a entry t _ _ _ H. exact H.
    + intros a entry u Hc _ H. rewrite Hcache, Hc. simpl.
      destruct (Collector.presentModel (Raw.message entry)); exact H.
    + exact Hok.
    + reflexivity.
Qed.

Section Occurrences.
Variable env : Env.
Variable year : Z.

Lemma reduceEntry_messages entry a :
  Collector.acc_totalMessages (Collector.reduceEntry env year entry a) =
  Collector.acc_totalMessages a +
  match Collector.entryDate env (Raw.timestamp entry) with
  | Some t => if Clock.getFullYear env t =? year then 1 else 0
  | None => 0
  end.
Proof.
  unfold Collector.reduceEntry.
  destruct (Collector.entryDate env (Raw.timestamp entry)) as [t|]; [|lia].
  destruct (Clock.getFullYear env t =? year); [|lia].
  destruct (Collector.entryUsage entry) as [u|]; [|reflexivity].
  pose proof (reduceUsage_fields env (Collector.hasCost entry) (Raw.message entry) u
                (Collector.reduceActivity env entry t a)) as F.
  cbv zeta in F. destruct F as (_ & _ & _ & _ & _ & _ & _ & _ & F9 & _).
  rewrite F9. reflexivity.
Qed.

(** Records without an identity are counted at every occurrence. *)
Lemma scan_unidentified lines a :
  forallb (Observed.ofRecord env Observed.unidentified) lines = true ->
  Collector.acc_totalMessages (fold_left (Collector.processLine env year) lines a) =
  Collector.acc_totalMessages a +
  Z.of_nat (List.length (filter (Described.inYear env year) lines)).
Proof.
  revert a. induction lines as [|line lines IH]; intros a H; simpl; [lia|].
  simpl in H. apply Bool.andb_true_iff in H. destruct H as [Hl Hrest].
  rewrite (IH _ Hrest). rewrite processLine_record.
  unfold Observed.ofRecord, Observed.unidentified in Hl. unfold Described.inYear.
  destruct (Described.recordOf env line) as [entry|]; [|lia].
  unfold Collector.processEntry.
  destruct (Collector.createUniqueHash entry); [discriminate|].
  rewrite reduceEntry_messages.
  destruct (Collector.entryDate env (Raw.timestamp entry)) as [t|]; [|lia].
  destruct (Clock.getFullYear env t =? year); simpl; lia.
Qed.

(** A line whose record is not dated in the year changes no total. *)
Lemma scan_out_of_year_summary lines a :
  forallb (fun line => negb (Described.inYear env year line)) lines = true ->
  Collector.summarize (fold_left (Collector.processLine env year) lines a) =
  Collector.summarize a.
Proof.
  revert a. induction lines as [|line lines IH]; intros a H; simpl; [reflexivity|].
  simpl in H. apply Bool.andb_true_iff in H. destruct H as [Hl Hrest].
  rewrite (IH _ Hrest). apply Bool.negb_true_iff in Hl.
  unfold Described.inYear in Hl. rewrite processLine_record.
  destruct (Described.recordOf env line) as [entry|]; [|reflexivity].
  assert (Hskip : forall b, Collector.reduceEntry env year entry b = b).
  { intros b. unfold Collector.reduceEntry.
    destruct (Collector.entryDate env (Raw.timestamp entry)); [|reflexivity].
    rewrite Hl. reflexivity. }
  unfold Collector.processEntry.
  destruct (Collector.createUniqueHash entry) as [h|]; [|rewrite Hskip; reflexivity].
  destruct (JS.Set_has (Collector.acc_processedHashes a) h); [reflexivity|].
  rewrite Hskip. reflexivity.
Qed.

End Occurrences.

(** X9. Records that lack a message or a request identifier are never
    deduplicated: the message count is the number of scanned lines whose
    record is dated in the year, so scanning the same files twice
    doubles it. *)
Theorem unidentified_counted_twice (env : Env) (year : Z) (files : list string) :
  forallb (Observed.ofRecord env Observed.unidentified)
          (flat_map (readLines env) files) = true ->
  let once := Collector.summarize (Collector.scanFiles env year Collector.initial files) in
  let twice :=
    Collector.summarize (Collector.scanFiles env year Collector.initial (files ++ files)) in
  Collector.totalMessages once =
    Z.of_nat (List.length (filter (Described.inYear env year)
                                  (flat_map (readLines env) files))) /\
  Collector.totalMessages twice = 2 * Collector.totalMessages once.
Proof.
  intros Hun. cbv zeta.
  unfold Collector.summarize; cbn [Collector.totalMessages].
  rewrite !scanFiles_lines.
  assert (Htwice : forallb (Observed.ofRecord env Observed.unidentified)
                     (flat_map (readLines env) (files ++ files)) = true).
  { rewrite flat_map_app, forallb_app, Hun. reflexivity. }
  rewrite (scan_unidentified env year _ _ Hun),
          (scan_unidentified env year _ _ Htwice).
  rewrite flat_map_app, filter_app, length_app.
  change (Collector.acc_totalMessages Collector.initial) with 0. lia.
Qed.

Lemma unidentified_counted_twice_witness :
  let once :=
    Collector.summarize
      (Collector.scanFiles Sample.anonymousLogs 2025 Collector.initial ["b.jsonl"%string]) in
  let twice :=
    Collector.summarize
      (Collector.scanFiles Sample.anonymousLogs 2025 Collector.initial
         (["b.jsonl"%string] ++ ["b.jsonl"%string])) in
  Collector.totalMessages once =
    Z.of_nat (List.length (filter (Described.inYear Sample.anonymousLogs 2025)
                (flat_map (readLines Sample.anonymousLogs) ["b.jsonl"%string]))) /\
  Collector.totalMessages twice = 2 * Collector.totalMessages once.
Proof.
  apply (unidentified_counted_twice Sample.anonymousLogs 2025 ["b.jsonl"%string]).
  vm_compute. reflexivity.
Defined.

(** X10. When no scanned record is dated in the requested year, the reducer
    returns the zero-valued summary: no day, no model, no session, no
    first timestamp, all totals at zero. *)
Theorem other_years_leave_nothing (env : Env) (year : Z) :
  forallb (fun line => negb (Described.inYear env year line)) (Observed.allLines env)
    = true ->
  Collector.collectClaudeUsageSummary env year = Collector.summarize Collector.initial.
Proof.
  intros Hout. unfold Collector.collectClaudeUsageSummary, Collector.scanRoots.
  rewrite scanRoots_lines. apply scan_out_of_year_summary. exact Hout.
Qed.

Lemma other_years_leave_nothing_witness :
  Collector.collectClaudeUsageSummary Host.logged 2024 =
  Collector.summarize Collector.initial.
Proof.
  apply (other_years_leave_nothing Host.logged 2024). vm_compute. reflexivity.
Defined.

(** ** The stats merger: daily activity *)

Lemma sumList_addAt (i : nat) (n : Z) (l : list Z) :
  (i < List.length l)%nat ->
  Observed.sumList (Stats.addAt i n l) = Observed.sumList l + n.
Proof.
  unfold Observed.sumList. revert i.
  induction l as [|c l IH]; intros i Hi; simpl in Hi; [lia|].
  destruct i; simpl.
  - rewrite !sumOver_cons. lia.
  - rewrite !sumOver_cons, IH by lia. lia.
Qed.

Lemma weekdayOf_bound (env : Env) (entryDate : string) :
  (Stats.weekdayOf env entryDate < 7)%nat.
Proof.
  unfold Stats.weekdayOf. destruct (Clock.ofString env entryDate) as [t|]; [|lia].
  unfold Clock.getDay, Dates.weekDay.
  pose proof (Z.mod_pos_bound (Clock.localDay env t + 4) 7). lia.
Qed.

Section DailyLoops.
Variable env : Env.
Variable year : Z.

(** Seven buckets that add up to the message count. *)
Let balanced (d : Stats.Daily) : Prop :=
  List.length (Stats.d_weekdayCounts d) = 7%nat /\
  Observed.sumList (Stats.d_weekdayCounts d) = Stats.d_totalMessages d.

Lemma liveDays_balanced l d :
  balanced d -> balanced (fold_left (Stats.liveDayStep env year) l d).
Proof.
  revert d. induction l as [|[entryDate messageCount] l IH]; intros d H; simpl; [exact H|].
  apply IH. destruct (Clock.yearIs env entryDate year); [|exact H].
  destruct H as [Hlen Hsum]. unfold balanced; simpl.
  pose proof (weekdayOf_bound env entryDate).
  rewrite addAt_length, sumList_addAt by lia. split; [exact Hlen|lia].
Qed.

Lemma cacheDays_balanced l d :
  balanced d -> balanced (fold_left (Stats.cacheDayStep env year) l d).
Proof.
  revert d. induction l as [|entry l IH]; intros d H; simpl; [exact H|].
  apply IH. unfold Stats.cacheDayStep.
  destruct (StatsCache.da_date entry) as [entryDate|]; [|exact H].
  destruct (JS.truthy entryDate && Clock.yearIs env entryDate year); [|exact H].
  destruct H as [Hlen Hsum]. unfold balanced; simpl.
  pose proof (weekdayOf_bound env entryDate).
  rewrite addAt_length, sumList_addAt by lia. split; [exact Hlen|lia].
Qed.

Lemma liveDays_no_calls l d :
  Stats.d_totalToolCalls (fold_left (Stats.liveDayStep env year) l d) =
  Stats.d_totalToolCalls d.
Proof.
  revert d. induction l as [|[entryDate messageCount] l IH]; intros d; simpl; [reflexivity|].
  rewrite IH. destruct (Clock.yearIs env entryDate year); reflexivity.
Qed.

Lemma collectDaily_balanced statsCache usageSummary :
  balanced (Stats.collectDaily env year statsCache usageSummary).
Proof.
  unfold Stats.collectDaily, balanced; cbn [Stats.d_weekdayCounts Stats.d_totalMessages].
  destruct (0 <? JS.Map_size (Collector.dailyActivity usageSummary)).
  - cbn [Stats.d_weekdayCounts Stats.d_totalMessages].
    apply liveDays_balanced. split; reflexivity.
  - apply cacheDays_balanced. split; reflexivity.
Qed.

End DailyLoops.

(** X11. The weekday distribution of the snapshot has seven buckets, and they
    add up to the snapshot's message count, whichever source the daily
    activity comes from. *)
Theorem weekday_buckets_sum
  (env : Env) (year : Z) (statsCache : StatsCache.ClaudeStatsCache)
  (projects : JS.StrSet) (u : Collector.ClaudeUsageSummary) :
  let s := Stats.calculateStatsFrom env year statsCache projects u in
  List.length (Stats.w_counts (Stats.weekdayActivity s)) = 7%nat /\
  Observed.sumList (Stats.w_counts (Stats.weekdayActivity s)) = Stats.totalMessages s.
Proof.
  cbv zeta. unfold Stats.calculateStatsFrom;
    cbn [Stats.weekdayActivity Stats.totalMessages].
  unfold Stats.buildWeekdayActivity; cbn [Stats.w_counts].
  apply collectDaily_balanced.
Qed.

(** X12. When the live summary has daily activity, the tool-call total of the
    snapshot is the sum of the tool calls of every day entry of the
    cache, whatever its year, and the session total is the live one,
    replaced by the sum over every day entry of the cache when it is
    zero. *)
Theorem live_path_backstops
  (env : Env) (year : Z) (statsCache : StatsCache.ClaudeStatsCache)
  (projects : JS.StrSet) (u : Collector.ClaudeUsageSummary) :
  Collector.dailyActivity u <> [] ->
  let s := Stats.calculateStatsFrom env year statsCache projects u in
  let cacheDays := JS.nullish (StatsCache.dailyActivity statsCache) [] in
  Stats.totalToolCalls s =
    Stats.sumOver (fun e => JS.nullish (StatsCache.toolCallCount e) 0) cacheDays /\
  (Collector.totalSessions u <> 0 -> Stats.totalSessions s = Collector.totalSessions u) /\
  (Collector.totalSessions u = 0 ->
   Stats.totalSessions s =
     Stats.sumOver (fun e => JS.nullish (StatsCache.sessionCount e) 0) cacheDays).
Proof.
  intros Hlive. cbv zeta.
  unfold Stats.calculateStatsFrom; cbn [Stats.totalToolCalls Stats.totalSessions].
  unfold Stats.collectDaily; cbn [Stats.d_totalToolCalls Stats.d_totalSessions].
  assert (Hsize : (0 <? JS.Map_size (Collector.dailyActivity u)) = true).
  { apply Z.ltb_lt. unfold JS.Map_size.
    destruct (Collector.dailyActivity u); [congruence|simpl; lia]. }
  rewrite Hsize. cbn [Stats.d_totalToolCalls Stats.d_totalSessions].
  rewrite liveDays_no_calls. simpl Stats.d_totalToolCalls. simpl Z.eqb. cbv iota.
  split; [reflexivity|]. split.
  - intros Hne. destruct (Z.eqb_spec (Collector.totalSessions u) 0); [congruence|reflexivity].
  - intros ->. reflexivity.
Qed.

Lemma live_path_backstops_witness :
  let s := Stats.calculateStatsFrom Host.utc 2025 Host.turnOfYear [] Sample.oneRecord in
  let cacheDays := JS.nullish (StatsCache.dailyActivity Host.turnOfYear) [] in
  Stats.totalToolCalls s =
    Stats.sumOver (fun e => JS.nullish (StatsCache.toolCallCount e) 0) cacheDays /\
  (Collector.totalSessions Sample.oneRecord <> 0 ->
   Stats.totalSessions s = Collector.totalSessions Sample.oneRecord) /\
  (Collector.totalSessions Sample.oneRecord = 0 ->
   Stats.totalSessions s =
     Stats.sumOver (fun e => JS.nullish (StatsCache.sessionCount e) 0) cacheDays).
Proof.
  apply (live_path_backstops Host.utc 2025 Host.turnOfYear [] Sample.oneRecord).
  vm_compute. discriminate.
Defined.

(** ** The stats merger: per-model totals and the merge loop *)

Lemma Map_set_absent {V : Type} (m : JS.Map V) (k : string) (v : V) :
  JS.Map_has m k = false -> JS.Map_set m k v = m ++ [(k, v)].
Proof.
  unfold JS.Map_has. induction m as [|[k' v'] m IH]; simpl; [reflexivity|].
  destruct (String.eqb k k'); [discriminate|].
  intros H. rewrite (IH H). reflexivity.
Qed.

Lemma copy_distinct {V : Type} (l acc : JS.Map V) :
  NoDup (JS.Map_keys (acc ++ l)) ->
  fold_left (fun m kv => JS.Map_set m (fst kv) (snd kv)) l acc = acc ++ l.
Proof.
  revert acc. induction l as [|[k v] l IH]; intros acc Hnd; simpl.
  - rewrite app_nil_r. reflexivity.
  - assert (Habsent : JS.Map_has acc k = false).
    { destruct (JS.Map_has acc k) eqn:E; [|reflexivity].
      apply Map_has_In in E. unfold JS.Map_keys in *.
      rewrite map_app in Hnd. simpl in Hnd.
      apply NoDup_remove_2 in Hnd. exfalso. apply Hnd.
      apply in_or_app. left. exact E. }
    rewrite (Map_set_absent acc k v Habsent).
    rewrite IH; rewrite <- app_assoc; [reflexivity|exact Hnd].
Qed.

(** X13. When the live summary has per-model totals (under distinct model
    identifiers, as the keys of a map are), the merger uses exactly
    them, in their order, and nothing of the cache. *)
Theorem live_model_totals_win
  (env : Env) (year : Z) (statsCache : StatsCache.ClaudeStatsCache)
  (u : Collector.ClaudeUsageSummary) :
  Collector.modelTokenTotals u <> [] ->
  NoDup (JS.Map_keys (Collector.modelTokenTotals u)) ->
  Stats.collectModelTokenTotals env year statsCache u = Collector.modelTokenTotals u.
Proof.
  intros Hne Hnd. unfold Stats.collectModelTokenTotals.
  assert (Hsize : 0 < JS.Map_size (Collector.modelTokenTotals u)).
  { unfold JS.Map_size. destruct (Collector.modelTokenTotals u); [congruence|simpl; lia]. }
  destruct (Z.ltb_spec 0 (JS.Map_size (Collector.modelTokenTotals u))) as [_|]; [|lia].
  rewrite (copy_distinct (Collector.modelTokenTotals u) []) by exact Hnd. simpl.
  destruct (Z.eqb_spec (JS.Map_size (Collector.modelTokenTotals u)) 0); [lia|reflexivity].
Qed.

Lemma live_model_totals_win_witness :
  let u := Collector.collectClaudeUsageSummary Host.logged 2025 in
  Stats.collectModelTokenTotals Host.logged 2025 Host.smallCache u =
  [("claude-sonnet"%string, 10)].
Proof.
  cbv zeta.
  rewrite (live_model_totals_win Host.logged 2025 Host.smallCache).
  - vm_compute. reflexivity.
  - vm_compute. discriminate.
  - vm_compute. repeat constructor. intros [].
Defined.

Section MergeMore.
Variable env : Env.
Variable authoritative : bool.
Variable modelUsage : JS.Map StatsCache.ModelUsage.

Lemma modelLoop_providers (l : JS.Map Z) (t : Stats.Totals) :
  Observed.sumValues
    (Stats.t_providerCounts (fold_left (Stats.modelStep env authoritative modelUsage) l t)) =
  Observed.sumValues (Stats.t_providerCounts t) + Stats.sumOver snd (Described.counted l).
Proof.
  revert t. induction l as [|[modelId tokens] l IH]; intros t; simpl.
  - unfold Described.counted; simpl. rewrite sumOver_nil. lia.
  - rewrite IH. unfold Described.counted, Stats.modelStep. simpl filter.
    replace (0 <? tokens) with (negb (tokens <=? 0))
      by (destruct (Z.leb_spec tokens 0), (Z.ltb_spec 0 tokens); simpl; lia).
    destruct (tokens <=? 0); simpl negb; cbv iota; [reflexivity|].
    cbn [Stats.t_providerCounts]. rewrite sumValues_add, sumOver_cons. simpl snd. lia.
Qed.

(** The usage records of the counted models, in loop order. *)
Let usageOf (l : JS.Map Z) : list StatsCache.ModelUsage :=
  flat_map (fun kv => match JS.Map_get modelUsage (fst kv) with
                      | Some u => [u]
                      | None => []
                      end) (Described.counted l).

Lemma modelLoop_extras (l : JS.Map Z) (t : Stats.Totals) :
  let t' := fold_left (Stats.modelStep env authoritative modelUsage) l t in
  Stats.t_totalWebSearchRequests t' =
    Stats.t_totalWebSearchRequests t +
    Stats.sumOver (fun u => JS.nullish (StatsCache.webSearchRequests u) 0) (usageOf l) /\
  Stats.t_peakContextWindow t' =
    fold_left (fun peak u => Z.max peak (JS.nullish (StatsCache.contextWindow u) 0))
              (usageOf l) (Stats.t_peakContextWindow t).
Proof.
  revert t. induction l as [|[modelId tokens] l IH]; intros t; cbv zeta; cbn [fold_left].
  - unfold usageOf, Described.counted; simpl. rewrite sumOver_nil. split; [lia|reflexivity].
  - specialize (IH (Stats.modelStep env authoritative modelUsage t (modelId, tokens))).
    cbv zeta in IH. destruct IH as [IH1 IH2]. rewrite IH1, IH2.
    unfold usageOf, Described.counted, Stats.modelStep. simpl filter.
    replace (0 <? tokens) with (negb (tokens <=? 0))
      by (destruct (Z.leb_spec tokens 0), (Z.ltb_spec 0 tokens); simpl; lia).
    destruct (tokens <=? 0); simpl negb; cbv iota; [split; reflexivity|].
    simpl flat_map. cbn [fst].
    destruct (JS.Map_get modelUsage modelId) as [usage|];
      cbn [Stats.t_totalWebSearchRequests Stats.t_peakContextWindow]; simpl app.
    + unfold Stats.sumOver at 2. simpl fold_left. rewrite sumOver_from.
      unfold JS.Math_max. split; [lia|reflexivity].
    + split; reflexivity.
Qed.

End MergeMore.

Lemma running_max (l : list Z) (start : Z) :
  let peak := fold_left Z.max l start in
  start <= peak /\ Forall (fun x => x <= peak) l /\ (peak = start \/ In peak l).
Proof.
  revert start. induction l as [|x l IH]; intros start; simpl.
  - split; [lia|]. split; [constructor|left; reflexivity].
  - specialize (IH (Z.max start x)). cbv zeta in IH. destruct IH as (H1 & H2 & H3).
    split; [lia|]. split; [constructor; [lia|exact H2]|].
    destruct H3 as [H3|H3]; [|right; right; exact H3].
    destruct (Z.max_spec start x) as [[_ Hm]|[_ Hm]].
    + right. left. rewrite H3. symmetry. exact Hm.
    + left. rewrite H3. exact Hm.
Qed.

Lemma providers_total
  (env : Env) (statsCache : StatsCache.ClaudeStatsCache)
  (u : Collector.ClaudeUsageSummary) (modelTokenTotals : JS.Map Z) :
  Observed.sumValues
    (Stats.t_providerCounts (Stats.mergeTotals env statsCache u modelTokenTotals)) =
  Stats.sumOver snd (Described.counted modelTokenTotals).
Proof.
  unfold Stats.mergeTotals. rewrite modelLoop_providers.
  unfold Stats.liveTotals; cbn [Stats.t_providerCounts].
  unfold Observed.sumValues. rewrite sumOver_nil. lia.
Qed.

(** X14. The provider totals of the merge loop add up to the summed counts of
    the counted models: attributing models to providers loses and adds
    nothing. *)
Theorem providers_partition_tokens
  (env : Env) (statsCache : StatsCache.ClaudeStatsCache)
  (u : Collector.ClaudeUsageSummary) (modelTokenTotals : JS.Map Z) :
  let t := Stats.mergeTotals env statsCache u modelTokenTotals in
  Observed.sumValues (Stats.t_providerCounts t) =
    Stats.sumOver snd (Described.counted modelTokenTotals) /\
  Observed.sumValues (Stats.t_providerCounts t) =
    Stats.sumOver Stats.count (Stats.t_modelStats t).
Proof.
  cbv zeta. unfold Stats.mergeTotals.
  rewrite modelLoop_providers. unfold Stats.liveTotals at 1; cbn [Stats.t_providerCounts].
  split; [unfold Observed.sumValues; rewrite sumOver_nil; lia|].
  rewrite <- (sumOver_map Stats.count), modelLoop_counts.
  unfold Stats.liveTotals; cbn [Stats.t_modelStats Stats.t_providerCounts map app].
  rewrite sumOver_map.
  unfold Observed.sumValues. rewrite sumOver_nil. lia.
Qed.

(** X15. The peak context window of the snapshot is a running maximum
    starting at 0: it is never negative, bounds the context window of
    every counted model that has a usage record, and is 0 or the context
    window of one of them; the web-search total is the sum over the same
    records. *)
Theorem peak_context_is_maximum
  (env : Env) (year : Z) (statsCache : StatsCache.ClaudeStatsCache)
  (projects : JS.StrSet) (u : Collector.ClaudeUsageSummary) :
  let s := Stats.calculateStatsFrom env year statsCache projects u in
  let modelUsage := JS.nullish (StatsCache.modelUsage statsCache) [] in
  let counted :=
    Described.counted (Stats.collectModelTokenTotals env year statsCache u) in
  let windowOf := fun usage => JS.nullish (StatsCache.contextWindow usage) 0 in
  0 <= Stats.peakContextWindow s /\
  (forall modelId tokens usage,
     In (modelId, tokens) counted -> JS.Map_get modelUsage modelId = Some usage ->
     windowOf usage <= Stats.peakContextWindow s) /\
  (Stats.peakContextWindow s = 0 \/
   exists modelId tokens usage,
     In (modelId, tokens) counted /\ JS.Map_get modelUsage modelId = Some usage /\
     Stats.peakContextWindow s = windowOf usage) /\
  Stats.totalWebSearchRequests s =
    Stats.sumOver
      (fun kv => match JS.Map_get modelUsage (fst kv) with
                 | Some usage => JS.nullish (StatsCache.webSearchRequests usage) 0
                 | None => 0
                 end) counted.
Proof.
  intros s modelUsage counted windowOf. subst s windowOf. cbv beta.
  unfold Stats.calculateStatsFrom;
    cbn [Stats.peakContextWindow Stats.totalWebSearchRequests].
  unfold Stats.mergeTotals. fold modelUsage.
  pose proof (modelLoop_extras env (Stats.hasUsageSummaryTokens u) modelUsage
                (Stats.collectModelTokenTotals env year statsCache u)
                (Stats.liveTotals u)) as H.
  cbv zeta in H. fold counted in H. destruct H as [Hweb Hpeak]. rewrite Hweb, Hpeak.
  unfold Stats.liveTotals; cbn [Stats.t_peakContextWindow Stats.t_totalWebSearchRequests].
  assert (Hfold : forall (recs : list StatsCache.ModelUsage) z,
            fold_left (fun peak u0 => Z.max peak (JS.nullish (StatsCache.contextWindow u0) 0))
                      recs z =
            fold_left Z.max
                      (map (fun usage => JS.nullish (StatsCache.contextWindow usage) 0) recs)
                      z).
  { induction recs as [|r recs IH]; intros z; simpl; [reflexivity|apply IH]. }
  rewrite Hfold.
  match goal with
  | |- context [fold_left Z.max (map ?f ?r) 0] =>
      pose proof (running_max (map f r) 0) as Hmax; set (records := r) in *
  end.
  cbv zeta in Hmax. destruct Hmax as (H0 & Hall & Hin).
  split; [exact H0|]. split; [|split].
  - intros modelId tokens usage Hc Hget.
    rewrite Forall_forall in Hall.
    apply (Hall (JS.nullish (StatsCache.contextWindow usage) 0)).
    apply (in_map (fun usage0 => JS.nullish (StatsCache.contextWindow usage0) 0)).
    unfold records. apply in_flat_map. exists (modelId, tokens).
    split; [exact Hc|]. simpl. rewrite Hget. left. reflexivity.
  - destruct Hin as [Hz|Hin]; [left; exact Hz|right].
    apply in_map_iff in Hin. destruct Hin as (usage & Hw & Hin).
    unfold records in Hin. apply in_flat_map in Hin.
    destruct Hin as ([modelId tokens] & Hc & Hr). simpl in Hr.
    destruct (JS.Map_get modelUsage modelId) as [usage'|] eqn:Hget; [|destruct Hr].
    destruct Hr as [->|[]]. exists modelId, tokens, usage.
    repeat split; [exact Hc|exact Hget|symmetry; exact Hw].
  - unfold records. subst counted. clear.
    generalize (Described.counted (Stats.collectModelTokenTotals env year statsCache u)).
    intros l. rewrite Z.add_0_l.
    induction l as [|kv l IH]; simpl flat_map.
    + rewrite !sumOver_nil. reflexivity.
    + rewrite sumOver_cons. destruct (JS.Map_get modelUsage (fst kv)); simpl app.
      * rewrite sumOver_cons. lia.
      * lia.
Qed.

(** ** Rankings *)

Lemma filter_none {A : Type} (f : A -> bool) (l : list A) :
  (forall z, In z l -> f z = false) -> filter f l = [].
Proof.
  induction l as [|x l IH]; intros H; simpl; [reflexivity|].
  rewrite (H x (or_introl eq_refl)). apply IH. intros z Hz. apply H. right. exact Hz.
Qed.

Section SortDescFacts.
Context {A : Type} (key : A -> Z).

Lemma insertDesc_perm (x : A) (l : list A) :
  Permutation (JS.insertDesc key x l) (x :: l).
Proof.
  induction l as [|y l IH]; simpl; [reflexivity|].
  destruct (key y <? key x); [reflexivity|].
  rewrite IH. apply perm_swap.
Qed.

Lemma insertDesc_sorted (x : A) (l : list A) :
  Sorted (Observed.descending key) l ->
  Sorted (Observed.descending key) (JS.insertDesc key x l).
Proof.
  unfold Observed.descending.
  induction 1 as [|y l Hs IH Hhd]; simpl.
  - repeat constructor.
  - destruct (Z.ltb_spec (key y) (key x)) as [Hlt|Hge].
    + constructor; [constructor; assumption|]. constructor. lia.
    + constructor; [exact IH|].
      destruct l as [|z l]; simpl.
      * constructor. exact Hge.
      * destruct (key z <? key x).
        -- constructor. exact Hge.
        -- inversion Hhd; subst. constructor. assumption.
Qed.

(** Inserting after the elements of equal key keeps encounter order. *)
Lemma insertDesc_stable (x : A) (l : list A) (k : Z) :
  Sorted (Observed.descending key) l ->
  filter (fun y => key y =? k) (JS.insertDesc key x l) =
  filter (fun y => key y =? k) l ++ (if key x =? k then [x] else []).
Proof.
  intros Hs. apply Sorted_StronglySorted in Hs;
    [|unfold Observed.descending; intros a b c; lia].
  induction Hs as [|y l Hs IH Hall]; simpl.
  - destruct (key x =? k); reflexivity.
  - destruct (Z.ltb_spec (key y) (key x)) as [Hlt|Hge]; simpl.
    + destruct (Z.eqb_spec (key x) k) as [Hx|Hx].
      * assert (Hy : (key y =? k) = false) by (apply Z.eqb_neq; lia).
        rewrite Hy.
        assert (Hnone : filter (fun y0 => key y0 =? k) l = []).
        { apply filter_none. intros z Hz. rewrite Forall_forall in Hall.
          specialize (Hall z Hz). unfold Observed.descending in Hall.
          apply Z.eqb_neq. lia. }
        rewrite Hnone. reflexivity.
      * rewrite app_nil_r. reflexivity.
    + rewrite IH. destruct (key y =? k); reflexivity.
Qed.

Lemma sortDesc_from (l acc : list A) :
  Sorted (Observed.descending key) acc ->
  let r := fold_left (fun acc x => JS.insertDesc key x acc) l acc in
  Permutation r (acc ++ l) /\
  Sorted (Observed.descending key) r /\
  forall k, filter (fun y => key y =? k) r =
            filter (fun y => key y =? k) acc ++ filter (fun y => key y =? k) l.
Proof.
  revert acc. induction l as [|x l IH]; intros acc Hs; simpl.
  - rewrite app_nil_r. split; [reflexivity|]. split; [exact Hs|].
    intros k. rewrite app_nil_r. reflexivity.
  - destruct (IH (JS.insertDesc key x acc) (insertDesc_sorted x acc Hs)) as (Hp & Hso & Hst).
    split; [|split; [exact Hso|]].
    + rewrite Hp, insertDesc_perm. simpl.
      apply Permutation_middle.
    + intros k. rewrite Hst, (insertDesc_stable x acc k Hs), <- app_assoc.
      destruct (key x =? k); reflexivity.
Qed.

(** The sort of the rankings: a stable sort by descending key. *)
Lemma sortDesc_spec (l : list A) :
  Permutation (JS.sortDesc key l) l /\
  StronglySorted (Observed.descending key) (JS.sortDesc key l) /\
  forall k, filter (fun y => key y =? k) (JS.sortDesc key l) =
            filter (fun y => key y =? k) l.
Proof.
  destruct (sortDesc_from l [] (Sorted_nil _)) as (Hp & Hs & Hst).
  split; [exact Hp|]. split; [|exact Hst].
  apply Sorted_StronglySorted; [|exact Hs].
  unfold Observed.descending. intros a b c. lia.
Qed.

(** The first three of the sorted list against the rest. *)
Lemma top_three (l : list A) :
  let top := firstn 3 (JS.sortDesc key l) in
  let rest := skipn 3 (JS.sortDesc key l) in
  List.length top = Nat.min 3 (List.length l) /\
  Permutation (top ++ rest) l /\
  StronglySorted (Observed.descending key) top /\
  Forall (fun r => Forall (fun t => key r <= key t) top) rest /\
  forall k, exists later,
    filter (fun y => key y =? k) l = filter (fun y => key y =? k) top ++ later.
Proof.
  cbv zeta. destruct (sortDesc_spec l) as (Hp & Hs & Hst).
  set (sorted := JS.sortDesc key l) in *.
  split; [rewrite length_firstn, (Permutation_length Hp); reflexivity|].
  split; [rewrite firstn_skipn; exact Hp|].
  rewrite <- (firstn_skipn 3 sorted) in Hs.
  split; [|split].
  - clear -Hs. revert Hs. generalize (firstn 3 sorted) (skipn 3 sorted).
    induction l0 as [|a l0 IH]; intros l1 H; [constructor|].
    simpl in H. inversion H; subst. constructor; [apply (IH l1); assumption|].
    rewrite Forall_app in H3. tauto.
  - clear -Hs. revert Hs. generalize (firstn 3 sorted) (skipn 3 sorted).
    intros top rest H. apply Forall_forall. intros r Hr. apply Forall_forall. intros t Ht.
    induction top as [|a top IH]; [destruct Ht|].
    simpl in H. inversion H; subst. destruct Ht as [->|Ht].
    + rewrite Forall_forall in H3. apply (H3 r). apply in_or_app. right. exact Hr.
    + apply IH; assumption.
  - intros k. exists (filter (fun y => key y =? k) (skipn 3 sorted)).
    rewrite <- (Hst k), <- filter_app, firstn_skipn. reflexivity.
Qed.

End SortDescFacts.

(** X16. The top-models list holds the three largest models (all of them
    when there are fewer), by descending count; no model left out has a
    larger count than a chosen one; among models of equal count the ones
    met first in the loop are chosen, in this order; and each carries
    its share of [totalTokens] as percentage. *)
Theorem top_models_ranked (totalTokens : Z) (modelStats : list Stats.ModelStats) :
  exists chosen rest,
    Stats.topModelsOf totalTokens modelStats =
      map (Stats.withPercentage totalTokens) chosen /\
    List.length chosen = Nat.min 3 (List.length modelStats) /\
    Permutation (chosen ++ rest) modelStats /\
    StronglySorted (Observed.descending Stats.count) chosen /\
    Forall (fun r => Forall (fun t => Stats.count r <= Stats.count t) chosen) rest /\
    forall k, exists later,
      filter (fun m => Stats.count m =? k) modelStats =
      filter (fun m => Stats.count m =? k) chosen ++ later.
Proof.
  exists (firstn 3 (JS.sortDesc Stats.count modelStats)),
         (skipn 3 (JS.sortDesc Stats.count modelStats)).
  split; [reflexivity|]. apply (top_three Stats.count modelStats).
Qed.

(** X17. The top-providers list: the same ranking over the provider totals. *)
Theorem top_providers_ranked (env : Env) (totalTokens : Z) (providerCounts : JS.Map Z) :
  exists chosen rest,
    map (fun p => (Stats.p_id p, Stats.p_count p))
        (Stats.topProvidersOf env totalTokens providerCounts) = chosen /\
    Forall (fun p => Stats.p_percentage p = Stats.percentageOf totalTokens (Stats.p_count p) /\
                     Stats.p_name p = getProviderDisplayName env (Stats.p_id p))
           (Stats.topProvidersOf env totalTokens providerCounts) /\
    List.length chosen = Nat.min 3 (List.length providerCounts) /\
    Permutation (chosen ++ rest) providerCounts /\
    StronglySorted (Observed.descending snd) chosen /\
    Forall (fun r => Forall (fun t => snd r <= snd t) chosen) rest.
Proof.
  exists (firstn 3 (JS.sortDesc snd providerCounts)),
         (skipn 3 (JS.sortDesc snd providerCounts)).
  destruct (top_three snd providerCounts) as (H1 & H2 & H3 & H4 & _).
  unfold Stats.topProvidersOf.
  split; [|split; [|repeat split; assumption]].
  - rewrite map_map. cbn [Stats.p_id Stats.p_count].
    etransitivity; [|apply map_id]. apply map_ext. intros [k v]. reflexivity.
  - apply Forall_forall. intros p Hin. apply in_map_iff in Hin.
    destruct Hin as (kv & <- & _). split; reflexivity.
Qed.

(** ** Most active day and weekday *)

Lemma mostActive_fold (l : JS.Map Z) (best : string * Z) :
  let r := fold_left (fun acc e => if snd acc <? snd e then e else acc) l best in
  (r = best /\ Forall (fun e => snd e <= snd best) l) \/
  (exists before after,
     l = before ++ r :: after /\ snd best < snd r /\
     Forall (fun e => snd e < snd r) before /\
     Forall (fun e => snd e <= snd r) after).
Proof.
  revert best. induction l as [|e l IH]; intros best; simpl.
  - left. split; [reflexivity|constructor].
  - specialize (IH (if snd best <? snd e then e else best)). cbv zeta in IH.
    set (r := fold_left _ l _) in *.
    destruct (Z.ltb_spec (snd best) (snd e)) as [Hlt|Hge].
    + right. destruct IH as [[Hr Hall]|(before & after & Hl & Hbig & Hb & Ha)].
      * exists [], l. rewrite Hr. simpl. repeat split; [exact Hlt|constructor|exact Hall].
      * exists (e :: before), after. rewrite Hl. simpl.
        repeat split; [lia|constructor; [lia|exact Hb]|exact Ha].
    + destruct IH as [[Hr Hall]|(before & after & Hl & Hbig & Hb & Ha)].
      * left. split; [exact Hr|constructor; [exact Hge|exact Hall]].
      * right. exists (e :: before), after. rewrite Hl. simpl.
        repeat split; [exact Hbig|constructor; [lia|exact Hb]|exact Ha].
Qed.

(** X18. [findMostActiveDay] answers "none" when no day has a positive count
    (an empty map included); otherwise, the keys not being empty, it
    answers the first day that holds the largest count. *)
Theorem most_active_day_first_maximum (dailyActivity : JS.Map Z) :
  (Forall (fun e => snd e <= 0) dailyActivity ->
   Stats.findMostActiveDay dailyActivity = None) /\
  (forall date count,
     Stats.findMostActiveDay dailyActivity = Some (date, count) ->
     0 < count /\ date <> EmptyString /\
     exists before after,
       dailyActivity = before ++ (date, count) :: after /\
       Forall (fun e => snd e < count) before /\
       Forall (fun e => snd e <= count) after) /\
  (Exists (fun e => 0 < snd e) dailyActivity ->
   Forall (fun e => fst e <> EmptyString) dailyActivity ->
   exists date count, Stats.findMostActiveDay dailyActivity = Some (date, count)).
Proof.
  unfold Stats.findMostActiveDay.
  pose proof (mostActive_fold dailyActivity (EmptyString, 0)) as H. cbv zeta in H.
  remember (fold_left (fun acc e => if snd acc <? snd e then e else acc)
                      dailyActivity (EmptyString, 0)) as best eqn:Hfold.
  clear Hfold. simpl snd in H.
  split; [|split].
  - intros Hnone. destruct H as [[Hr _]|(before & after & Hl & Hbig & _)].
    + rewrite Hr. reflexivity.
    + rewrite Hl in Hnone. apply Forall_app in Hnone. destruct Hnone as [_ Hn].
      inversion Hn; subst. lia.
  - intros date count Hsome.
    destruct (JS.truthy (fst best)) eqn:Ht; [|discriminate].
    injection Hsome as Hbest.
    destruct H as [[Hr _]|(before & after & Hl & Hbig & Hb & Ha)].
    + rewrite Hr in Ht. discriminate.
    + subst best. simpl in *.
      split; [exact Hbig|]. split.
      * intros ->. discriminate.
      * exists before, after. repeat split; assumption.
  - intros Hpos Hkeys.
    destruct H as [[_ Hall]|(before & after & Hl & _)].
    + exfalso. apply Exists_exists in Hpos. destruct Hpos as (e & He & Hp).
      rewrite Forall_forall in Hall. specialize (Hall e He). lia.
    + assert (Hin : In best dailyActivity) by (rewrite Hl; apply in_elt).
      rewrite Forall_forall in Hkeys. specialize (Hkeys best Hin).
      assert (Ht : JS.truthy (fst best) = true).
      { unfold JS.truthy. apply Bool.negb_true_iff. apply String.eqb_neq. exact Hkeys. }
      rewrite Ht. exists (fst best), (snd best). destruct best; reflexivity.
Qed.

(** X19. [buildWeekdayActivity] on seven buckets: no bucket exceeds the
    recorded maximum; when some bucket is positive, the day flagged as
    most active holds the maximum and every earlier day holds less;
    otherwise Sunday is flagged with a maximum of 0; the name is the one
    of the flagged day. *)
Theorem weekday_most_active (weekdayCounts : list Z) :
  List.length weekdayCounts = 7%nat ->
  let w := Stats.buildWeekdayActivity weekdayCounts in
  0 <= Stats.w_mostActiveDay w < 7 /\
  Forall (fun c => c <= Stats.w_maxCount w) weekdayCounts /\
  Stats.w_mostActiveDayName w =
    nth (Z.to_nat (Stats.w_mostActiveDay w)) Stats.WEEKDAY_NAMES_FULL EmptyString /\
  (Exists (fun c => 0 < c) weekdayCounts ->
   nth (Z.to_nat (Stats.w_mostActiveDay w)) weekdayCounts 0 = Stats.w_maxCount w /\
   0 < Stats.w_maxCount w /\
   forall i, (i < Z.to_nat (Stats.w_mostActiveDay w))%nat ->
             nth i weekdayCounts 0 < Stats.w_maxCount w) /\
  (Forall (fun c => c <= 0) weekdayCounts ->
   Stats.w_mostActiveDay w = 0 /\ Stats.w_maxCount w = 0 /\
   Stats.w_mostActiveDayName w = "Sunday"%string).
Proof.
  intros Hlen w. subst w. unfold Stats.buildWeekdayActivity;
    cbn [Stats.w_mostActiveDay Stats.w_maxCount Stats.w_mostActiveDayName Stats.w_counts].
  pose proof (mostActiveLoop_spec weekdayCounts 0 (0, 0)) as H.
  cbv zeta in H. rewrite Hlen in H. cbn [fst snd] in H.
  destruct H as (Hge & Hall & Hcase).
  assert (Hforall : Forall (fun c => c <= snd (Stats.mostActiveLoop weekdayCounts 0 (0, 0)))
                           weekdayCounts).
  { apply Forall_forall. intros c Hc. apply (In_nth _ _ 0) in Hc.
    destruct Hc as (i & Hi & <-). apply Hall. lia. }
  split; [|split; [exact Hforall|split; [reflexivity|split]]].
  - destruct Hcase as [[Hr _]|(k & Hk & Hidx & _)]; [rewrite Hr; simpl; lia|].
    rewrite Hidx. lia.
  - intros Hpos. apply Exists_exists in Hpos. destruct Hpos as (c & Hc & Hp).
    destruct Hcase as [[Hr Hle]|(k & Hk & Hidx & Hval & Hbig & Hfirst)].
    + apply (In_nth _ _ 0) in Hc. destruct Hc as (i & Hi & <-).
      specialize (Hle i ltac:(lia)). lia.
    + rewrite Hidx. replace (Z.to_nat (0 + Z.of_nat k)) with k by lia.
      split; [exact Hval|]. split; [lia|exact Hfirst].
  - intros Hnone.
    destruct Hcase as [[Hr _]|(k & Hk & Hidx & Hval & Hbig & _)].
    + rewrite Hr. repeat split.
    + rewrite Forall_forall in Hnone.
      assert (Hin : In (nth k weekdayCounts 0) weekdayCounts) by (apply nth_In; lia).
      specialize (Hnone _ Hin). lia.
Qed.

Lemma weekday_most_active_witness :
  let w := Stats.buildWeekdayActivity [0; 4; 9; 9; 0; 2; 0] in
  Stats.w_counts w = [0; 4; 9; 9; 0; 2; 0] /\
  0 <= Stats.w_mostActiveDay w < 7 /\
  Stats.w_mostActiveDayName w = "Tuesday"%string.
Proof.
  cbv zeta. split; [reflexivity|].
  split; [|reflexivity].
  apply (weekday_most_active [0; 4; 9; 9; 0; 2; 0]). reflexivity.
Defined.

(** ** Rates and shares *)

Lemma share_bounds (part whole : Z) :
  0 <= part <= whole -> 0 < whole ->
  (0 <= inject_Z part / inject_Z whole * 100 /\
   inject_Z part / inject_Z whole * 100 <= 100)%Q.
Proof.
  intros [Hp Hw] Hpos.
  assert (Hd : (0 < inject_Z whole)%Q)
    by (change (inject_Z 0 < inject_Z whole)%Q; rewrite <- Zlt_Qlt; exact Hpos).
  assert (H0 : (0 <= inject_Z part / inject_Z whole)%Q).
  { apply Qle_shift_div_l; [exact Hd|]. rewrite Qmult_0_l.
    change (inject_Z 0 <= inject_Z part)%Q. rewrite <- Zle_Qle. exact Hp. }
  assert (H1 : (inject_Z part / inject_Z whole <= 1)%Q).
  { apply Qle_shift_div_r; [exact Hd|]. rewrite Qmult_1_l.
    rewrite <- Zle_Qle. exact Hw. }
  split; lra.
Qed.

Lemma share_zero (part whole : Z) :
  0 < whole -> ((inject_Z part / inject_Z whole * 100 == 0)%Q <-> part = 0).
Proof.
  intros Hpos. destruct whole as [|p|p]; try lia.
  unfold Qeq, Qdiv, Qmult, Qinv, inject_Z; simpl. lia.
Qed.

(** X20. The cache hit rate of non-negative cache totals lies between 0 and
    100; it is 0 exactly when nothing was read from the cache, which
    covers the case of an empty denominator, and 100 exactly when
    something was read and nothing written. *)
Theorem cache_hit_rate_bounds (cacheRead cacheWrite : Z) :
  0 <= cacheRead -> 0 <= cacheWrite ->
  (0 <= Stats.cacheHitRateOf cacheRead cacheWrite)%Q /\
  (Stats.cacheHitRateOf cacheRead cacheWrite <= 100)%Q /\
  ((Stats.cacheHitRateOf cacheRead cacheWrite == 0)%Q <-> cacheRead = 0) /\
  ((Stats.cacheHitRateOf cacheRead cacheWrite == 100)%Q <->
   0 < cacheRead /\ cacheWrite = 0).
Proof.
  intros Hr Hw. unfold Stats.cacheHitRateOf.
  destruct (Z.ltb_spec 0 (cacheRead + cacheWrite)) as [Hpos|Hzero].
  - destruct (share_bounds cacheRead (cacheRead + cacheWrite)) as [H0 H1]; [lia|exact Hpos|].
    split; [exact H0|]. split; [exact H1|]. split.
    + apply share_zero. exact Hpos.
    + destruct (cacheRead + cacheWrite) as [|p|p] eqn:Hd; try lia.
      unfold Qeq, Qdiv, Qmult, Qinv, inject_Z; simpl. lia.
  - assert (cacheRead = 0) by lia. assert (cacheWrite = 0) by lia. subst.
    split; [discriminate|]. split; [discriminate|].
    split; [split; reflexivity|].
    split; [intros H; discriminate H|lia].
Qed.

Lemma cache_hit_rate_bounds_witness :
  (Stats.cacheHitRateOf 30 10 == 75)%Q /\
  (Stats.cacheHitRateOf 30 10 <= 100)%Q.
Proof.
  split; [reflexivity|].
  apply (cache_hit_rate_bounds 30 10); discriminate.
Defined.

Lemma In_firstn {A : Type} (n : nat) (l : list A) (x : A) :
  In x (firstn n l) -> In x l.
Proof.
  intros H. rewrite <- (firstn_skipn n l). apply in_or_app. left. exact H.
Qed.

Lemma positive_member (l : list Z) (x : Z) :
  Forall (fun y => 0 < y) l -> In x l -> 0 < x <= Observed.sumList l.
Proof.
  unfold Observed.sumList. induction 1 as [|y l Hy Hl IH]; intros Hin; [destruct Hin|].
  rewrite sumOver_cons.
  assert (Hsum : 0 <= Stats.sumOver (fun z => z) l).
  { clear -Hl. induction Hl as [|z l Hz _ IH]; [rewrite sumOver_nil; lia|].
    rewrite sumOver_cons. lia. }
  destruct Hin as [->|Hin]; [lia|]. specialize (IH Hin). lia.
Qed.

Lemma counted_positive (l : JS.Map Z) :
  Forall (fun y => 0 < y) (map snd (Described.counted l)).
Proof.
  unfold Described.counted. apply Forall_forall. intros y Hy.
  apply in_map_iff in Hy. destruct Hy as (kv & <- & Hin).
  apply filter_In in Hin. destruct Hin as [_ H]. apply Z.ltb_lt. exact H.
Qed.

Lemma modelLoop_provider_values (env : Env) (authoritative : bool)
  (modelUsage : JS.Map StatsCache.ModelUsage) (l : JS.Map Z) (t : Stats.Totals) :
  Forall (fun y => 0 < y) (map snd (Stats.t_providerCounts t)) ->
  Forall (fun y => 0 < y)
    (map snd (Stats.t_providerCounts
                (fold_left (Stats.modelStep env authoritative modelUsage) l t))).
Proof.
  revert t. induction l as [|[modelId tokens] l IH]; intros t H; simpl; [exact H|].
  apply IH. unfold Stats.modelStep.
  destruct (Z.leb_spec tokens 0); [exact H|].
  cbn [Stats.t_providerCounts]. apply Map_add_values; [exact H|lia|intros v Hv; lia].
Qed.

(** X21. When the totals are accumulated from the per-model counts (all five
    live scalars zero), every percentage of the top-models and
    top-providers lists lies between 0 and 100. *)
Theorem accumulated_shares_bounded
  (env : Env) (year : Z) (statsCache : StatsCache.ClaudeStatsCache)
  (projects : JS.StrSet) (u : Collector.ClaudeUsageSummary) :
  Forall (fun x => x = 0) (Described.scalars u) ->
  let s := Stats.calculateStatsFrom env year statsCache projects u in
  Forall (fun m => (0 <= Stats.percentage m)%Q /\ (Stats.percentage m <= 100)%Q)
         (Stats.topModels s) /\
  Forall (fun p => (0 <= Stats.p_percentage p)%Q /\ (Stats.p_percentage p <= 100)%Q)
         (Stats.topProviders s).
Proof.
  intros Hzero s.
  pose proof (accumulated_total env year statsCache projects u Hzero) as Htotal.
  fold s in Htotal.
  set (totals := Stats.collectModelTokenTotals env year statsCache u) in *.
  assert (Hshare : forall count, 0 < count <= Stats.totalTokens s ->
            (0 <= Stats.percentageOf (Stats.totalTokens s) count)%Q /\
            (Stats.percentageOf (Stats.totalTokens s) count <= 100)%Q).
  { intros count Hc. unfold Stats.percentageOf.
    destruct (Z.ltb_spec 0 (Stats.totalTokens s)); [|lia].
    apply share_bounds; lia. }
  assert (Htotal' : Stats.totalTokens s = Observed.sumList (map snd (Described.counted totals))).
  { rewrite Htotal. unfold Observed.sumList. rewrite sumOver_map. reflexivity. }
  split.
  - subst s. unfold Stats.calculateStatsFrom in *; cbn [Stats.topModels Stats.totalTokens] in *.
    fold totals. unfold Stats.topModelsOf. apply Forall_forall. intros m Hin.
    apply in_map_iff in Hin. destruct Hin as (m0 & <- & Hin0).
    cbn [Stats.withPercentage Stats.percentage]. apply Hshare.
    rewrite Htotal'. apply positive_member; [apply counted_positive|].
    assert (Hc : map Stats.count
                   (Stats.t_modelStats (Stats.mergeTotals env statsCache u totals)) =
                 map snd (Described.counted totals)).
    { unfold Stats.mergeTotals. rewrite modelLoop_counts. reflexivity. }
    rewrite <- Hc. apply in_map. apply In_firstn in Hin0.
    apply (Permutation_in _ (proj1 (sortDesc_spec Stats.count _))) in Hin0. exact Hin0.
  - subst s. unfold Stats.calculateStatsFrom in *; cbn [Stats.topProviders Stats.totalTokens] in *.
    fold totals. unfold Stats.topProvidersOf. apply Forall_forall. intros p Hin.
    apply in_map_iff in Hin. destruct Hin as (kv & <- & Hin0).
    cbn [Stats.p_percentage Stats.p_count]. apply Hshare.
    pose proof (providers_total env statsCache u totals) as Hsum.
    rewrite Htotal. rewrite <- Hsum. unfold Observed.sumValues.
    rewrite <- sumOver_map. apply (positive_member _ (snd kv)).
    + unfold Stats.mergeTotals. apply modelLoop_provider_values. constructor.
    + apply in_map. apply In_firstn in Hin0.
      apply (Permutation_in _ (proj1 (sortDesc_spec snd _))) in Hin0. exact Hin0.
Qed.

Lemma accumulated_shares_bounded_witness :
  let s := Stats.calculateStatsFrom Host.utc 2025 Host.smallCache [] Host.noUsage in
  Forall (fun m => (0 <= Stats.percentage m)%Q /\ (Stats.percentage m <= 100)%Q)
         (Stats.topModels s) /\
  Forall (fun p => (0 <= Stats.p_percentage p)%Q /\ (Stats.p_percentage p <= 100)%Q)
         (Stats.topProviders s).
Proof.
  apply (accumulated_shares_bounded Host.utc 2025 Host.smallCache [] Host.noUsage).
  vm_compute. repeat constructor.
Defined.

(** ** Streaks, beyond the longest run *)

(** What the loop keeps whatever the gaps are: the current run ends
    before index [i], and the recorded run has [maxStreak] elements. *)
Lemma streakStep_paced (d : option Z) (i : nat) (r : Stats.Run) :
  Observed.paced i r -> Observed.paced (S i) (Stats.streakStep d i r).
Proof.
  unfold Observed.paced, Stats.streakStep.
  intros (H1 & H2 & H3 & H4 & H5).
  destruct (Stats.isOne d).
  - destruct (Z.ltb_spec (Stats.r_maxStreak r) (Stats.tempStreak r + 1));
      cbn [Stats.tempStreak Stats.tempStreakStart Stats.maxStreakStart
           Stats.maxStreakEnd Stats.r_maxStreak]; repeat split; lia.
  - cbn [Stats.tempStreak Stats.tempStreakStart Stats.maxStreakStart
         Stats.maxStreakEnd Stats.r_maxStreak]; repeat split; lia.
Qed.

Lemma streakLoop_paced (env : Env) (rest : list string) (prev : string) (i : nat)
  (r : Stats.Run) :
  Observed.paced i r ->
  Observed.paced (i + List.length rest) (Stats.streakLoop env prev rest i r).
Proof.
  revert prev i r. induction rest as [|curr rest IH]; intros prev i r H; simpl.
  - rewrite Nat.add_0_r. exact H.
  - replace (i + S (List.length rest))%nat with (S i + List.length rest)%nat by lia.
    apply IH. apply streakStep_paced. exact H.
Qed.

Lemma Set_add_all_distinct (l acc : list string) :
  NoDup (acc ++ l) -> fold_left JS.Set_add l acc = acc ++ l.
Proof.
  revert acc. induction l as [|x l IH]; intros acc H; simpl.
  - rewrite app_nil_r. reflexivity.
  - assert (Hx : JS.Set_has acc x = false).
    { destruct (JS.Set_has acc x) eqn:E; [|reflexivity].
      apply Set_has_In in E. apply NoDup_remove_2 in H.
      exfalso. apply H. apply in_or_app. left. exact E. }
    unfold JS.Set_add at 2. rewrite Hx.
    rewrite IH; rewrite <- app_assoc; [reflexivity|exact H].
Qed.

Lemma slice_part (l : list string) (from to : nat) :
  exists before after, l = before ++ Stats.slice l from to ++ after.
Proof.
  unfold Stats.slice. exists (firstn from l), (skipn (S to - from) (skipn from l)).
  rewrite firstn_skipn, firstn_skipn. reflexivity.
Qed.

(** X22. The days of the longest streak, the keys of the daily-activity map
    being distinct: without an active date of the year the streaks are 0
    and no day is highlighted; otherwise the max streak is at least 1
    and at most the number of active dates, and the highlighted days are
    exactly [maxStreak] distinct active dates of the year. *)
Theorem max_streak_days_count (env : Env) (dailyActivity : JS.Map Z) (year : Z) :
  NoDup (JS.Map_keys dailyActivity) ->
  let dates := Stats.activeDatesOf dailyActivity year in
  let streaks := Stats.calculateStreaks env dailyActivity year in
  (dates = [] ->
   Stats.s_maxStreak streaks = 0 /\ Stats.s_currentStreak streaks = 0 /\
   Stats.s_maxStreakDays streaks = []) /\
  (dates <> [] ->
   1 <= Stats.s_maxStreak streaks <= Z.of_nat (List.length dates)) /\
  Z.of_nat (List.length (Stats.s_maxStreakDays streaks)) = Stats.s_maxStreak streaks /\
  NoDup (Stats.s_maxStreakDays streaks) /\
  incl (Stats.s_maxStreakDays streaks) dates.
Proof.
  intros Hkeys dates streaks.
  assert (Hnd : NoDup dates).
  { unfold dates, Stats.activeDatesOf.
    apply (Permutation_NoDup (Permutation_sym (sortStrings_perm _))).
    apply NoDup_filter. exact Hkeys. }
  subst streaks. unfold Stats.calculateStreaks. fold dates.
  destruct dates as [|first rest] eqn:Hdates.
  - cbn [Stats.s_maxStreak Stats.s_currentStreak Stats.s_maxStreakDays].
    split; [intros _; repeat split|]. split; [congruence|].
    split; [reflexivity|]. split; [constructor|intros x []].
  - cbn [Stats.s_maxStreak Stats.s_currentStreak Stats.s_maxStreakDays].
    pose proof (streakLoop_paced env rest first 1 Stats.firstRun) as Hp.
    assert (H0 : Observed.paced 1 Stats.firstRun)
      by (unfold Observed.paced, Stats.firstRun; simpl; repeat split; lia).
    specialize (Hp H0). set (r := Stats.streakLoop env first rest 1 Stats.firstRun) in *.
    destruct Hp as (P1 & P2 & P3 & P4 & P5).
    destruct (slice_part (first :: rest) (Stats.maxStreakStart r) (Stats.maxStreakEnd r))
      as (before & after & Hsplit).
    set (days := Stats.slice (first :: rest) (Stats.maxStreakStart r) (Stats.maxStreakEnd r))
      in *.
    assert (Hdays : NoDup days).
    { rewrite Hsplit in Hnd. apply NoDup_app_remove_l in Hnd.
      apply NoDup_app_remove_r in Hnd. exact Hnd. }
    assert (Hlen : List.length days =
                   (S (Stats.maxStreakEnd r) - Stats.maxStreakStart r)%nat).
    { unfold days, Stats.slice. rewrite length_firstn, length_skipn. simpl List.length. lia. }
    rewrite (Set_add_all_distinct days []) by exact Hdays. simpl app.
    split; [intros H; discriminate H|].
    split; [intros _; simpl List.length; lia|].
    split; [lia|]. split; [exact Hdays|].
    intros x Hx. rewrite Hsplit. apply in_or_app. right. apply in_or_app. left. exact Hx.
Qed.

Lemma max_streak_days_count_witness :
  let streaks := Stats.calculateStreaks Host.utc Host.january 2025 in
  Stats.s_maxStreak streaks = 4 /\
  Z.of_nat (List.length (Stats.s_maxStreakDays streaks)) = Stats.s_maxStreak streaks.
Proof.
  cbv zeta. split; [vm_compute; reflexivity|].
  apply (max_streak_days_count Host.utc Host.january 2025).
  vm_compute. repeat constructor; simpl; intuition discriminate.
Defined.

Lemma countStreakBackwards_bounds (env : Env) (fuel : nat) (dailyActivity : JS.Map Z)
  (checkDate streak : Z) :
  streak <= Stats.countStreakBackwards env fuel dailyActivity checkDate streak
         <= streak + Z.of_nat fuel.
Proof.
  revert checkDate streak. induction fuel as [|fuel IH]; intros checkDate streak; simpl.
  - lia.
  - destruct (JS.Map_has dailyActivity _); [|lia].
    specialize (IH (checkDate - Dates.msPerDay) (streak + 1)). lia.
Qed.

Lemma currentStreakOf_start (env : Env) (dailyActivity : JS.Map Z) :
  let today := Clock.formatDateKey env (Date_now env) in
  let yesterday := Clock.formatDateKey env (Date_now env - Dates.msPerDay) in
  let current := Stats.currentStreakOf env dailyActivity in
  (current = 0 <->
   JS.Map_has dailyActivity today = false /\ JS.Map_has dailyActivity yesterday = false) /\
  (JS.Map_has dailyActivity today = true -> JS.Map_has dailyActivity yesterday = false ->
   current = 1) /\
  0 <= current.
Proof.
  cbv zeta. unfold Stats.currentStreakOf.
  pose proof (countStreakBackwards_bounds env (List.length dailyActivity) dailyActivity
                (Date_now env) 1) as Hb1.
  pose proof (countStreakBackwards_bounds env (List.length dailyActivity) dailyActivity
                (Date_now env - Dates.msPerDay) 1) as Hb2.
  destruct (JS.Map_has dailyActivity (Clock.formatDateKey env (Date_now env))) eqn:Ht.
  - split; [split; [lia|intros [H _]; discriminate H]|]. split; [|lia].
    intros _ Hy. destruct dailyActivity as [|e rest]; [discriminate Ht|].
    cbn [List.length Stats.countStreakBackwards]. rewrite Hy. reflexivity.
  - destruct (JS.Map_has dailyActivity
                (Clock.formatDateKey env (Date_now env - Dates.msPerDay))) eqn:Hy.
    + split; [split; [lia|intros [_ H]; discriminate H]|]. split; [discriminate|lia].
    + split; [split; [intros _; split; reflexivity|reflexivity]|]. split; [discriminate|lia].
Qed.

(** X23. The current streak of [calculateStreaks]. Without an active
    date in the requested year it is 0, whatever today's activity is.
    Otherwise it counts back from today when today is active, else from
    yesterday when yesterday is: it is 0 exactly when neither day is
    active, and exactly 1 when today is active and yesterday is not. It
    is never negative. *)
Theorem current_streak_start (env : Env) (dailyActivity : JS.Map Z) (year : Z) :
  let today := Clock.formatDateKey env (Date_now env) in
  let yesterday := Clock.formatDateKey env (Date_now env - Dates.msPerDay) in
  let current := Stats.s_currentStreak (Stats.calculateStreaks env dailyActivity year) in
  (Stats.activeDatesOf dailyActivity year = [] -> current = 0) /\
  (Stats.activeDatesOf dailyActivity year <> [] ->
   (current = 0 <->
    JS.Map_has dailyActivity today = false /\
    JS.Map_has dailyActivity yesterday = false) /\
   (JS.Map_has dailyActivity today = true -> JS.Map_has dailyActivity yesterday = false ->
    current = 1)) /\
  0 <= current.
Proof.
  cbv zeta. unfold Stats.calculateStreaks.
  pose proof (currentStreakOf_start env dailyActivity) as H. cbv zeta in H.
  destruct H as (Hzero & Hone & Hpos).
  destruct (Stats.activeDatesOf dailyActivity year) as [|first rest];
    cbn [Stats.s_currentStreak].
  - split; [reflexivity|]. split; [intros Hne; now elim Hne|lia].
  - split; [discriminate|]. split; [|exact Hpos].
    intros _. split; [exact Hzero|exact Hone].
Qed.

(** ** Apportionment, beyond the exact sum *)

Lemma Math_round_nonneg (q : Q) : (0 <= q)%Q -> 0 <= JS.Math_round q.
Proof.
  intros H. unfold JS.Math_round.
  change 0 with (Qfloor 0). apply Qfloor_resp_le. lra.
Qed.

Lemma Math_round_le (q : Q) (n : Z) : (q <= inject_Z n)%Q -> JS.Math_round q <= n.
Proof.
  intros H. unfold JS.Math_round.
  pose proof (Qfloor_le (q + (1 # 2))) as Hf.
  assert (Hlt : (inject_Z (Qfloor (q + (1 # 2))) < inject_Z (n + 1))%Q).
  { rewrite inject_Z_plus. change (inject_Z 1) with 1%Q. lra. }
  rewrite <- Zlt_Qlt in Hlt. lia.
Qed.

Lemma round_aux_sign (s : bool) (mx ex : Z) (lx : SpecFloat.location) :
  match SpecFloat.binary_round_aux Double.prec Double.emax s mx ex lx with
  | SpecFloat.S754_zero s' => s' = s
  | SpecFloat.S754_infinity s' => s' = s
  | SpecFloat.S754_finite s' _ _ => s' = s
  | SpecFloat.S754_nan => True
  end.
Proof.
  unfold SpecFloat.binary_round_aux.
  destruct (SpecFloat.shr_fexp Double.prec Double.emax mx ex lx) as [mrs e].
  destruct (SpecFloat.shr_fexp Double.prec Double.emax _ e SpecFloat.loc_Exact)
    as [mrs' e'].
  destruct (SpecFloat.shr_m mrs') as [|m|m]; [reflexivity| |exact I].
  destruct (e' <=? Double.emax - Double.prec); reflexivity.
Qed.

Lemma ofZ_signClear (n : Z) : 0 <= n -> Observed.signClear (Double.ofZ n).
Proof.
  intros Hn. unfold Double.ofZ, SpecFloat.binary_normalize.
  destruct n as [|m|m]; [reflexivity| |lia].
  unfold SpecFloat.binary_round.
  destruct (SpecFloat.shl_align m 0 _) as [mz ez].
  pose proof (round_aux_sign false (Zpos mz) ez SpecFloat.loc_Exact) as H.
  destruct (SpecFloat.binary_round_aux _ _ _ _ _ _); exact H.
Qed.

Lemma mul_signClear (x y : SpecFloat.spec_float) :
  Observed.signClear x -> Observed.signClear y -> Observed.signClear (Double.mul x y).
Proof.
  unfold Double.mul, SpecFloat.SFmul.
  destruct x as [sx|sx| |sx mx ex], y as [sy|sy| |sy my ey]; simpl;
    intros Hx Hy; subst; try reflexivity; try exact I.
  pose proof (round_aux_sign (xorb false false) (Zpos (mx * my)) (ex + ey)
                SpecFloat.loc_Exact) as H.
  destruct (SpecFloat.binary_round_aux _ _ _ _ _ _); exact H.
Qed.

Lemma div_signClear (x y : SpecFloat.spec_float) :
  Observed.signClear x -> Observed.signClear y -> Observed.signClear (Double.div x y).
Proof.
  unfold Double.div, SpecFloat.SFdiv.
  destruct x as [sx|sx| |sx mx ex], y as [sy|sy| |sy my ey]; simpl;
    intros Hx Hy; subst; try reflexivity; try exact I.
  destruct (SpecFloat.SFdiv_core_binary Double.prec Double.emax (Zpos mx) ex (Zpos my) ey)
    as [[mz ez] lz].
  pose proof (round_aux_sign (xorb false false) mz ez lz) as H.
  destruct (SpecFloat.binary_round_aux _ _ _ _ _ _); exact H.
Qed.

Lemma Double_round_nonneg (x : SpecFloat.spec_float) :
  Observed.signClear x -> 0 <= Double.Math_round x.
Proof.
  intros Hx. unfold Double.Math_round.
  destruct x as [s|s| |s m e]; simpl in *; try lia.
  - apply Math_round_nonneg. apply Qle_refl.
  - subst s. apply Math_round_nonneg. simpl SpecFloat.cond_Zopp.
    apply Qmult_le_0_compat; [discriminate|].
    apply Qpower_0_le. discriminate.
Qed.

(** X24. The four components of a model add up to its count in every
    case. Without a usage record, or with one whose fields do not add up
    to a positive number, the whole count is input and the other three
    are 0. When the count and the four fields are not negative, the
    output, cache-read and cache-write components are not negative
    either (the input component, which takes the drift, can be). *)
Theorem apportion_every_case (tokens : Z) (usage : option StatsCache.ModelUsage) :
  let c := Stats.apportion tokens usage in
  let whole :=
    {| Stats.inputTokens := tokens; Stats.outputTokens := 0;
       Stats.cachedInputTokens := 0; Stats.cacheCreationTokens := 0 |} in
  Stats.sumComponents c = tokens /\
  (usage = None -> c = whole) /\
  (forall u, usage = Some u -> Stats.usageTotalOf u <= 0 -> c = whole) /\
  (forall u, usage = Some u ->
     0 <= tokens ->
     0 <= JS.nullish (StatsCache.inputTokens u) 0 ->
     0 <= JS.nullish (StatsCache.outputTokens u) 0 ->
     0 <= JS.nullish (StatsCache.cacheReadInputTokens u) 0 ->
     0 <= JS.nullish (StatsCache.cacheCreationInputTokens u) 0 ->
     0 <= Stats.outputTokens c /\ 0 <= Stats.cachedInputTokens c /\
     0 <= Stats.cacheCreationTokens c) /\
  Stats.apportion 2 (Some (Host.usageRecord 0 1 1 1)) =
    {| Stats.inputTokens := -1; Stats.outputTokens := 1;
       Stats.cachedInputTokens := 1; Stats.cacheCreationTokens := 1 |}.
Proof.
  cbv zeta. split; [|split; [|split; [|split]]].
  - unfold Stats.apportion, Stats.sumComponents.
    destruct usage as [u|]; [|simpl; lia].
    destruct (0 <? _); [|simpl; lia].
    cbn [Stats.inputTokens Stats.outputTokens Stats.cachedInputTokens
         Stats.cacheCreationTokens].
    match goal with |- context [?a =? tokens] => destruct (Z.eqb_spec a tokens) end; lia.
  - intros ->. reflexivity.
  - intros u -> Hle. unfold Stats.apportion.
    change (JS.nullish (StatsCache.inputTokens u) 0 +
            JS.nullish (StatsCache.outputTokens u) 0 +
            JS.nullish (StatsCache.cacheReadInputTokens u) 0 +
            JS.nullish (StatsCache.cacheCreationInputTokens u) 0)
      with (Stats.usageTotalOf u).
    destruct (Z.ltb_spec 0 (Stats.usageTotalOf u)); [lia|reflexivity].
  - intros u -> Ht H1 H2 H3 H4. unfold Stats.apportion.
    change (JS.nullish (StatsCache.inputTokens u) 0 +
            JS.nullish (StatsCache.outputTokens u) 0 +
            JS.nullish (StatsCache.cacheReadInputTokens u) 0 +
            JS.nullish (StatsCache.cacheCreationInputTokens u) 0)
      with (Stats.usageTotalOf u).
    destruct (Z.ltb_spec 0 (Stats.usageTotalOf u)) as [Hpos|_];
      cbn [Stats.inputTokens Stats.outputTokens Stats.cachedInputTokens
           Stats.cacheCreationTokens]; [|lia].
    assert (Hratio : Observed.signClear
              (Double.div (Double.ofZ tokens) (Double.ofZ (Stats.usageTotalOf u)))).
    { apply div_signClear; apply ofZ_signClear; lia. }
    assert (Hnn : forall f, 0 <= f ->
              0 <= Stats.scaled f
                     (Double.div (Double.ofZ tokens) (Double.ofZ (Stats.usageTotalOf u)))).
    { intros f Hf. unfold Stats.scaled. apply Double_round_nonneg.
      apply mul_signClear; [apply ofZ_signClear; exact Hf|exact Hratio]. }
    split; [|split]; apply Hnn; assumption.
  - vm_compute. reflexivity.
Qed.

(** ** The bar charts *)

Lemma mapIndexed_length {A B : Type} (f : A -> Z -> B) (i : Z) (l : list A) :
  List.length (Chart.mapIndexed f i l) = List.length l.
Proof.
  revert i. induction l as [|x l IH]; intros i; simpl; [reflexivity|].
  now rewrite IH.
Qed.

Lemma mapIndexed_nth {A B : Type} (f : A -> Z -> B) (i : Z) (l : list A)
  (k : nat) (a : A) (b : B) :
  (k < List.length l)%nat ->
  nth k (Chart.mapIndexed f i l) b = f (nth k l a) (i + Z.of_nat k).
Proof.
  revert i k. induction l as [|x l IH]; intros i k Hk; simpl in Hk; [lia|].
  destruct k as [|k]; simpl.
  - now rewrite Z.add_0_r.
  - rewrite (IH (i + 1) k) by lia. f_equal. lia.
Qed.

Section Bars.

Variables full least : Z.
Hypothesis full_least : 0 <= least <= full.

Let bar (maxCount count : Z) : Z :=
  JS.Math_max least
    (JS.Math_round (Chart.heightPercent maxCount count * inject_Z full)%Q).

Lemma bar_bounds (maxCount count : Z) :
  count <= maxCount -> least <= bar maxCount count <= full.
Proof.
  intros Hle. unfold bar, JS.Math_max. split; [lia|].
  apply Z.max_lub; [lia|]. apply Math_round_le.
  unfold Chart.heightPercent. destruct (Z.ltb_spec 0 maxCount) as [Hpos|Hnone].
  - assert (Hq : (inject_Z count / inject_Z maxCount <= 1)%Q).
    { apply Qle_shift_div_r.
      - change (inject_Z 0 < inject_Z maxCount)%Q. rewrite <- Zlt_Qlt. exact Hpos.
      - rewrite Qmult_1_l. rewrite <- Zle_Qle. exact Hle. }
    assert (Hf : (0 <= inject_Z full)%Q).
    { change (inject_Z 0 <= inject_Z full)%Q. rewrite <- Zle_Qle. lia. }
    setoid_replace (inject_Z full) with (1 * inject_Z full)%Q at 2 by ring.
    apply Qmult_le_compat_r; assumption.
  - rewrite Qmult_0_l. change (inject_Z 0 <= inject_Z full)%Q.
    rewrite <- Zle_Qle. lia.
Qed.

Lemma bar_full (maxCount : Z) : 0 < maxCount -> bar maxCount maxCount = full.
Proof.
  intros Hpos. unfold bar, JS.Math_max, Chart.heightPercent.
  destruct (Z.ltb_spec 0 maxCount); [|lia].
  assert (Hq : (inject_Z maxCount / inject_Z maxCount * inject_Z full ==
                inject_Z full)%Q).
  { field. intros Hz. apply (inject_Z_injective maxCount 0) in Hz. lia. }
  rewrite (Math_round_proper _ _ Hq), Math_round_integer. lia.
Qed.

Lemma bar_least (maxCount count : Z) :
  count <= 0 \/ maxCount <= 0 -> bar maxCount count = least.
Proof.
  intros Hcase. unfold bar, JS.Math_max. apply Z.max_l.
  transitivity 0; [|lia]. apply Math_round_le.
  unfold Chart.heightPercent. destruct (Z.ltb_spec 0 maxCount) as [Hpos|Hnone].
  - destruct Hcase as [Hc|]; [|lia].
    assert (Hq : (inject_Z count / inject_Z maxCount <= 0)%Q).
    { apply Qle_shift_div_r.
      - change (inject_Z 0 < inject_Z maxCount)%Q. rewrite <- Zlt_Qlt. exact Hpos.
      - rewrite Qmult_0_l. change (inject_Z count <= inject_Z 0)%Q.
        rewrite <- Zle_Qle. exact Hc. }
    assert (Hf : (0 <= inject_Z full)%Q).
    { change (inject_Z 0 <= inject_Z full)%Q. rewrite <- Zle_Qle. lia. }
    change (inject_Z 0) with 0%Q. nra.
  - rewrite Qmult_0_l. apply Qle_refl.
Qed.

Lemma bar_monotone (maxCount a b : Z) :
  a <= b -> bar maxCount a <= bar maxCount b.
Proof.
  intros Hab. unfold bar, JS.Math_max. apply Z.max_le_compat_l.
  unfold JS.Math_round. apply Qfloor_resp_le. apply Qplus_le_l.
  assert (Hf : (0 <= inject_Z full)%Q).
  { change (inject_Z 0 <= inject_Z full)%Q. rewrite <- Zle_Qle. lia. }
  apply Qmult_le_compat_r; [|exact Hf].
  unfold Chart.heightPercent. destruct (Z.ltb_spec 0 maxCount) as [Hpos|Hnone].
  - unfold Qdiv. apply Qmult_le_compat_r.
    + rewrite <- Zle_Qle. exact Hab.
    + apply Qinv_le_0_compat. change (inject_Z 0 <= inject_Z maxCount)%Q.
      rewrite <- Zle_Qle. lia.
  - apply Qle_refl.
Qed.

End Bars.

(** X25. The weekly chart drawn from the weekday distribution that
    [buildWeekdayActivity] builds has one bar per bucket, each between 8
    and 100 pixels high, and a bucket with a larger count never gets a
    lower bar. The bar at index k is highlighted exactly when k is the
    most active day. When some bucket is positive the bar of the most
    active day is 100 pixels high; a bucket that is not positive gets 8
    pixels, so a week without activity draws seven bars of 8 pixels. *)
Theorem weekly_bars (weekdayCounts : list Z) :
  let w := Stats.buildWeekdayActivity weekdayCounts in
  let bars := Chart.WeeklyBarChart w in
  let none := {| Chart.barHeight := 0; Chart.isHighlighted := false |} in
  let height k := Chart.barHeight (nth k bars none) in
  List.length bars = List.length weekdayCounts /\
  (forall k, (k < List.length weekdayCounts)%nat ->
     8 <= height k <= 100 /\
     Chart.isHighlighted (nth k bars none) = (Z.of_nat k =? Stats.w_mostActiveDay w) /\
     (nth k weekdayCounts 0 <= 0 -> height k = 8)) /\
  (forall j k, (j < List.length weekdayCounts)%nat -> (k < List.length weekdayCounts)%nat ->
     nth j weekdayCounts 0 <= nth k weekdayCounts 0 -> height j <= height k) /\
  (Exists (fun c => 0 < c) weekdayCounts ->
     height (Z.to_nat (Stats.w_mostActiveDay w)) = 100).
Proof.
  cbv zeta. unfold Chart.WeeklyBarChart.
  unfold Stats.buildWeekdayActivity;
    cbn [Stats.w_mostActiveDay Stats.w_maxCount Stats.w_counts].
  pose proof (mostActiveLoop_spec weekdayCounts 0 (0, 0)) as H.
  cbv zeta in H. cbn [fst snd] in H. destruct H as (Hge & Hall & Hcase).
  set (best := Stats.mostActiveLoop weekdayCounts 0 (0, 0)) in *.
  split; [apply mapIndexed_length|].
  split; [|split].
  - intros k Hk. rewrite (mapIndexed_nth _ 0 weekdayCounts k 0 _ Hk).
    cbn [Chart.barHeight Chart.isHighlighted]. split; [|split].
    + apply (bar_bounds 100 8); [lia|]. apply Hall, Hk.
    + reflexivity.
    + intros Hz. apply (bar_least 100 8); [lia|]. left; exact Hz.
  - intros j k Hj Hk Hjk.
    rewrite (mapIndexed_nth _ 0 weekdayCounts j 0 _ Hj).
    rewrite (mapIndexed_nth _ 0 weekdayCounts k 0 _ Hk).
    cbn [Chart.barHeight]. apply (bar_monotone 100 8); [lia|exact Hjk].
  - intros Hpos. apply Exists_exists in Hpos. destruct Hpos as (c & Hc & Hp).
    destruct Hcase as [[Hr Hle]|(k & Hk & Hidx & Hval & Hbig & _)].
    + apply (In_nth _ _ 0) in Hc. destruct Hc as (i & Hi & <-).
      specialize (Hle i Hi). lia.
    + rewrite Hidx. replace (Z.to_nat (0 + Z.of_nat k)) with k by lia.
      rewrite (mapIndexed_nth _ 0 weekdayCounts k 0 _ Hk).
      cbn [Chart.barHeight]. rewrite Hval. apply (bar_full 100 8); lia.
Qed.

(** X26. The monthly chart of a distribution whose counts do not exceed its
    recorded maximum has one bar per bucket, each between 6 and 80
    pixels high, in the order of the counts; the bar of a bucket that
    holds the positive maximum is 80 pixels high, and the bar at index k
    is highlighted exactly when k is the most active month. *)
Theorem monthly_bars (m : Stats.MonthlyActivity) :
  Forall (fun c => c <= Stats.m_maxCount m) (Stats.m_counts m) ->
  let bars := Chart.MonthlyBarChart m in
  let none := {| Chart.barHeight := 0; Chart.isHighlighted := false |} in
  let height k := Chart.barHeight (nth k bars none) in
  List.length bars = List.length (Stats.m_counts m) /\
  (forall k, (k < List.length (Stats.m_counts m))%nat ->
     6 <= height k <= 80 /\
     Chart.isHighlighted (nth k bars none) = (Z.of_nat k =? Stats.mostActiveMonth m) /\
     (0 < Stats.m_maxCount m -> nth k (Stats.m_counts m) 0 = Stats.m_maxCount m ->
      height k = 80)) /\
  (forall j k, (j < List.length (Stats.m_counts m))%nat ->
     (k < List.length (Stats.m_counts m))%nat ->
     nth j (Stats.m_counts m) 0 <= nth k (Stats.m_counts m) 0 -> height j <= height k).
Proof.
  intros Hmax. cbv zeta. unfold Chart.MonthlyBarChart.
  split; [apply mapIndexed_length|]. split.
  - intros k Hk. rewrite (mapIndexed_nth _ 0 (Stats.m_counts m) k 0 _ Hk).
    cbn [Chart.barHeight Chart.isHighlighted]. split; [|split].
    + apply (bar_bounds 80 6); [lia|].
      rewrite Forall_forall in Hmax. apply Hmax, nth_In, Hk.
    + reflexivity.
    + intros Hpos ->. apply (bar_full 80 6); lia.
  - intros j k Hj Hk Hjk.
    rewrite (mapIndexed_nth _ 0 (Stats.m_counts m) j 0 _ Hj).
    rewrite (mapIndexed_nth _ 0 (Stats.m_counts m) k 0 _ Hk).
    cbn [Chart.barHeight]. apply (bar_monotone 80 6); [lia|exact Hjk].
Qed.

Lemma monthly_bars_witness :
  map Chart.barHeight (Chart.MonthlyBarChart Sample.spring) =
    [20; 6; 80; 40; 6; 6; 6; 6; 6; 6; 6; 7] /\
  List.length (Chart.MonthlyBarChart Sample.spring) = 12%nat.
Proof.
  split; [vm_compute; reflexivity|].
  apply (monthly_bars Sample.spring).
  vm_compute. repeat constructor; discriminate.
Defined.

(** ** The projects of the year *)

Section History.

Variable env : Env.
Variable year : Z.

(** The history line names project [p] at a time of the year. *)
Let names (line : string) (p : string) : Prop :=
  JS.truthy (JS.trim line) = true /\
  exists entry ts t,
    JSON_parse_history env line = Some entry /\
    Raw.h_project entry = Some p /\ Raw.h_timestamp entry = Some ts /\
    ts <> 0 /\ p <> EmptyString /\
    Clock.ofNumber ts = Some t /\ Clock.getFullYear env t = year.

Lemma truthy_nonempty (s : string) : JS.truthy s = true <-> s <> EmptyString.
Proof.
  unfold JS.truthy. destruct (String.eqb_spec s EmptyString) as [->|Hne]; simpl.
  - split; [discriminate|intros H; now elim H].
  - split; [intros _; exact Hne|reflexivity].
Qed.

Lemma historyStep_spec (projects : JS.StrSet) (line : string) (p : string) :
  In p (Collector.historyStep env year projects line) <->
  In p projects \/ names line p.
Proof.
  unfold Collector.historyStep, names.
  destruct (JS.truthy (JS.trim line)) eqn:Eline;
    [|split; [intros H; left; exact H|intros [H|[H _]]; [exact H|discriminate]]].
  destruct (JSON_parse_history env line) as [entry|] eqn:Eparse;
    [|split; [intros H; left; exact H
             |intros [H|(_ & e & ts & t & H & _)]; [exact H|discriminate]]].
  destruct (Raw.h_timestamp entry) as [ts|] eqn:Ets;
    [|split; [intros H; left; exact H
             |intros [H|(_ & e & ts & t & H & _ & H' & _)]; [exact H|congruence]]].
  destruct (Raw.h_project entry) as [project|] eqn:Eproject;
    [|split; [intros H; left; exact H
             |intros [H|(_ & e & ts' & t & H & H' & _)]; [exact H|congruence]]].
  destruct (Z.eqb_spec ts 0) as [Hzero|Hts]; cbn [orb].
  { split; [intros H; left; exact H|].
    intros [H|(_ & e & ts' & t & H & _ & H' & Hne & _)]; [exact H|congruence]. }
  destruct (JS.truthy project) eqn:Etruthy; cbn [negb].
  2:{ split; [intros H; left; exact H|].
      intros [H|(_ & e & ts' & t & H & H' & _ & _ & Hne & _)]; [exact H|].
      assert (project = p) by congruence. subst project.
      apply truthy_nonempty in Hne. congruence. }
  destruct (Clock.ofNumber ts) as [t|] eqn:Et.
  2:{ split; [intros H; left; exact H|].
      intros [H|(_ & e & ts' & t & H & _ & H' & _ & _ & Ht & _)]; [exact H|congruence]. }
  destruct (Z.eqb_spec (Clock.getFullYear env t) year) as [Hyear|Hyear].
  - rewrite Set_add_In. split.
    + intros [->|H]; [right|left; exact H].
      split; [reflexivity|]. exists entry, ts, t.
      apply truthy_nonempty in Etruthy. repeat split; assumption.
    + intros [H|(_ & e & ts' & t' & H & H' & _)]; [right; exact H|].
      left. congruence.
  - split; [intros H; left; exact H|].
    intros [H|(_ & e & ts' & t' & H & _ & H' & _ & _ & Ht & Hy)]; [exact H|].
    assert (ts' = ts) by congruence. subst ts'.
    assert (t' = t) by congruence. subst t'. contradiction.
Qed.

Lemma historyStep_NoDup (projects : JS.StrSet) (line : string) :
  NoDup projects -> NoDup (Collector.historyStep env year projects line).
Proof.
  intros Hnd. unfold Collector.historyStep.
  repeat match goal with
         | |- NoDup (match ?x with _ => _ end) => destruct x
         | |- NoDup (if ?b then _ else _) => destruct b
         end; try exact Hnd; apply Set_add_NoDup, Hnd.
Qed.

Lemma history_fold (lines : list string) (projects : JS.StrSet) :
  NoDup projects ->
  let result := fold_left (Collector.historyStep env year) lines projects in
  NoDup result /\
  forall p, In p result <-> In p projects \/ exists line, In line lines /\ names line p.
Proof.
  revert projects. induction lines as [|line lines IH]; intros projects Hnd; simpl.
  - split; [exact Hnd|]. intros p. split; [intros H; left; exact H|].
    intros [H|(l & [] & _)]; exact H.
  - destruct (IH _ (historyStep_NoDup projects line Hnd)) as [Hres Hin].
    split; [exact Hres|]. intros p. rewrite Hin, historyStep_spec. split.
    + intros [[H|H]|(l & Hl & H)].
      * left; exact H.
      * right. exists line. split; [left; reflexivity|exact H].
      * right. exists l. split; [right; exact Hl|exact H].
    + intros [H|(l & [<-|Hl] & H)].
      * left; left; exact H.
      * left; right; exact H.
      * right. exists l. split; assumption.
Qed.

End History.

(** X27. [collectClaudeProjects] returns each project once, and exactly the
    non-empty project names of the lines of history.jsonl that are not
    blank, parse, and carry a non-zero timestamp that is a valid date of
    the requested year on the host; without a data directory, or when
    the history file cannot be read, it returns no project. *)
Theorem projects_of_the_year (env : Env) (year : Z) :
  let projects := Collector.collectClaudeProjects env year in
  let history :=
    match Collector.resolveClaudeDataPath env with
    | Some dataPath =>
        match readFile env (path_join env dataPath "history.jsonl"%string) with
        | Some raw => JS.split "010"%char raw
        | None => []
        end
    | None => []
    end in
  NoDup projects /\
  forall p, In p projects <->
    exists line, In line history /\
      JS.truthy (JS.trim line) = true /\
      exists entry ts t,
        JSON_parse_history env line = Some entry /\
        Raw.h_project entry = Some p /\ Raw.h_timestamp entry = Some ts /\
        ts <> 0 /\ p <> EmptyString /\
        Clock.ofNumber ts = Some t /\ Clock.getFullYear env t = year.
Proof.
  cbv zeta. unfold Collector.collectClaudeProjects.
  assert (Hnone : NoDup (@nil string) /\
                  forall p : string, In p [] <->
                    exists line, In line (@nil string) /\
                      JS.truthy (JS.trim line) = true /\
                      exists entry ts t,
                        JSON_parse_history env line = Some entry /\
                        Raw.h_project entry = Some p /\ Raw.h_timestamp entry = Some ts /\
                        ts <> 0 /\ p <> EmptyString /\
                        Clock.ofNumber ts = Some t /\ Clock.getFullYear env t = year).
  { split; [constructor|]. intros p. split; [intros []|intros (l & [] & _)]. }
  destruct (Collector.resolveClaudeDataPath env) as [dataPath|]; [|exact Hnone].
  destruct (readFile env _) as [raw|]; [|exact Hnone].
  destruct (history_fold env year (JS.split "010"%char raw) [] (NoDup_nil _))
    as [Hnd Hin].
  split; [exact Hnd|]. intros p. rewrite Hin. split.
  - intros [[]|H]. exact H.
  - intros H. right. exact H.
Qed.

(** ** Weekday and monthly distributions (C9) *)

Lemma weekdayOf_calendar (env : Env) (dateKey : string) (day : Z) :
  Described.eastOfUTC env ->
  Dates.dateKeyDay dateKey = Some day ->
  Stats.weekdayOf env dateKey = Z.to_nat (Dates.weekDay day).
Proof.
  intros Heast Hday. unfold Stats.weekdayOf.
  rewrite (ofString_dateKey env dateKey day Hday).
  unfold Clock.getDay, Clock.localDay. do 2 f_equal.
  specialize (Heast (day * Dates.msPerDay)). unfold Dates.msPerDay in *.
  symmetry. apply (Z.div_unique _ _ day (tzOffsetMs env (day * 86400000))); lia.
Qed.

Lemma weekdayTotal_cons (d : nat) (e : string * Z) (l : list (string * Z)) :
  Described.weekdayTotal d (e :: l) =
  match Described.calendarWeekday (fst e) with
  | Some w => if w =? Z.of_nat d then snd e else 0
  | None => 0
  end + Described.weekdayTotal d l.
Proof.
  unfold Described.weekdayTotal. simpl.
  destruct (Described.calendarWeekday (fst e)) as [w|]; [|lia].
  destruct (w =? Z.of_nat d); [apply sumOver_cons|lia].
Qed.

Section Buckets.

Variable env : Env.
Variable year : Z.
Hypothesis east : Described.eastOfUTC env.

Lemma addAt_weekday (dateKey : string) (n : Z) (counts : list Z) (d : nat) :
  Described.isDateKey dateKey = true ->
  (d < List.length counts)%nat ->
  nth d (Stats.addAt (Stats.weekdayOf env dateKey) n counts) 0 =
  nth d counts 0 +
  match Described.calendarWeekday dateKey with
  | Some w => if w =? Z.of_nat d then n else 0
  | None => 0
  end.
Proof.
  intros Hkey Hd. unfold Described.isDateKey in Hkey.
  unfold Described.calendarWeekday.
  destruct (Dates.dateKeyDay dateKey) as [day|] eqn:Hday; [|discriminate].
  rewrite (weekdayOf_calendar env dateKey day east Hday).
  rewrite addAt_nth by exact Hd. cbn [option_map]. f_equal.
  assert (Hw : 0 <= Dates.weekDay day < 7)
    by (unfold Dates.weekDay; apply Z.mod_pos_bound; lia).
  destruct (Nat.eqb_spec d (Z.to_nat (Dates.weekDay day))) as [Hd'|Hne];
    destruct (Z.eqb_spec (Dates.weekDay day) (Z.of_nat d)) as [Heq|Hneq];
    try reflexivity; lia.
Qed.

Lemma liveDays_buckets (l : JS.Map Z) (daily : Stats.Daily) (d : nat) :
  forallb (fun e => Described.isDateKey (fst e))
          (filter (fun e => Clock.yearIs env (fst e) year) l) = true ->
  (d < List.length (Stats.d_weekdayCounts daily))%nat ->
  nth d (Stats.d_weekdayCounts (fold_left (Stats.liveDayStep env year) l daily)) 0 =
  nth d (Stats.d_weekdayCounts daily) 0 +
  Described.weekdayTotal d (filter (fun e => Clock.yearIs env (fst e) year) l).
Proof.
  revert daily. induction l as [|[entryDate messageCount] l IH]; intros daily Hkeys Hd.
  - simpl. unfold Described.weekdayTotal. simpl. rewrite sumOver_nil. lia.
  - cbn [fold_left filter fst] in *. unfold Stats.liveDayStep at 2.
    destruct (Clock.yearIs env entryDate year).
    + cbn [forallb fst] in Hkeys. apply andb_prop in Hkeys. destruct Hkeys as [Hkey Hrest].
      rewrite IH; [|exact Hrest|cbn [Stats.d_weekdayCounts]; rewrite addAt_length; exact Hd].
      cbn [Stats.d_weekdayCounts]. rewrite addAt_weekday by assumption.
      rewrite weekdayTotal_cons. cbn [fst snd]. lia.
    + apply IH; assumption.
Qed.

Let dayOf (entry : StatsCache.DailyActivity) : list (string * Z) :=
  match StatsCache.da_date entry with
  | Some date =>
      if JS.truthy date && Clock.yearIs env date year
      then [(date, JS.nullish (StatsCache.messageCount entry) 0)]
      else []
  | None => []
  end.

Lemma cacheDays_buckets (l : list StatsCache.DailyActivity) (daily : Stats.Daily) (d : nat) :
  forallb (fun e => Described.isDateKey (fst e)) (flat_map dayOf l) = true ->
  (d < List.length (Stats.d_weekdayCounts daily))%nat ->
  nth d (Stats.d_weekdayCounts (fold_left (Stats.cacheDayStep env year) l daily)) 0 =
  nth d (Stats.d_weekdayCounts daily) 0 + Described.weekdayTotal d (flat_map dayOf l).
Proof.
  revert daily. induction l as [|entry l IH]; intros daily Hkeys Hd.
  - simpl. unfold Described.weekdayTotal. simpl. rewrite sumOver_nil. lia.
  - cbn [fold_left flat_map] in *. unfold Stats.cacheDayStep at 2. unfold dayOf at 1.
    unfold dayOf at 1 in Hkeys.
    destruct (StatsCache.da_date entry) as [date|]; [|apply IH; assumption].
    destruct (JS.truthy date && Clock.yearIs env date year); [|apply IH; assumption].
    cbn [app forallb fst] in Hkeys. apply andb_prop in Hkeys. destruct Hkeys as [Hkey Hrest].
    rewrite IH; [|exact Hrest|cbn [Stats.d_weekdayCounts]; rewrite addAt_length; exact Hd].
    cbn [Stats.d_weekdayCounts app]. rewrite addAt_weekday by assumption.
    rewrite weekdayTotal_cons. cbn [fst snd]. lia.
Qed.

Lemma collectDaily_buckets (statsCache : StatsCache.ClaudeStatsCache)
  (u : Collector.ClaudeUsageSummary) (d : nat) :
  forallb (fun e => Described.isDateKey (fst e))
          (Described.countedDays env year statsCache u) = true ->
  (d < 7)%nat ->
  nth d (Stats.d_weekdayCounts (Stats.collectDaily env year statsCache u)) 0 =
  Described.weekdayTotal d (Described.countedDays env year statsCache u).
Proof.
  unfold Described.countedDays, Stats.collectDaily; cbn [Stats.d_weekdayCounts].
  intros Hkeys Hd.
  assert (Hzero : nth d (Stats.d_weekdayCounts Stats.noDaily) 0 = 0)
    by (apply nth_repeat).
  destruct (0 <? JS.Map_size (Collector.dailyActivity u)); cbn [Stats.d_weekdayCounts].
  - rewrite liveDays_buckets; [lia|exact Hkeys|exact Hd].
  - rewrite cacheDays_buckets; [unfold dayOf; lia|exact Hkeys|exact Hd].
Qed.

End Buckets.


